(** * immudb: embedded store options, Azure blob remote storage, immuadmin
      database settings and the transaction hash chain.

    A shallow embedding of
      - [embedded/store/options.go]           (module [Store]),
      - [embedded/remotestorage/azure/blob.go] (module [Azure]),
      - [cmd/immuadmin/command/database.go]    (module [Immuadmin]),
    together with the hash chain of the commit log (module [HashChain]).

    Part I holds the definitions, Part II the lemmas and theorems. *)

From Stdlib Require Import ZArith Bool List Ascii String Sorted Lia.
From Stdlib Require Import Floats.SpecFloat.
From stdpp Require Import base option gmap strings list fin_maps.

Local Open Scope string_scope.
Local Open Scope Z_scope.

(* ===================================================================== *)
(** * Part I: definitions                                                 *)
(* ===================================================================== *)

(** ** Go's [strings] package, on byte strings

    A Go string is a sequence of bytes; [string] (a list of [ascii], that is
    of 8-bit characters) is used for it.  The functions below follow the Go
    standard library for the arguments the repository passes. *)
Module strings.

(** [s[n:]] *)
Fixpoint sliceFrom (n : nat) (s : string) : string :=
  match n, s with
  | O, _ => s
  | S n', String _ s' => sliceFrom n' s'
  | S _, EmptyString => EmptyString
  end.

(** [s[:n]] *)
Fixpoint sliceTo (n : nat) (s : string) : string :=
  match n, s with
  | O, _ => EmptyString
  | S n', String a s' => String a (sliceTo n' s')
  | S _, EmptyString => EmptyString
  end.

(** [len(s) >= len(prefix) && s[:len(prefix)] == prefix] *)
Definition HasPrefix (s prefix : string) : bool :=
  (String.length prefix <=? String.length s)%nat
  && String.eqb (sliceTo (String.length prefix) s) prefix.

(** [len(s) >= len(suffix) && s[len(s)-len(suffix):] == suffix] *)
Definition HasSuffix (s suffix : string) : bool :=
  (String.length suffix <=? String.length s)%nat
  && String.eqb (sliceFrom (String.length s - String.length suffix) s) suffix.

(** [Index(s, substr) >= 0]: some position of [s] starts with [substr]. *)
Fixpoint Contains (s substr : string) : bool :=
  HasPrefix s substr
  || match s with
     | EmptyString => false
     | String _ s' => Contains s' substr
     end.

(** Membership of a byte in an (ASCII) cutset. *)
Fixpoint inCutset (c : ascii) (cutset : string) : bool :=
  match cutset with
  | EmptyString => false
  | String d cutset' => Ascii.eqb c d || inCutset c cutset'
  end.

(** [TrimLeft]: drop leading bytes that are in the cutset. *)
Fixpoint TrimLeft (s cutset : string) : string :=
  match s with
  | EmptyString => EmptyString
  | String a s' => if inCutset a cutset then TrimLeft s' cutset else s
  end.

(** [TrimRight]: drop trailing bytes that are in the cutset. *)
Fixpoint TrimRight (s cutset : string) : string :=
  match s with
  | EmptyString => EmptyString
  | String a s' =>
      match TrimRight s' cutset with
      | EmptyString => if inCutset a cutset then EmptyString
                       else String a EmptyString
      | t => String a t
      end
  end.

(** [Trim(s, cutset)] is [trimLeftByte(trimRightByte(s, c), c)] for a
    one-byte cutset. *)
Definition Trim (s cutset : string) : string :=
  TrimLeft (TrimRight s cutset) cutset.

End strings.

(** ** Go's [sort] package: the sortedness tests *)
Module sort.

(** The loop [for i := n - 1; i > 0; i-- { if less(i, i-1) { return false } }]
    entered with [i]. *)
Fixpoint isSortedFrom (less : nat -> nat -> bool) (i : nat) : bool :=
  match i with
  | O => true
  | S j => if less (S j) j then false else isSortedFrom less j
  end.

(** [sort.SliceIsSorted(x, less)] for a slice of length [n]. *)
Definition SliceIsSorted (n : nat) (less : nat -> nat -> bool) : bool :=
  isSortedFrom less (n - 1).

(** [sort.StringsAreSorted(x)]: [Less(i, j)] is [x[i] < x[j]]. *)
Definition StringsAreSorted (x : list string) : bool :=
  isSortedFrom
    (fun i j => String.ltb (nth i x EmptyString) (nth j x EmptyString))
    (List.length x - 1).

End sort.

(** ** Vocabulary for statements about byte strings *)
Module StringSpec.

(** [s] starts with [p]. *)
Definition startsWith (s p : string) : Prop := exists r, s = p ++ r.

(** [s] ends with [p]. *)
Definition endsWith (s p : string) : Prop := exists r, s = r ++ p.

(** [p] occurs in [s]. *)
Definition occursIn (p s : string) : Prop := exists a b, s = a ++ p ++ b.


End StringSpec.

(** ** [embedded/remotestorage/azure/blob.go] *)
Module Azure.

(** Error values: the three sentinels of the package, and the errors that
    come back from the Azure SDK and from the operating system. *)
Inductive error : Type :=
| ErrInvalidArguments
| ErrInvalidResponse
| ErrTooManyRedirects
| StorageError (errorCode : string)   (* [*azblob.StorageError] *)
| OtherError (msg : string).

Definition StorageErrorCodeBlobNotFound : string := "BlobNotFound".

(** What a call does: return a value, return an error, panic, or end the
    process with a fatal error of the run time (which no caller can
    recover from). *)
Inductive result (A : Type) : Type :=
| Ok (a : A)
| Err (e : error)
| Panic (msg : string)
| Fatal (msg : string).
Arguments Ok {A} a.
Arguments Err {A} e.
Arguments Panic {A} msg.
Arguments Fatal {A} msg.

(** Requests that leave the process. *)
Inductive event : Type :=
| EvDownloadBlobToBuffer (blob : string) (offs size : Z)
| EvOpenFile (fileName : string)
| EvCloseFile (fileName : string)
| EvUploadFileToBlockBlob (blob fileName : string)
| EvCloseBody (blob : string)
| EvGetProperties (blob : string)
| EvListBlobsHierarchy (delimiter prefix : string).

(** [remotestorage.EntryInfo] *)
Record EntryInfo : Type := { Name : string; Size : Z }.

(** [azblob.BlobPrefix]: [Name] is a [*string], nil when the response held
    no name. *)
Module BlobPrefix.
Record t : Type := { Name : option string }.
End BlobPrefix.

(** [azblob.BlobItemInternal] with its [Properties]: [Name] is a [*string],
    [Properties] a pointer and [ContentLength] an [*int64]; each is nil when
    the response did not hold it. *)
Module BlobItem.
Record properties : Type := { ContentLength : option Z }.
Record t : Type := { Name : option string; Properties : option properties }.
End BlobItem.

(** One page of [ContainerListBlobHierarchySegmentResult.Segment]. *)
Record Segment : Type := {
  BlobPrefixes : list BlobPrefix.t;
  BlobItems : list BlobItem.t
}.

(** The Azure SDK and the operating system, as the package uses them.
    [World] is the state outside the process (the container, the local file
    system and the memory the operating system can still give); every
    operation reads and may change it. *)
Record SDK : Type := {
  World : Type;
  TokenCredential : Type;
  (** Whether the operating system can back an allocation of that many
      bytes. *)
  canAllocate : Z -> World -> bool;
  (** [azblob.NewContainerClient]: the error it returns, if any. *)
  NewContainerClient : string -> TokenCredential -> option error;
  (** [DownloadBlobToBuffer]: the bytes written to the buffer, or an error. *)
  DownloadBlobToBuffer :
    string -> Z -> Z -> World -> (error + list ascii) * World;
  (** [os.Open] *)
  osOpen : string -> World -> option error * World;
  (** [UploadFileToBlockBlob] *)
  UploadFileToBlockBlob : string -> string -> World -> option error * World;
  (** [GetProperties] *)
  GetProperties : string -> World -> option error * World;
  (** The pages that [pager.NextPage] yields before it returns false. *)
  ListBlobsHierarchy : string -> string -> World -> list Segment * World
}.

Section WithSDK.
Context (sdk : SDK).

Record ContainerClient : Type := {
  clientURL : string;
  clientCred : TokenCredential sdk
}.

Record Storage : Type := {
  endpoint : string;
  container : string;
  prefix : string;
  cred : TokenCredential sdk;
  containerClient : ContainerClient
}.

(** The process together with its surroundings: the outside world and the
    requests issued so far, oldest first. *)
Record state : Type := { world : World sdk; trace : list event }.

Definition IO (A : Type) : Type := state -> result A * state.

Definition ret {A} (a : A) : IO A := fun st => (Ok a, st).
Definition fail {A} (e : error) : IO A := fun st => (Err e, st).
Definition panic {A} (msg : string) : IO A := fun st => (Panic msg, st).
Definition fatal {A} (msg : string) : IO A := fun st => (Fatal msg, st).
Definition bind {A B} (m : IO A) (k : A -> IO B) : IO B :=
  fun st =>
    match m st with
    | (Ok a, st') => k a st'
    | (Err e, st') => (Err e, st')
    | (Panic msg, st') => (Panic msg, st')
    | (Fatal msg, st') => (Fatal msg, st')
    end.

(** Issue the request [ev] and let the world answer with [op]. *)
Definition request {A} (ev : event)
    (op : World sdk -> A * World sdk) : IO A :=
  fun st =>
    let '(a, w) := op (world st) in
    (Ok a, {| world := w; trace := trace st ++ [ev] |}).

End WithSDK.

Arguments ret {sdk A} a.
Arguments fail {sdk A} e.
Arguments panic {sdk A} msg.
Arguments fatal {sdk A} msg.
Arguments bind {sdk A B} m k.
Arguments request {sdk A} ev op.
Arguments endpoint {sdk} s.
Arguments container {sdk} s.
Arguments prefix {sdk} s.
Arguments cred {sdk} s.
Arguments containerClient {sdk} s.
Arguments world {sdk} s.
Arguments trace {sdk} s.

Notation "'let*' x ':=' m 'in' k" := (bind m (fun x => k))
  (at level 10, x pattern, m at level 200, k at level 200).

(** The Go runtime's bound on the size of one allocation (64-bit). *)
Definition maxAlloc : Z := 2 ^ 48.

(** [make([]byte, size)]: the runtime panics when the length is negative or
    larger than an allocation can be; otherwise it asks the operating system
    for the memory, and ends the process when there is not enough. *)
Definition makeBytes {sdk} (size : Z) : IO sdk unit :=
  if (size <? 0) || (maxAlloc <? size)
  then panic "makeslice: len out of range"
  else fun st =>
         if canAllocate sdk size (world st)
         then ret tt st
         else fatal "runtime: out of memory" st.

Definition Open (sdk : SDK) (endpoint container prefix : string)
    (cred : TokenCredential sdk) : result (Storage sdk) :=
  (* Endpoint must always end with '/' *)
  let endpoint := strings.TrimRight endpoint "/" ++ "/" in
  (* Bucket must have no '/' at all *)
  let container := strings.Trim container "/" in
  if strings.Contains container "/" then Err ErrInvalidArguments else
  (* if prefix is not empty, it must end with '/' *)
  let prefix := strings.Trim prefix "/" in
  let prefix := if String.eqb prefix "" then prefix else prefix ++ "/" in
  match NewContainerClient sdk endpoint cred with
  | Some err => Err err
  | None =>
      Ok {| endpoint := endpoint;
            container := container;
            prefix := prefix;
            cred := cred;
            containerClient :=
              {| clientURL := endpoint; clientCred := cred |} |}
  end.

(** [Get] opens a remote blob resource; the reader it returns holds the
    downloaded bytes. *)
Definition Get {sdk} (s : Storage sdk) (name : string) (offs size : Z)
    : IO sdk (list ascii) :=
  if (offs <? 0) || (size =? 0) then fail ErrInvalidArguments else
  if strings.HasPrefix name "/" || strings.HasSuffix name "/"
  then fail ErrInvalidArguments else
  let* _ := makeBytes size in
  let* r := request (EvDownloadBlobToBuffer name offs size)
               (DownloadBlobToBuffer sdk name offs size) in
  match r with
  | inl err => fail err
  | inr _bytes => ret _bytes
  end.

(** [Put] writes a remote blob resource. *)
Definition Put {sdk} (s : Storage sdk) (name fileName : string)
    : IO sdk unit :=
  if strings.HasPrefix name "/" || strings.HasSuffix name "/"
  then fail ErrInvalidArguments else
  let* o := request (EvOpenFile fileName) (osOpen sdk fileName) in
  match o with
  | Some err => fail err
  | None =>
      (* [defer fl.Close()] runs on both ways out *)
      let* u := request (EvUploadFileToBlockBlob name fileName)
                   (UploadFileToBlockBlob sdk name fileName) in
      match u with
      | Some err =>
          let* _ := request (EvCloseFile fileName) (fun w => (tt, w)) in
          fail err
      | None =>
          let* _ := request (EvCloseBody name) (fun w => (tt, w)) in
          let* _ := request (EvCloseFile fileName) (fun w => (tt, w)) in
          ret tt
      end
  end.

(** [Exists] checks if a remote resource exists and can be read. *)
Definition Exists {sdk} (s : Storage sdk) (name : string) : IO sdk bool :=
  if strings.HasPrefix name "/" || strings.HasSuffix name "/"
  then fail ErrInvalidArguments else
  let* p := request (EvGetProperties name) (GetProperties sdk name) in
  match p with
  | Some (StorageError code) =>
      if String.eqb code StorageErrorCodeBlobNotFound
      then ret false
      else fail (StorageError code)
  | Some err => fail err
  | None => ret true
  end.

(** [*p]: reading through a nil pointer panics. *)
Definition nilDereference : string :=
  "invalid memory address or nil pointer dereference".

Definition deref {sdk A} (p : option A) : IO sdk A :=
  match p with
  | Some a => ret a
  | None => panic nilDereference
  end.

(** [for _, v := range ...BlobPrefixes { subPaths = append(subPaths, *v.Name) }] *)
Fixpoint appendPrefixes {sdk} (vs : list BlobPrefix.t) (subPaths : list string)
    : IO sdk (list string) :=
  match vs with
  | [] => ret subPaths
  | v :: vs' =>
      let* name := deref (BlobPrefix.Name v) in
      appendPrefixes vs' (subPaths ++ [name])%list
  end.

(** [for _, v := range ...BlobItems { entries = append(entries,
    remotestorage.EntryInfo{Name: *v.Name,
    Size: *v.Properties.ContentLength}) }] *)
Fixpoint appendItems {sdk} (vs : list BlobItem.t) (entries : list EntryInfo)
    : IO sdk (list EntryInfo) :=
  match vs with
  | [] => ret entries
  | v :: vs' =>
      let* name := deref (BlobItem.Name v) in
      let* properties := deref (BlobItem.Properties v) in
      let* size := deref (BlobItem.ContentLength properties) in
      appendItems vs' (entries ++ [{| Name := name; Size := size |}])%list
  end.

(** [for pager.NextPage(ctx) { ... }]: the two loops, page after page. *)
Fixpoint collectPages {sdk} (pages : list Segment)
    (entries : list EntryInfo) (subPaths : list string)
    : IO sdk (list EntryInfo * list string) :=
  match pages with
  | [] => ret (entries, subPaths)
  | seg :: pages' =>
      let* subPaths' := appendPrefixes (BlobPrefixes seg) subPaths in
      let* entries' := appendItems (BlobItems seg) entries in
      collectPages pages' entries' subPaths'
  end.

Definition ListEntries {sdk} (s : Storage sdk) (path : string)
    : IO sdk (list EntryInfo * list string) :=
  if negb (String.eqb path "")
     && (negb (strings.HasSuffix path "/") || strings.Contains path "//")
  then fail ErrInvalidArguments else
  let str := prefix s ++ path in
  let* pages := request (EvListBlobsHierarchy "/" str)
                   (ListBlobsHierarchy sdk "/" str) in
  let* collected := collectPages pages [] [] in
  let '(entries, subPaths) := collected in
  if negb (sort.SliceIsSorted (List.length entries)
             (fun i j =>
                String.ltb (Name (nth i entries {| Name := ""; Size := 0 |}))
                           (Name (nth j entries {| Name := ""; Size := 0 |}))))
     || negb (sort.StringsAreSorted subPaths)
  then fail ErrInvalidResponse
  else ret (entries, subPaths).

(** The check that [ListEntries] makes on its path lets [path] through. *)
Definition pathAccepted (path : string) : Prop :=
  path = ""
  \/ (StringSpec.endsWith path "/" /\ ~ StringSpec.occursIn "//" path).

(** What the pages of a listing held, for statements about it: the items
    and the prefixes of all pages in page order, the entry that an item
    gives when its name, its properties and its content length are there,
    and the entries and prefix names that are there. *)
Definition pageItems (pages : list Segment) : list BlobItem.t :=
  concat (map BlobItems pages).

Definition pagePrefixes (pages : list Segment) : list BlobPrefix.t :=
  concat (map BlobPrefixes pages).

Definition entryOf (v : BlobItem.t) : option EntryInfo :=
  match BlobItem.Name v, BlobItem.Properties v with
  | Some name, Some properties =>
      match BlobItem.ContentLength properties with
      | Some size => Some {| Name := name; Size := size |}
      | None => None
      end
  | _, _ => None
  end.

Definition yieldedEntries (pages : list Segment) : list EntryInfo :=
  omap entryOf (pageItems pages).

Definition yieldedPrefixes (pages : list Segment) : list string :=
  omap BlobPrefix.Name (pagePrefixes pages).

(** Nothing in the pages is nil: every prefix carries a name, every item a
    name, properties and a content length. *)
Definition complete (pages : list Segment) : Prop :=
  Forall (fun v => is_Some (BlobPrefix.Name v)) (pagePrefixes pages)
  /\ Forall (fun v => is_Some (entryOf v)) (pageItems pages).

#[global] Instance complete_dec (pages : list Segment)
  : Decision (complete pages).
Proof. unfold complete. apply _. Defined.

(** A backend for examples: the world is the sequence of pages that a
    listing yields; every other request succeeds, a download fills the
    buffer with zero bytes, and up to 2^30 bytes can be allocated. *)
Definition pagesSDK : SDK := {|
  World := list Segment;
  TokenCredential := unit;
  canAllocate := fun size _ => size <=? 2 ^ 30;
  NewContainerClient := fun _ _ => None;
  DownloadBlobToBuffer :=
    fun _ _ size w => (inr (repeat zero (Z.to_nat size)), w);
  osOpen := fun _ w => (None, w);
  UploadFileToBlockBlob := fun _ _ w => (None, w);
  GetProperties := fun _ w => (None, w);
  ListBlobsHierarchy := fun _ _ w => (w, w)
|}.

(** Example values on that backend. *)
Definition exampleStorage : Storage pagesSDK :=
  Build_Storage pagesSDK
    "https://account.blob.core.windows.net/immudb/" "decrypted" "" tt
    (Build_ContainerClient pagesSDK
       "https://account.blob.core.windows.net/immudb/" tt).

Definition startState (w : list Segment) : state pagesSDK :=
  Build_state pagesSDK w [].

Definition prefixNamed (name : string) : BlobPrefix.t :=
  {| BlobPrefix.Name := Some name |}.

Definition itemNamed (name : string) (size : Z) : BlobItem.t :=
  {| BlobItem.Name := Some name;
     BlobItem.Properties := Some {| BlobItem.ContentLength := Some size |} |}.

Definition sortedPages : list Segment :=
  [ {| BlobPrefixes := [prefixNamed "commit/"; prefixNamed "tx/"];
       BlobItems := [ itemNamed "00000000.val" 512 ] |};
    {| BlobPrefixes := [prefixNamed "val/"];
       BlobItems := [ itemNamed "00000001.val" 64 ] |} ].



(** A backend for examples that knows one blob name: the world is that name,
    and the properties request answers [BlobNotFound] for any other. *)
Definition oneBlobSDK : SDK := {|
  World := string;
  TokenCredential := unit;
  canAllocate := fun size _ => size <=? 2 ^ 30;
  NewContainerClient := fun _ _ => None;
  DownloadBlobToBuffer :=
    fun name _ size w =>
      (if String.eqb name w then inr (repeat zero (Z.to_nat size))
       else inl (StorageError StorageErrorCodeBlobNotFound), w);
  osOpen :=
    fun fileName w =>
      (if String.eqb fileName "" then Some (OtherError "no such file")
       else None, w);
  UploadFileToBlockBlob := fun name _ _ => (None, name);
  GetProperties :=
    fun name w =>
      (if String.eqb name w then None
       else Some (StorageError StorageErrorCodeBlobNotFound), w);
  ListBlobsHierarchy := fun _ _ w => ([], w)
|}.

Definition oneBlobStorage : Storage oneBlobSDK :=
  Build_Storage oneBlobSDK "https://account.blob.core.windows.net/immudb/"
    "decrypted" "" tt
    (Build_ContainerClient oneBlobSDK
       "https://account.blob.core.windows.net/immudb/" tt).

(** [func (s *Storage) String() string] *)
Definition String {sdk} (s : Storage sdk) : string := "blob:" ++ endpoint s.

End Azure.

(** ** [embedded/store/options.go] *)
Module Store.

(** A Go [int] (64 bits); the package only compares these values. *)
Definition int : Type := Z.

(** [float32], with the comparisons of IEEE 754 from [SpecFloat]. *)
Definition float32 : Type := spec_float.
Definition float32_0 : float32 := S754_zero false.
(** 100 = 13107200 * 2^-17, a 24-bit mantissa *)
Definition float32_100 : float32 := S754_finite false 13107200 (-17).
(** [x <= y] on [float32]; false when either side is NaN. *)
Definition float32_le (x y : float32) : bool := SFleb x y.

(** Addresses of heap objects; a pointer is [None] (nil) or an address. *)
Definition loc : Type := positive.

(** Values of the interface and function types that [Options] stores; only
    whether they are nil matters to this package. *)
Inductive Logger : Type :=
| NewSimpleLogger (name : string)
    (* [logger.NewSimpleLogger(name, os.Stderr)] *)
| LoggerImpl (id : positive).

Inductive AppFactoryFunc : Type :=
| AppFactoryImpl (id : positive).

Inductive TimeFunc : Type :=
| TimeNow
    (* [func() time.Time { return time.Now() }] *)
| TimeFuncImpl (id : positive).

(** [type IndexOptions struct] *)
Module IndexOptions.

Record t : Type := mk {
  CacheSize : int;
  FlushThld : int;
  SyncThld : int;
  FlushBufferSize : int;
  CleanupPercentage : float32;
  MaxActiveSnapshots : int;
  MaxNodeSize : int;
  RenewSnapRootAfter : int;
  CompactionThld : int;
  DelayDuringCompaction : int;
  NodesLogMaxOpenedFiles : int;
  HistoryLogMaxOpenedFiles : int;
  CommitLogMaxOpenedFiles : int
}.

(** Assignment to one field, [opts.F = v]: every other field is copied. *)
Definition set_CacheSize (v : int) (o : t) : t :=
  let '(mk _ x2 x3 x4 x5 x6 x7 x8 x9 x10 x11 x12 x13) := o in
  mk v x2 x3 x4 x5 x6 x7 x8 x9 x10 x11 x12 x13.

Definition set_FlushThld (v : int) (o : t) : t :=
  let '(mk x1 _ x3 x4 x5 x6 x7 x8 x9 x10 x11 x12 x13) := o in
  mk x1 v x3 x4 x5 x6 x7 x8 x9 x10 x11 x12 x13.

Definition set_SyncThld (v : int) (o : t) : t :=
  let '(mk x1 x2 _ x4 x5 x6 x7 x8 x9 x10 x11 x12 x13) := o in
  mk x1 x2 v x4 x5 x6 x7 x8 x9 x10 x11 x12 x13.

Definition set_FlushBufferSize (v : int) (o : t) : t :=
  let '(mk x1 x2 x3 _ x5 x6 x7 x8 x9 x10 x11 x12 x13) := o in
  mk x1 x2 x3 v x5 x6 x7 x8 x9 x10 x11 x12 x13.

Definition set_CleanupPercentage (v : float32) (o : t) : t :=
  let '(mk x1 x2 x3 x4 _ x6 x7 x8 x9 x10 x11 x12 x13) := o in
  mk x1 x2 x3 x4 v x6 x7 x8 x9 x10 x11 x12 x13.

Definition set_MaxActiveSnapshots (v : int) (o : t) : t :=
  let '(mk x1 x2 x3 x4 x5 _ x7 x8 x9 x10 x11 x12 x13) := o in
  mk x1 x2 x3 x4 x5 v x7 x8 x9 x10 x11 x12 x13.

Definition set_MaxNodeSize (v : int) (o : t) : t :=
  let '(mk x1 x2 x3 x4 x5 x6 _ x8 x9 x10 x11 x12 x13) := o in
  mk x1 x2 x3 x4 x5 x6 v x8 x9 x10 x11 x12 x13.

Definition set_RenewSnapRootAfter (v : int) (o : t) : t :=
  let '(mk x1 x2 x3 x4 x5 x6 x7 _ x9 x10 x11 x12 x13) := o in
  mk x1 x2 x3 x4 x5 x6 x7 v x9 x10 x11 x12 x13.

Definition set_CompactionThld (v : int) (o : t) : t :=
  let '(mk x1 x2 x3 x4 x5 x6 x7 x8 _ x10 x11 x12 x13) := o in
  mk x1 x2 x3 x4 x5 x6 x7 x8 v x10 x11 x12 x13.

Definition set_DelayDuringCompaction (v : int) (o : t) : t :=
  let '(mk x1 x2 x3 x4 x5 x6 x7 x8 x9 _ x11 x12 x13) := o in
  mk x1 x2 x3 x4 x5 x6 x7 x8 x9 v x11 x12 x13.

Definition set_NodesLogMaxOpenedFiles (v : int) (o : t) : t :=
  let '(mk x1 x2 x3 x4 x5 x6 x7 x8 x9 x10 _ x12 x13) := o in
  mk x1 x2 x3 x4 x5 x6 x7 x8 x9 x10 v x12 x13.

Definition set_HistoryLogMaxOpenedFiles (v : int) (o : t) : t :=
  let '(mk x1 x2 x3 x4 x5 x6 x7 x8 x9 x10 x11 _ x13) := o in
  mk x1 x2 x3 x4 x5 x6 x7 x8 x9 x10 x11 v x13.

Definition set_CommitLogMaxOpenedFiles (v : int) (o : t) : t :=
  let '(mk x1 x2 x3 x4 x5 x6 x7 x8 x9 x10 x11 x12 _) := o in
  mk x1 x2 x3 x4 x5 x6 x7 x8 x9 x10 x11 x12 v.

(** The fields by name, for statements that range over all of them. *)
Inductive field : Type :=
  | F_CacheSize | F_FlushThld | F_SyncThld | F_FlushBufferSize
  | F_CleanupPercentage | F_MaxActiveSnapshots | F_MaxNodeSize
  | F_RenewSnapRootAfter | F_CompactionThld | F_DelayDuringCompaction
  | F_NodesLogMaxOpenedFiles | F_HistoryLogMaxOpenedFiles
  | F_CommitLogMaxOpenedFiles.

Definition fieldType (f : field) : Type :=
  match f with
  | F_CacheSize => int
  | F_FlushThld => int
  | F_SyncThld => int
  | F_FlushBufferSize => int
  | F_CleanupPercentage => float32
  | F_MaxActiveSnapshots => int
  | F_MaxNodeSize => int
  | F_RenewSnapRootAfter => int
  | F_CompactionThld => int
  | F_DelayDuringCompaction => int
  | F_NodesLogMaxOpenedFiles => int
  | F_HistoryLogMaxOpenedFiles => int
  | F_CommitLogMaxOpenedFiles => int
  end.

Definition get (f : field) (o : t) : fieldType f :=
  match f with
  | F_CacheSize => CacheSize o
  | F_FlushThld => FlushThld o
  | F_SyncThld => SyncThld o
  | F_FlushBufferSize => FlushBufferSize o
  | F_CleanupPercentage => CleanupPercentage o
  | F_MaxActiveSnapshots => MaxActiveSnapshots o
  | F_MaxNodeSize => MaxNodeSize o
  | F_RenewSnapRootAfter => RenewSnapRootAfter o
  | F_CompactionThld => CompactionThld o
  | F_DelayDuringCompaction => DelayDuringCompaction o
  | F_NodesLogMaxOpenedFiles => NodesLogMaxOpenedFiles o
  | F_HistoryLogMaxOpenedFiles => HistoryLogMaxOpenedFiles o
  | F_CommitLogMaxOpenedFiles => CommitLogMaxOpenedFiles o
  end.

Definition field_eqb (f g : field) : bool :=
  match f, g with
  | F_CacheSize, F_CacheSize => true
  | F_FlushThld, F_FlushThld => true
  | F_SyncThld, F_SyncThld => true
  | F_FlushBufferSize, F_FlushBufferSize => true
  | F_CleanupPercentage, F_CleanupPercentage => true
  | F_MaxActiveSnapshots, F_MaxActiveSnapshots => true
  | F_MaxNodeSize, F_MaxNodeSize => true
  | F_RenewSnapRootAfter, F_RenewSnapRootAfter => true
  | F_CompactionThld, F_CompactionThld => true
  | F_DelayDuringCompaction, F_DelayDuringCompaction => true
  | F_NodesLogMaxOpenedFiles, F_NodesLogMaxOpenedFiles => true
  | F_HistoryLogMaxOpenedFiles, F_HistoryLogMaxOpenedFiles => true
  | F_CommitLogMaxOpenedFiles, F_CommitLogMaxOpenedFiles => true
  | _, _ => false
  end.

End IndexOptions.

(** [type Options struct]; [IndexOpts] is a pointer to an [IndexOptions] *)
Module Options.

Record t : Type := mk {
  ReadOnly : bool;
  Synced : bool;
  FileMode : N;
  log : option Logger;
  appFactory : option AppFactoryFunc;
  CompactionDisabled : bool;
  MaxConcurrency : int;
  MaxIOConcurrency : int;
  MaxLinearProofLen : int;
  TxLogCacheSize : int;
  VLogMaxOpenedFiles : int;
  TxLogMaxOpenedFiles : int;
  CommitLogMaxOpenedFiles : int;
  WriteTxHeaderVersion : int;
  MaxWaitees : int;
  TimeFunc : option Store.TimeFunc;
  MaxTxEntries : int;
  MaxKeyLen : int;
  MaxValueLen : int;
  FileSize : int;
  CompressionFormat : int;
  CompressionLevel : int;
  IndexOpts : option loc
}.

(** Assignment to one field, [opts.F = v]: every other field is copied. *)
Definition set_ReadOnly (v : bool) (o : t) : t :=
  let '(mk _ x2 x3 x4 x5 x6 x7 x8 x9 x10 x11 x12 x13 x14 x15 x16 x17 x18 x19
      x20 x21 x22 x23) := o in
  mk v x2 x3 x4 x5 x6 x7 x8 x9 x10 x11 x12 x13 x14 x15 x16 x17 x18 x19 x20
    x21 x22 x23.

Definition set_Synced (v : bool) (o : t) : t :=
  let '(mk x1 _ x3 x4 x5 x6 x7 x8 x9 x10 x11 x12 x13 x14 x15 x16 x17 x18 x19
      x20 x21 x22 x23) := o in
  mk x1 v x3 x4 x5 x6 x7 x8 x9 x10 x11 x12 x13 x14 x15 x16 x17 x18 x19 x20
    x21 x22 x23.

Definition set_FileMode (v : N) (o : t) : t :=
  let '(mk x1 x2 _ x4 x5 x6 x7 x8 x9 x10 x11 x12 x13 x14 x15 x16 x17 x18 x19
      x20 x21 x22 x23) := o in
  mk x1 x2 v x4 x5 x6 x7 x8 x9 x10 x11 x12 x13 x14 x15 x16 x17 x18 x19 x20
    x21 x22 x23.

Definition set_log (v : option Logger) (o : t) : t :=
  let '(mk x1 x2 x3 _ x5 x6 x7 x8 x9 x10 x11 x12 x13 x14 x15 x16 x17 x18 x19
      x20 x21 x22 x23) := o in
  mk x1 x2 x3 v x5 x6 x7 x8 x9 x10 x11 x12 x13 x14 x15 x16 x17 x18 x19 x20
    x21 x22 x23.

Definition set_appFactory (v : option AppFactoryFunc) (o : t) : t :=
  let '(mk x1 x2 x3 x4 _ x6 x7 x8 x9 x10 x11 x12 x13 x14 x15 x16 x17 x18 x19
      x20 x21 x22 x23) := o in
  mk x1 x2 x3 x4 v x6 x7 x8 x9 x10 x11 x12 x13 x14 x15 x16 x17 x18 x19 x20
    x21 x22 x23.

Definition set_CompactionDisabled (v : bool) (o : t) : t :=
  let '(mk x1 x2 x3 x4 x5 _ x7 x8 x9 x10 x11 x12 x13 x14 x15 x16 x17 x18 x19
      x20 x21 x22 x23) := o in
  mk x1 x2 x3 x4 x5 v x7 x8 x9 x10 x11 x12 x13 x14 x15 x16 x17 x18 x19 x20
    x21 x22 x23.

Definition set_MaxConcurrency (v : int) (o : t) : t :=
  let '(mk x1 x2 x3 x4 x5 x6 _ x8 x9 x10 x11 x12 x13 x14 x15 x16 x17 x18 x19
      x20 x21 x22 x23) := o in
  mk x1 x2 x3 x4 x5 x6 v x8 x9 x10 x11 x12 x13 x14 x15 x16 x17 x18 x19 x20
    x21 x22 x23.

Definition set_MaxIOConcurrency (v : int) (o : t) : t :=
  let '(mk x1 x2 x3 x4 x5 x6 x7 _ x9 x10 x11 x12 x13 x14 x15 x16 x17 x18 x19
      x20 x21 x22 x23) := o in
  mk x1 x2 x3 x4 x5 x6 x7 v x9 x10 x11 x12 x13 x14 x15 x16 x17 x18 x19 x20
    x21 x22 x23.

Definition set_MaxLinearProofLen (v : int) (o : t) : t :=
  let '(mk x1 x2 x3 x4 x5 x6 x7 x8 _ x10 x11 x12 x13 x14 x15 x16 x17 x18 x19
      x20 x21 x22 x23) := o in
  mk x1 x2 x3 x4 x5 x6 x7 x8 v x10 x11 x12 x13 x14 x15 x16 x17 x18 x19 x20
    x21 x22 x23.

Definition set_TxLogCacheSize (v : int) (o : t) : t :=
  let '(mk x1 x2 x3 x4 x5 x6 x7 x8 x9 _ x11 x12 x13 x14 x15 x16 x17 x18 x19
      x20 x21 x22 x23) := o in
  mk x1 x2 x3 x4 x5 x6 x7 x8 x9 v x11 x12 x13 x14 x15 x16 x17 x18 x19 x20 x21
    x22 x23.

Definition set_VLogMaxOpenedFiles (v : int) (o : t) : t :=
  let '(mk x1 x2 x3 x4 x5 x6 x7 x8 x9 x10 _ x12 x13 x14 x15 x16 x17 x18 x19
      x20 x21 x22 x23) := o in
  mk x1 x2 x3 x4 x5 x6 x7 x8 x9 x10 v x12 x13 x14 x15 x16 x17 x18 x19 x20 x21
    x22 x23.

Definition set_TxLogMaxOpenedFiles (v : int) (o : t) : t :=
  let '(mk x1 x2 x3 x4 x5 x6 x7 x8 x9 x10 x11 _ x13 x14 x15 x16 x17 x18 x19
      x20 x21 x22 x23) := o in
  mk x1 x2 x3 x4 x5 x6 x7 x8 x9 x10 x11 v x13 x14 x15 x16 x17 x18 x19 x20 x21
    x22 x23.

Definition set_CommitLogMaxOpenedFiles (v : int) (o : t) : t :=
  let '(mk x1 x2 x3 x4 x5 x6 x7 x8 x9 x10 x11 x12 _ x14 x15 x16 x17 x18 x19
      x20 x21 x22 x23) := o in
  mk x1 x2 x3 x4 x5 x6 x7 x8 x9 x10 x11 x12 v x14 x15 x16 x17 x18 x19 x20 x21
    x22 x23.

Definition set_WriteTxHeaderVersion (v : int) (o : t) : t :=
  let '(mk x1 x2 x3 x4 x5 x6 x7 x8 x9 x10 x11 x12 x13 _ x15 x16 x17 x18 x19
      x20 x21 x22 x23) := o in
  mk x1 x2 x3 x4 x5 x6 x7 x8 x9 x10 x11 x12 x13 v x15 x16 x17 x18 x19 x20 x21
    x22 x23.

Definition set_MaxWaitees (v : int) (o : t) : t :=
  let '(mk x1 x2 x3 x4 x5 x6 x7 x8 x9 x10 x11 x12 x13 x14 _ x16 x17 x18 x19
      x20 x21 x22 x23) := o in
  mk x1 x2 x3 x4 x5 x6 x7 x8 x9 x10 x11 x12 x13 x14 v x16 x17 x18 x19 x20 x21
    x22 x23.

Definition set_TimeFunc (v : option Store.TimeFunc) (o : t) : t :=
  let '(mk x1 x2 x3 x4 x5 x6 x7 x8 x9 x10 x11 x12 x13 x14 x15 _ x17 x18 x19
      x20 x21 x22 x23) := o in
  mk x1 x2 x3 x4 x5 x6 x7 x8 x9 x10 x11 x12 x13 x14 x15 v x17 x18 x19 x20 x21
    x22 x23.

Definition set_MaxTxEntries (v : int) (o : t) : t :=
  let '(mk x1 x2 x3 x4 x5 x6 x7 x8 x9 x10 x11 x12 x13 x14 x15 x16 _ x18 x19
      x20 x21 x22 x23) := o in
  mk x1 x2 x3 x4 x5 x6 x7 x8 x9 x10 x11 x12 x13 x14 x15 x16 v x18 x19 x20 x21
    x22 x23.

Definition set_MaxKeyLen (v : int) (o : t) : t :=
  let '(mk x1 x2 x3 x4 x5 x6 x7 x8 x9 x10 x11 x12 x13 x14 x15 x16 x17 _ x19
      x20 x21 x22 x23) := o in
  mk x1 x2 x3 x4 x5 x6 x7 x8 x9 x10 x11 x12 x13 x14 x15 x16 x17 v x19 x20 x21
    x22 x23.

Definition set_MaxValueLen (v : int) (o : t) : t :=
  let '(mk x1 x2 x3 x4 x5 x6 x7 x8 x9 x10 x11 x12 x13 x14 x15 x16 x17 x18 _
      x20 x21 x22 x23) := o in
  mk x1 x2 x3 x4 x5 x6 x7 x8 x9 x10 x11 x12 x13 x14 x15 x16 x17 x18 v x20 x21
    x22 x23.

Definition set_FileSize (v : int) (o : t) : t :=
  let '(mk x1 x2 x3 x4 x5 x6 x7 x8 x9 x10 x11 x12 x13 x14 x15 x16 x17 x18 x19
      _ x21 x22 x23) := o in
  mk x1 x2 x3 x4 x5 x6 x7 x8 x9 x10 x11 x12 x13 x14 x15 x16 x17 x18 x19 v x21
    x22 x23.

Definition set_CompressionFormat (v : int) (o : t) : t :=
  let '(mk x1 x2 x3 x4 x5 x6 x7 x8 x9 x10 x11 x12 x13 x14 x15 x16 x17 x18 x19
      x20 _ x22 x23) := o in
  mk x1 x2 x3 x4 x5 x6 x7 x8 x9 x10 x11 x12 x13 x14 x15 x16 x17 x18 x19 x20 v
    x22 x23.

Definition set_CompressionLevel (v : int) (o : t) : t :=
  let '(mk x1 x2 x3 x4 x5 x6 x7 x8 x9 x10 x11 x12 x13 x14 x15 x16 x17 x18 x19
      x20 x21 _ x23) := o in
  mk x1 x2 x3 x4 x5 x6 x7 x8 x9 x10 x11 x12 x13 x14 x15 x16 x17 x18 x19 x20
    x21 v x23.

Definition set_IndexOpts (v : option loc) (o : t) : t :=
  let '(mk x1 x2 x3 x4 x5 x6 x7 x8 x9 x10 x11 x12 x13 x14 x15 x16 x17 x18 x19
      x20 x21 x22 _) := o in
  mk x1 x2 x3 x4 x5 x6 x7 x8 x9 x10 x11 x12 x13 x14 x15 x16 x17 x18 x19 x20
    x21 x22 v.

(** The fields by name, for statements that range over all of them. *)
Inductive field : Type :=
  | F_ReadOnly | F_Synced | F_FileMode | F_log | F_appFactory
  | F_CompactionDisabled | F_MaxConcurrency | F_MaxIOConcurrency
  | F_MaxLinearProofLen | F_TxLogCacheSize | F_VLogMaxOpenedFiles
  | F_TxLogMaxOpenedFiles | F_CommitLogMaxOpenedFiles
  | F_WriteTxHeaderVersion | F_MaxWaitees | F_TimeFunc | F_MaxTxEntries
  | F_MaxKeyLen | F_MaxValueLen | F_FileSize | F_CompressionFormat
  | F_CompressionLevel | F_IndexOpts.

Definition fieldType (f : field) : Type :=
  match f with
  | F_ReadOnly => bool
  | F_Synced => bool
  | F_FileMode => N
  | F_log => option Logger
  | F_appFactory => option AppFactoryFunc
  | F_CompactionDisabled => bool
  | F_MaxConcurrency => int
  | F_MaxIOConcurrency => int
  | F_MaxLinearProofLen => int
  | F_TxLogCacheSize => int
  | F_VLogMaxOpenedFiles => int
  | F_TxLogMaxOpenedFiles => int
  | F_CommitLogMaxOpenedFiles => int
  | F_WriteTxHeaderVersion => int
  | F_MaxWaitees => int
  | F_TimeFunc => option Store.TimeFunc
  | F_MaxTxEntries => int
  | F_MaxKeyLen => int
  | F_MaxValueLen => int
  | F_FileSize => int
  | F_CompressionFormat => int
  | F_CompressionLevel => int
  | F_IndexOpts => option loc
  end.

Definition get (f : field) (o : t) : fieldType f :=
  match f with
  | F_ReadOnly => ReadOnly o
  | F_Synced => Synced o
  | F_FileMode => FileMode o
  | F_log => log o
  | F_appFactory => appFactory o
  | F_CompactionDisabled => CompactionDisabled o
  | F_MaxConcurrency => MaxConcurrency o
  | F_MaxIOConcurrency => MaxIOConcurrency o
  | F_MaxLinearProofLen => MaxLinearProofLen o
  | F_TxLogCacheSize => TxLogCacheSize o
  | F_VLogMaxOpenedFiles => VLogMaxOpenedFiles o
  | F_TxLogMaxOpenedFiles => TxLogMaxOpenedFiles o
  | F_CommitLogMaxOpenedFiles => CommitLogMaxOpenedFiles o
  | F_WriteTxHeaderVersion => WriteTxHeaderVersion o
  | F_MaxWaitees => MaxWaitees o
  | F_TimeFunc => TimeFunc o
  | F_MaxTxEntries => MaxTxEntries o
  | F_MaxKeyLen => MaxKeyLen o
  | F_MaxValueLen => MaxValueLen o
  | F_FileSize => FileSize o
  | F_CompressionFormat => CompressionFormat o
  | F_CompressionLevel => CompressionLevel o
  | F_IndexOpts => IndexOpts o
  end.

Definition field_eqb (f g : field) : bool :=
  match f, g with
  | F_ReadOnly, F_ReadOnly => true
  | F_Synced, F_Synced => true
  | F_FileMode, F_FileMode => true
  | F_log, F_log => true
  | F_appFactory, F_appFactory => true
  | F_CompactionDisabled, F_CompactionDisabled => true
  | F_MaxConcurrency, F_MaxConcurrency => true
  | F_MaxIOConcurrency, F_MaxIOConcurrency => true
  | F_MaxLinearProofLen, F_MaxLinearProofLen => true
  | F_TxLogCacheSize, F_TxLogCacheSize => true
  | F_VLogMaxOpenedFiles, F_VLogMaxOpenedFiles => true
  | F_TxLogMaxOpenedFiles, F_TxLogMaxOpenedFiles => true
  | F_CommitLogMaxOpenedFiles, F_CommitLogMaxOpenedFiles => true
  | F_WriteTxHeaderVersion, F_WriteTxHeaderVersion => true
  | F_MaxWaitees, F_MaxWaitees => true
  | F_TimeFunc, F_TimeFunc => true
  | F_MaxTxEntries, F_MaxTxEntries => true
  | F_MaxKeyLen, F_MaxKeyLen => true
  | F_MaxValueLen, F_MaxValueLen => true
  | F_FileSize, F_FileSize => true
  | F_CompressionFormat, F_CompressionFormat => true
  | F_CompressionLevel, F_CompressionLevel => true
  | F_IndexOpts, F_IndexOpts => true
  | _, _ => false
  end.

End Options.

(** Constants that the package takes from declarations outside this file. *)
Record Decls : Type := {
  MaxParallelIO : int;
  MaxKeyLen : int;
  MaxTxHeaderVersion : int;
  multiapp_DefaultFileSize : int;
  appendable_DefaultCompressionFormat : int;
  appendable_DefaultCompressionLevel : int;
  tbtree_DefaultCacheSize : int;
  tbtree_DefaultFlushThld : int;
  tbtree_DefaultSyncThld : int;
  tbtree_DefaultFlushBufferSize : int;
  tbtree_DefaultCleanUpPercentage : float32;
  tbtree_DefaultMaxActiveSnapshots : int;
  tbtree_DefaultMaxNodeSize : int;
  tbtree_DefaultRenewSnapRootAfter : int;
  tbtree_DefaultCompactionThld : int;
  tbtree_DefaultNodesLogMaxOpenedFiles : int;
  tbtree_DefaultHistoryLogMaxOpenedFiles : int;
  tbtree_DefaultCommitLogMaxOpenedFiles : int
}.

Definition DefaultMaxConcurrency : int := 30.
Definition DefaultMaxIOConcurrency : int := 1.
Definition DefaultMaxTxEntries : int := Z.shiftl 1 10.
Definition DefaultMaxKeyLen : int := 1024.
Definition DefaultMaxValueLen : int := 4096.
Definition DefaultFileMode : N := 493.   (* 0755 *)
Definition DefaultMaxLinearProofLen : int := Z.shiftl 1 10.
Definition DefaultFileSize (d : Decls) : int := multiapp_DefaultFileSize d.
Definition DefaultCompressionFormat (d : Decls) : int :=
  appendable_DefaultCompressionFormat d.
Definition DefaultCompressionLevel (d : Decls) : int :=
  appendable_DefaultCompressionLevel d.
Definition DefaultTxLogCacheSize : int := 1000.
Definition DefaultMaxWaitees : int := 1000.
Definition DefaultVLogMaxOpenedFiles : int := 10.
Definition DefaultTxLogMaxOpenedFiles : int := 10.
Definition DefaultCommitLogMaxOpenedFiles : int := 10.
Definition DefaultWriteTxHeaderVersion (d : Decls) : int :=
  MaxTxHeaderVersion d.

Definition MaxFileSize : int := Z.shiftl 1 31 - 1.   (* 2Gb *)

(** The heap: the [Options] and the [IndexOptions] objects allocated so far. *)
Record Heap : Type := {
  optionsAt : gmap loc Options.t;
  indexOptionsAt : gmap loc IndexOptions.t
}.

Definition emptyHeap : Heap := {| optionsAt := ∅; indexOptionsAt := ∅ |}.

(** A computation on the heap; [None] is a panic (nil pointer dereference). *)
Definition M (A : Type) : Type := Heap -> option (A * Heap).

Definition ret {A} (a : A) : M A := fun h => Some (a, h).

Definition bind {A B} (m : M A) (k : A -> M B) : M B :=
  fun h =>
    match m h with
    | Some (a, h') => k a h'
    | None => None
    end.

Notation "'let*' x ':=' m 'in' k" := (bind m (fun x => k))
  (at level 10, x pattern, m at level 200, k at level 200).

(** [*opts]; an address always holds an object in Go, and one that does not
    is read like nil. *)
Definition derefOptions (h : Heap) (opts : option loc) : option Options.t :=
  match opts with
  | None => None
  | Some l => optionsAt h !! l
  end.

Definition derefIndexOptions (h : Heap) (opts : option loc)
    : option IndexOptions.t :=
  match opts with
  | None => None
  | Some l => indexOptionsAt h !! l
  end.

(** [opts.F = v] through the pointer [opts], where [f] assigns the field. *)
Definition assignOptions (opts : option loc) (f : Options.t -> Options.t)
    : M unit :=
  fun h =>
    match opts with
    | None => None
    | Some l =>
        match optionsAt h !! l with
        | None => None
        | Some o =>
            Some (tt, {| optionsAt := <[l := f o]> (optionsAt h);
                         indexOptionsAt := indexOptionsAt h |})
        end
    end.

Definition assignIndexOptions (opts : option loc)
    (f : IndexOptions.t -> IndexOptions.t) : M unit :=
  fun h =>
    match opts with
    | None => None
    | Some l =>
        match indexOptionsAt h !! l with
        | None => None
        | Some o =>
            Some (tt, {| optionsAt := optionsAt h;
                         indexOptionsAt := <[l := f o]> (indexOptionsAt h) |})
        end
    end.

(** [&Options{...}] and [&IndexOptions{...}]: a new object at a fresh
    address. *)
Definition newOptions (o : Options.t) : M (option loc) :=
  fun h =>
    let l := fresh (dom (optionsAt h)) in
    Some (Some l, {| optionsAt := <[l := o]> (optionsAt h);
                     indexOptionsAt := indexOptionsAt h |}).

Definition newIndexOptions (o : IndexOptions.t) : M (option loc) :=
  fun h =>
    let l := fresh (dom (indexOptionsAt h)) in
    Some (Some l, {| optionsAt := optionsAt h;
                     indexOptionsAt := <[l := o]> (indexOptionsAt h) |}).

Definition DefaultIndexOptions (d : Decls) : M (option loc) :=
  newIndexOptions
    {| IndexOptions.CacheSize := tbtree_DefaultCacheSize d;
       IndexOptions.FlushThld := tbtree_DefaultFlushThld d;
       IndexOptions.SyncThld := tbtree_DefaultSyncThld d;
       IndexOptions.FlushBufferSize := tbtree_DefaultFlushBufferSize d;
       IndexOptions.CleanupPercentage := tbtree_DefaultCleanUpPercentage d;
       IndexOptions.MaxActiveSnapshots := tbtree_DefaultMaxActiveSnapshots d;
       IndexOptions.MaxNodeSize := tbtree_DefaultMaxNodeSize d;
       IndexOptions.RenewSnapRootAfter := tbtree_DefaultRenewSnapRootAfter d;
       IndexOptions.CompactionThld := tbtree_DefaultCompactionThld d;
       IndexOptions.DelayDuringCompaction := 0;
       IndexOptions.NodesLogMaxOpenedFiles :=
         tbtree_DefaultNodesLogMaxOpenedFiles d;
       IndexOptions.HistoryLogMaxOpenedFiles :=
         tbtree_DefaultHistoryLogMaxOpenedFiles d;
       IndexOptions.CommitLogMaxOpenedFiles :=
         tbtree_DefaultCommitLogMaxOpenedFiles d |}.

Definition DefaultOptions (d : Decls) : M (option loc) :=
  let* indexOpts := DefaultIndexOptions d in
  newOptions
    {| Options.ReadOnly := false;
       Options.Synced := true;
       Options.FileMode := DefaultFileMode;
       Options.log := Some (NewSimpleLogger "immudb ");
       Options.appFactory := None;
       Options.CompactionDisabled := false;
       Options.MaxConcurrency := DefaultMaxConcurrency;
       Options.MaxIOConcurrency := DefaultMaxIOConcurrency;
       Options.MaxLinearProofLen := DefaultMaxLinearProofLen;
       Options.TxLogCacheSize := DefaultTxLogCacheSize;
       Options.VLogMaxOpenedFiles := DefaultVLogMaxOpenedFiles;
       Options.TxLogMaxOpenedFiles := DefaultTxLogMaxOpenedFiles;
       Options.CommitLogMaxOpenedFiles := DefaultCommitLogMaxOpenedFiles;
       Options.WriteTxHeaderVersion := DefaultWriteTxHeaderVersion d;
       Options.MaxWaitees := DefaultMaxWaitees;
       Options.TimeFunc := Some TimeNow;
       Options.MaxTxEntries := DefaultMaxTxEntries;
       Options.MaxKeyLen := DefaultMaxKeyLen;
       Options.MaxValueLen := DefaultMaxValueLen;
       Options.FileSize := DefaultFileSize d;
       Options.CompressionFormat := DefaultCompressionFormat d;
       Options.CompressionLevel := DefaultCompressionLevel d;
       Options.IndexOpts := indexOpts |}.

Definition validIndexOptions (h : Heap) (opts : option loc) : bool :=
  match derefIndexOptions h opts with
  | None => false                                   (* [opts != nil] *)
  | Some o =>
      (0 <? IndexOptions.CacheSize o) &&
      (0 <? IndexOptions.FlushThld o) &&
      (0 <? IndexOptions.FlushBufferSize o) &&
      float32_le float32_0 (IndexOptions.CleanupPercentage o) &&
      float32_le (IndexOptions.CleanupPercentage o) float32_100 &&
      (0 <? IndexOptions.MaxActiveSnapshots o) &&
      (0 <? IndexOptions.MaxNodeSize o) &&
      (0 <=? IndexOptions.RenewSnapRootAfter o) &&
      (0 <? IndexOptions.NodesLogMaxOpenedFiles o) &&
      (0 <? IndexOptions.HistoryLogMaxOpenedFiles o) &&
      (0 <? IndexOptions.CommitLogMaxOpenedFiles o)
  end.

Definition validOptions (d : Decls) (h : Heap) (opts : option loc) : bool :=
  match derefOptions h opts with
  | None => false                                   (* [opts != nil] *)
  | Some o =>
      (0 <? Options.MaxConcurrency o) &&
      (0 <? Options.MaxIOConcurrency o) &&
      (Options.MaxIOConcurrency o <=? MaxParallelIO d) &&
      (0 <=? Options.MaxLinearProofLen o) &&

      (0 <? Options.VLogMaxOpenedFiles o) &&
      (0 <? Options.TxLogMaxOpenedFiles o) &&
      (0 <? Options.CommitLogMaxOpenedFiles o) &&

      (0 <=? Options.TxLogCacheSize o) &&

      (0 <=? Options.MaxWaitees o) &&

      bool_decide (is_Some (Options.TimeFunc o)) &&

      (0 <=? Options.WriteTxHeaderVersion o) &&
      (Options.WriteTxHeaderVersion o <=? MaxTxHeaderVersion d) &&

      (* options below are only set during initialization and stored as
         metadata *)
      (0 <? Options.MaxTxEntries o) &&
      (0 <? Options.MaxKeyLen o) &&
      (Options.MaxKeyLen o <=? MaxKeyLen d) &&
      (0 <? Options.MaxValueLen o) &&
      (0 <? Options.FileSize o) &&
      (Options.FileSize o <? MaxFileSize) &&
      bool_decide (is_Some (Options.log o)) &&
      validIndexOptions h (Options.IndexOpts o)
  end.

(** *** The setters of [*Options] *)

Definition Options_WithReadOnly (opts : option loc) (readOnly : bool)
    : M (option loc) :=
  let* _ := assignOptions opts (Options.set_ReadOnly readOnly) in
  ret opts.

Definition Options_WithSynced (opts : option loc) (synced : bool)
    : M (option loc) :=
  let* _ := assignOptions opts (Options.set_Synced synced) in
  ret opts.

Definition Options_WithFileMode (opts : option loc) (fileMode : N)
    : M (option loc) :=
  let* _ := assignOptions opts (Options.set_FileMode fileMode) in
  ret opts.

Definition Options_WithLog (opts : option loc) (log : option Logger)
    : M (option loc) :=
  let* _ := assignOptions opts (Options.set_log log) in
  ret opts.

Definition Options_WithAppFactory (opts : option loc)
    (appFactory : option AppFactoryFunc) : M (option loc) :=
  let* _ := assignOptions opts (Options.set_appFactory appFactory) in
  ret opts.

Definition Options_WithCompactionDisabled (opts : option loc) (disabled : bool)
    : M (option loc) :=
  let* _ := assignOptions opts (Options.set_CompactionDisabled disabled) in
  ret opts.

Definition Options_WithMaxConcurrency (opts : option loc) (maxConcurrency : int)
    : M (option loc) :=
  let* _ := assignOptions opts (Options.set_MaxConcurrency maxConcurrency) in
  ret opts.

Definition Options_WithMaxIOConcurrency (opts : option loc)
    (maxIOConcurrency : int) : M (option loc) :=
  let* _ := assignOptions opts
               (Options.set_MaxIOConcurrency maxIOConcurrency) in
  ret opts.

Definition Options_WithMaxTxEntries (opts : option loc) (maxTxEntries : int)
    : M (option loc) :=
  let* _ := assignOptions opts (Options.set_MaxTxEntries maxTxEntries) in
  ret opts.

Definition Options_WithMaxKeyLen (opts : option loc) (maxKeyLen : int)
    : M (option loc) :=
  let* _ := assignOptions opts (Options.set_MaxKeyLen maxKeyLen) in
  ret opts.

Definition Options_WithMaxValueLen (opts : option loc) (maxValueLen : int)
    : M (option loc) :=
  let* _ := assignOptions opts (Options.set_MaxValueLen maxValueLen) in
  ret opts.

Definition Options_WithMaxLinearProofLen (opts : option loc)
    (maxLinearProofLen : int) : M (option loc) :=
  let* _ := assignOptions opts
               (Options.set_MaxLinearProofLen maxLinearProofLen) in
  ret opts.

Definition Options_WithTxLogCacheSize (opts : option loc) (txLogCacheSize : int)
    : M (option loc) :=
  let* _ := assignOptions opts (Options.set_TxLogCacheSize txLogCacheSize) in
  ret opts.

Definition Options_WithFileSize (opts : option loc) (fileSize : int)
    : M (option loc) :=
  let* _ := assignOptions opts (Options.set_FileSize fileSize) in
  ret opts.

Definition Options_WithVLogMaxOpenedFiles (opts : option loc)
    (vLogMaxOpenedFiles : int) : M (option loc) :=
  let* _ := assignOptions opts
               (Options.set_VLogMaxOpenedFiles vLogMaxOpenedFiles) in
  ret opts.

Definition Options_WithTxLogMaxOpenedFiles (opts : option loc)
    (txLogMaxOpenedFiles : int) : M (option loc) :=
  let* _ := assignOptions opts
               (Options.set_TxLogMaxOpenedFiles txLogMaxOpenedFiles) in
  ret opts.

Definition Options_WithCommitLogMaxOpenedFiles (opts : option loc)
    (commitLogMaxOpenedFiles : int) : M (option loc) :=
  let* _ := assignOptions opts
               (Options.set_CommitLogMaxOpenedFiles commitLogMaxOpenedFiles) in
  ret opts.

Definition Options_WithMaxWaitees (opts : option loc) (maxWaitees : int)
    : M (option loc) :=
  let* _ := assignOptions opts (Options.set_MaxWaitees maxWaitees) in
  ret opts.

Definition Options_WithTimeFunc (opts : option loc)
    (timeFunc : option Store.TimeFunc) : M (option loc) :=
  let* _ := assignOptions opts (Options.set_TimeFunc timeFunc) in
  ret opts.

Definition Options_WithWriteTxHeaderVersion (opts : option loc) (version : int)
    : M (option loc) :=
  let* _ := assignOptions opts (Options.set_WriteTxHeaderVersion version) in
  ret opts.

Definition Options_WithCompressionFormat (opts : option loc)
    (compressionFormat : int) : M (option loc) :=
  let* _ := assignOptions opts
               (Options.set_CompressionFormat compressionFormat) in
  ret opts.

Definition Options_WithCompresionLevel (opts : option loc)
    (compressionLevel : int) : M (option loc) :=
  let* _ := assignOptions opts
               (Options.set_CompressionLevel compressionLevel) in
  ret opts.

Definition Options_WithIndexOptions (opts : option loc)
    (indexOptions : option loc) : M (option loc) :=
  let* _ := assignOptions opts (Options.set_IndexOpts indexOptions) in
  ret opts.

(** *** The setters of [*IndexOptions] *)

Definition IndexOptions_WithCacheSize (opts : option loc) (cacheSize : int)
    : M (option loc) :=
  let* _ := assignIndexOptions opts (IndexOptions.set_CacheSize cacheSize) in
  ret opts.

Definition IndexOptions_WithFlushThld (opts : option loc) (flushThld : int)
    : M (option loc) :=
  let* _ := assignIndexOptions opts (IndexOptions.set_FlushThld flushThld) in
  ret opts.

Definition IndexOptions_WithSyncThld (opts : option loc) (syncThld : int)
    : M (option loc) :=
  let* _ := assignIndexOptions opts (IndexOptions.set_SyncThld syncThld) in
  ret opts.

Definition IndexOptions_WithFlushBufferSize (opts : option loc)
    (flushBufferSize : int) : M (option loc) :=
  let* _ := assignIndexOptions opts
               (IndexOptions.set_FlushBufferSize flushBufferSize) in
  ret opts.

Definition IndexOptions_WithCleanupPercentage (opts : option loc)
    (cleanupPercentage : float32) : M (option loc) :=
  let* _ := assignIndexOptions opts
               (IndexOptions.set_CleanupPercentage cleanupPercentage) in
  ret opts.

Definition IndexOptions_WithMaxActiveSnapshots (opts : option loc)
    (maxActiveSnapshots : int) : M (option loc) :=
  let* _ := assignIndexOptions opts
               (IndexOptions.set_MaxActiveSnapshots maxActiveSnapshots) in
  ret opts.

Definition IndexOptions_WithMaxNodeSize (opts : option loc) (maxNodeSize : int)
    : M (option loc) :=
  let* _ := assignIndexOptions opts
               (IndexOptions.set_MaxNodeSize maxNodeSize) in
  ret opts.

Definition IndexOptions_WithRenewSnapRootAfter (opts : option loc)
    (renewSnapRootAfter : int) : M (option loc) :=
  let* _ := assignIndexOptions opts
               (IndexOptions.set_RenewSnapRootAfter renewSnapRootAfter) in
  ret opts.

Definition IndexOptions_WithCompactionThld (opts : option loc)
    (compactionThld : int) : M (option loc) :=
  let* _ := assignIndexOptions opts
               (IndexOptions.set_CompactionThld compactionThld) in
  ret opts.

Definition IndexOptions_WithDelayDuringCompaction (opts : option loc)
    (delayDuringCompaction : int) : M (option loc) :=
  let* _ := assignIndexOptions opts
               (IndexOptions.set_DelayDuringCompaction delayDuringCompaction) in
  ret opts.

Definition IndexOptions_WithNodesLogMaxOpenedFiles (opts : option loc)
    (nodesLogMaxOpenedFiles : int) : M (option loc) :=
  let* _ := assignIndexOptions opts
               (IndexOptions.set_NodesLogMaxOpenedFiles nodesLogMaxOpenedFiles) in
  ret opts.

Definition IndexOptions_WithHistoryLogMaxOpenedFiles (opts : option loc)
    (historyLogMaxOpenedFiles : int) : M (option loc) :=
  let* _ := assignIndexOptions opts
               (IndexOptions.set_HistoryLogMaxOpenedFiles historyLogMaxOpenedFiles) in
  ret opts.

Definition IndexOptions_WithCommitLogMaxOpenedFiles (opts : option loc)
    (commitLogMaxOpenedFiles : int) : M (option loc) :=
  let* _ := assignIndexOptions opts
               (IndexOptions.set_CommitLogMaxOpenedFiles commitLogMaxOpenedFiles) in
  ret opts.

(** A call of one setter, with its argument. *)
Inductive OptionsSetter : Type :=
| Options_call_WithReadOnly (readOnly : bool)
| Options_call_WithSynced (synced : bool)
| Options_call_WithFileMode (fileMode : N)
| Options_call_WithLog (log : option Logger)
| Options_call_WithAppFactory (appFactory : option AppFactoryFunc)
| Options_call_WithCompactionDisabled (disabled : bool)
| Options_call_WithMaxConcurrency (maxConcurrency : int)
| Options_call_WithMaxIOConcurrency (maxIOConcurrency : int)
| Options_call_WithMaxTxEntries (maxTxEntries : int)
| Options_call_WithMaxKeyLen (maxKeyLen : int)
| Options_call_WithMaxValueLen (maxValueLen : int)
| Options_call_WithMaxLinearProofLen (maxLinearProofLen : int)
| Options_call_WithTxLogCacheSize (txLogCacheSize : int)
| Options_call_WithFileSize (fileSize : int)
| Options_call_WithVLogMaxOpenedFiles (vLogMaxOpenedFiles : int)
| Options_call_WithTxLogMaxOpenedFiles (txLogMaxOpenedFiles : int)
| Options_call_WithCommitLogMaxOpenedFiles (commitLogMaxOpenedFiles : int)
| Options_call_WithMaxWaitees (maxWaitees : int)
| Options_call_WithTimeFunc (timeFunc : option Store.TimeFunc)
| Options_call_WithWriteTxHeaderVersion (version : int)
| Options_call_WithCompressionFormat (compressionFormat : int)
| Options_call_WithCompresionLevel (compressionLevel : int)
| Options_call_WithIndexOptions (indexOptions : option loc).

(** The field a setter is named after. *)
Definition OptionsSetter_field (c : OptionsSetter) : Options.field :=
  match c with
  | Options_call_WithReadOnly _ => Options.F_ReadOnly
  | Options_call_WithSynced _ => Options.F_Synced
  | Options_call_WithFileMode _ => Options.F_FileMode
  | Options_call_WithLog _ => Options.F_log
  | Options_call_WithAppFactory _ => Options.F_appFactory
  | Options_call_WithCompactionDisabled _ => Options.F_CompactionDisabled
  | Options_call_WithMaxConcurrency _ => Options.F_MaxConcurrency
  | Options_call_WithMaxIOConcurrency _ => Options.F_MaxIOConcurrency
  | Options_call_WithMaxTxEntries _ => Options.F_MaxTxEntries
  | Options_call_WithMaxKeyLen _ => Options.F_MaxKeyLen
  | Options_call_WithMaxValueLen _ => Options.F_MaxValueLen
  | Options_call_WithMaxLinearProofLen _ => Options.F_MaxLinearProofLen
  | Options_call_WithTxLogCacheSize _ => Options.F_TxLogCacheSize
  | Options_call_WithFileSize _ => Options.F_FileSize
  | Options_call_WithVLogMaxOpenedFiles _ => Options.F_VLogMaxOpenedFiles
  | Options_call_WithTxLogMaxOpenedFiles _ => Options.F_TxLogMaxOpenedFiles
  | Options_call_WithCommitLogMaxOpenedFiles _ =>
      Options.F_CommitLogMaxOpenedFiles
  | Options_call_WithMaxWaitees _ => Options.F_MaxWaitees
  | Options_call_WithTimeFunc _ => Options.F_TimeFunc
  | Options_call_WithWriteTxHeaderVersion _ => Options.F_WriteTxHeaderVersion
  | Options_call_WithCompressionFormat _ => Options.F_CompressionFormat
  | Options_call_WithCompresionLevel _ => Options.F_CompressionLevel
  | Options_call_WithIndexOptions _ => Options.F_IndexOpts
  end.

Definition OptionsSetter_arg (c : OptionsSetter)
    : Options.fieldType (OptionsSetter_field c) :=
  match c with
  | Options_call_WithReadOnly v => v
  | Options_call_WithSynced v => v
  | Options_call_WithFileMode v => v
  | Options_call_WithLog v => v
  | Options_call_WithAppFactory v => v
  | Options_call_WithCompactionDisabled v => v
  | Options_call_WithMaxConcurrency v => v
  | Options_call_WithMaxIOConcurrency v => v
  | Options_call_WithMaxTxEntries v => v
  | Options_call_WithMaxKeyLen v => v
  | Options_call_WithMaxValueLen v => v
  | Options_call_WithMaxLinearProofLen v => v
  | Options_call_WithTxLogCacheSize v => v
  | Options_call_WithFileSize v => v
  | Options_call_WithVLogMaxOpenedFiles v => v
  | Options_call_WithTxLogMaxOpenedFiles v => v
  | Options_call_WithCommitLogMaxOpenedFiles v => v
  | Options_call_WithMaxWaitees v => v
  | Options_call_WithTimeFunc v => v
  | Options_call_WithWriteTxHeaderVersion v => v
  | Options_call_WithCompressionFormat v => v
  | Options_call_WithCompresionLevel v => v
  | Options_call_WithIndexOptions v => v
  end.

Definition OptionsSetter_run (c : OptionsSetter) (opts : option loc)
    : M (option loc) :=
  match c with
  | Options_call_WithReadOnly v => Options_WithReadOnly opts v
  | Options_call_WithSynced v => Options_WithSynced opts v
  | Options_call_WithFileMode v => Options_WithFileMode opts v
  | Options_call_WithLog v => Options_WithLog opts v
  | Options_call_WithAppFactory v => Options_WithAppFactory opts v
  | Options_call_WithCompactionDisabled v =>
      Options_WithCompactionDisabled opts v
  | Options_call_WithMaxConcurrency v => Options_WithMaxConcurrency opts v
  | Options_call_WithMaxIOConcurrency v => Options_WithMaxIOConcurrency opts v
  | Options_call_WithMaxTxEntries v => Options_WithMaxTxEntries opts v
  | Options_call_WithMaxKeyLen v => Options_WithMaxKeyLen opts v
  | Options_call_WithMaxValueLen v => Options_WithMaxValueLen opts v
  | Options_call_WithMaxLinearProofLen v => Options_WithMaxLinearProofLen opts v
  | Options_call_WithTxLogCacheSize v => Options_WithTxLogCacheSize opts v
  | Options_call_WithFileSize v => Options_WithFileSize opts v
  | Options_call_WithVLogMaxOpenedFiles v =>
      Options_WithVLogMaxOpenedFiles opts v
  | Options_call_WithTxLogMaxOpenedFiles v =>
      Options_WithTxLogMaxOpenedFiles opts v
  | Options_call_WithCommitLogMaxOpenedFiles v =>
      Options_WithCommitLogMaxOpenedFiles opts v
  | Options_call_WithMaxWaitees v => Options_WithMaxWaitees opts v
  | Options_call_WithTimeFunc v => Options_WithTimeFunc opts v
  | Options_call_WithWriteTxHeaderVersion v =>
      Options_WithWriteTxHeaderVersion opts v
  | Options_call_WithCompressionFormat v => Options_WithCompressionFormat opts v
  | Options_call_WithCompresionLevel v => Options_WithCompresionLevel opts v
  | Options_call_WithIndexOptions v => Options_WithIndexOptions opts v
  end.

(** A call of one setter, with its argument. *)
Inductive IndexOptionsSetter : Type :=
| IndexOptions_call_WithCacheSize (cacheSize : int)
| IndexOptions_call_WithFlushThld (flushThld : int)
| IndexOptions_call_WithSyncThld (syncThld : int)
| IndexOptions_call_WithFlushBufferSize (flushBufferSize : int)
| IndexOptions_call_WithCleanupPercentage (cleanupPercentage : float32)
| IndexOptions_call_WithMaxActiveSnapshots (maxActiveSnapshots : int)
| IndexOptions_call_WithMaxNodeSize (maxNodeSize : int)
| IndexOptions_call_WithRenewSnapRootAfter (renewSnapRootAfter : int)
| IndexOptions_call_WithCompactionThld (compactionThld : int)
| IndexOptions_call_WithDelayDuringCompaction (delayDuringCompaction : int)
| IndexOptions_call_WithNodesLogMaxOpenedFiles (nodesLogMaxOpenedFiles : int)
| IndexOptions_call_WithHistoryLogMaxOpenedFiles
    (historyLogMaxOpenedFiles : int)
| IndexOptions_call_WithCommitLogMaxOpenedFiles (commitLogMaxOpenedFiles : int).

(** The field a setter is named after. *)
Definition IndexOptionsSetter_field (c : IndexOptionsSetter)
    : IndexOptions.field :=
  match c with
  | IndexOptions_call_WithCacheSize _ => IndexOptions.F_CacheSize
  | IndexOptions_call_WithFlushThld _ => IndexOptions.F_FlushThld
  | IndexOptions_call_WithSyncThld _ => IndexOptions.F_SyncThld
  | IndexOptions_call_WithFlushBufferSize _ => IndexOptions.F_FlushBufferSize
  | IndexOptions_call_WithCleanupPercentage _ =>
      IndexOptions.F_CleanupPercentage
  | IndexOptions_call_WithMaxActiveSnapshots _ =>
      IndexOptions.F_MaxActiveSnapshots
  | IndexOptions_call_WithMaxNodeSize _ => IndexOptions.F_MaxNodeSize
  | IndexOptions_call_WithRenewSnapRootAfter _ =>
      IndexOptions.F_RenewSnapRootAfter
  | IndexOptions_call_WithCompactionThld _ => IndexOptions.F_CompactionThld
  | IndexOptions_call_WithDelayDuringCompaction _ =>
      IndexOptions.F_DelayDuringCompaction
  | IndexOptions_call_WithNodesLogMaxOpenedFiles _ =>
      IndexOptions.F_NodesLogMaxOpenedFiles
  | IndexOptions_call_WithHistoryLogMaxOpenedFiles _ =>
      IndexOptions.F_HistoryLogMaxOpenedFiles
  | IndexOptions_call_WithCommitLogMaxOpenedFiles _ =>
      IndexOptions.F_CommitLogMaxOpenedFiles
  end.

Definition IndexOptionsSetter_arg (c : IndexOptionsSetter)
    : IndexOptions.fieldType (IndexOptionsSetter_field c) :=
  match c with
  | IndexOptions_call_WithCacheSize v => v
  | IndexOptions_call_WithFlushThld v => v
  | IndexOptions_call_WithSyncThld v => v
  | IndexOptions_call_WithFlushBufferSize v => v
  | IndexOptions_call_WithCleanupPercentage v => v
  | IndexOptions_call_WithMaxActiveSnapshots v => v
  | IndexOptions_call_WithMaxNodeSize v => v
  | IndexOptions_call_WithRenewSnapRootAfter v => v
  | IndexOptions_call_WithCompactionThld v => v
  | IndexOptions_call_WithDelayDuringCompaction v => v
  | IndexOptions_call_WithNodesLogMaxOpenedFiles v => v
  | IndexOptions_call_WithHistoryLogMaxOpenedFiles v => v
  | IndexOptions_call_WithCommitLogMaxOpenedFiles v => v
  end.

Definition IndexOptionsSetter_run (c : IndexOptionsSetter) (opts : option loc)
    : M (option loc) :=
  match c with
  | IndexOptions_call_WithCacheSize v => IndexOptions_WithCacheSize opts v
  | IndexOptions_call_WithFlushThld v => IndexOptions_WithFlushThld opts v
  | IndexOptions_call_WithSyncThld v => IndexOptions_WithSyncThld opts v
  | IndexOptions_call_WithFlushBufferSize v =>
      IndexOptions_WithFlushBufferSize opts v
  | IndexOptions_call_WithCleanupPercentage v =>
      IndexOptions_WithCleanupPercentage opts v
  | IndexOptions_call_WithMaxActiveSnapshots v =>
      IndexOptions_WithMaxActiveSnapshots opts v
  | IndexOptions_call_WithMaxNodeSize v => IndexOptions_WithMaxNodeSize opts v
  | IndexOptions_call_WithRenewSnapRootAfter v =>
      IndexOptions_WithRenewSnapRootAfter opts v
  | IndexOptions_call_WithCompactionThld v =>
      IndexOptions_WithCompactionThld opts v
  | IndexOptions_call_WithDelayDuringCompaction v =>
      IndexOptions_WithDelayDuringCompaction opts v
  | IndexOptions_call_WithNodesLogMaxOpenedFiles v =>
      IndexOptions_WithNodesLogMaxOpenedFiles opts v
  | IndexOptions_call_WithHistoryLogMaxOpenedFiles v =>
      IndexOptions_WithHistoryLogMaxOpenedFiles opts v
  | IndexOptions_call_WithCommitLogMaxOpenedFiles v =>
      IndexOptions_WithCommitLogMaxOpenedFiles opts v
  end.

(** A chain [opts.WithA(a).WithB(b)...]: each call receives what the call
    before it returned. *)
Fixpoint Options_chain (cs : list OptionsSetter) (opts : option loc)
    : M (option loc) :=
  match cs with
  | [] => ret opts
  | c :: cs' =>
      let* opts' := OptionsSetter_run c opts in
      Options_chain cs' opts'
  end.

Fixpoint IndexOptions_chain (cs : list IndexOptionsSetter)
    (opts : option loc) : M (option loc) :=
  match cs with
  | [] => ret opts
  | c :: cs' =>
      let* opts' := IndexOptionsSetter_run c opts in
      IndexOptions_chain cs' opts'
  end.

(** Example values: one choice of the outside constants, the heap that
    [DefaultOptions] builds from the empty one, and the two objects in it. *)
Definition exampleDecls : Decls := {|
  MaxParallelIO := 127;
  MaxKeyLen := 1024;
  MaxTxHeaderVersion := 1;
  multiapp_DefaultFileSize := Z.shiftl 1 26;
  appendable_DefaultCompressionFormat := 0;
  appendable_DefaultCompressionLevel := 0;
  tbtree_DefaultCacheSize := 100000;
  tbtree_DefaultFlushThld := 100000;
  tbtree_DefaultSyncThld := 1000000;
  tbtree_DefaultFlushBufferSize := 4096;
  tbtree_DefaultCleanUpPercentage := float32_0;
  tbtree_DefaultMaxActiveSnapshots := 100;
  tbtree_DefaultMaxNodeSize := 4096;
  tbtree_DefaultRenewSnapRootAfter := 1000000000;
  tbtree_DefaultCompactionThld := 2;
  tbtree_DefaultNodesLogMaxOpenedFiles := 10;
  tbtree_DefaultHistoryLogMaxOpenedFiles := 1;
  tbtree_DefaultCommitLogMaxOpenedFiles := 1
|}.

Definition exampleHeap : Heap :=
  match DefaultOptions exampleDecls emptyHeap with
  | Some (_, h) => h
  | None => emptyHeap
  end.

Definition exampleOptions : option loc :=
  match DefaultOptions exampleDecls emptyHeap with
  | Some (opts, _) => opts
  | None => None
  end.

(** [DefaultIndexOptions().WithSyncThld(0).WithCompactionThld(-1)
    .WithDelayDuringCompaction(-1)], installed in the default options with
    [WithIndexOptions]. *)
Definition optionsWithBadThresholds : M (option loc) :=
  let* opts := DefaultOptions exampleDecls in
  let* indexOpts := DefaultIndexOptions exampleDecls in
  let* indexOpts := IndexOptions_WithSyncThld indexOpts 0 in
  let* indexOpts := IndexOptions_WithCompactionThld indexOpts (-1) in
  let* indexOpts := IndexOptions_WithDelayDuringCompaction indexOpts (-1) in
  Options_WithIndexOptions opts indexOpts.

(** The setters of the fields that [validOptions] does not read. *)
Definition OptionsSetter_unchecked (c : OptionsSetter) : bool :=
  match c with
  | Options_call_WithReadOnly _
  | Options_call_WithSynced _
  | Options_call_WithFileMode _
  | Options_call_WithAppFactory _
  | Options_call_WithCompactionDisabled _
  | Options_call_WithCompressionFormat _
  | Options_call_WithCompresionLevel _ => true
  | _ => false
  end.

(** What the outside constants have to satisfy for the defaults to pass
    [validOptions]. *)
Definition defaultsAcceptable (d : Decls) : Prop :=
  DefaultMaxIOConcurrency <= MaxParallelIO d
  /\ 0 <= MaxTxHeaderVersion d
  /\ DefaultMaxKeyLen <= MaxKeyLen d
  /\ 0 < multiapp_DefaultFileSize d < MaxFileSize
  /\ 0 < tbtree_DefaultCacheSize d
  /\ 0 < tbtree_DefaultFlushThld d
  /\ 0 < tbtree_DefaultFlushBufferSize d
  /\ float32_le float32_0 (tbtree_DefaultCleanUpPercentage d) = true
  /\ float32_le (tbtree_DefaultCleanUpPercentage d) float32_100 = true
  /\ 0 < tbtree_DefaultMaxActiveSnapshots d
  /\ 0 < tbtree_DefaultMaxNodeSize d
  /\ 0 <= tbtree_DefaultRenewSnapRootAfter d
  /\ 0 < tbtree_DefaultNodesLogMaxOpenedFiles d
  /\ 0 < tbtree_DefaultHistoryLogMaxOpenedFiles d
  /\ 0 < tbtree_DefaultCommitLogMaxOpenedFiles d.

End Store.

(** ** The [pflag] flag sets that the immuadmin commands read

    A flag holds a typed value; [GetBool], [GetString] and [GetUint32] fail
    when the flag was never defined or holds a value of another type. *)
Module pflag.

Inductive Value : Type :=
| boolValue (b : bool)
| stringValue (s : string)
| uint32Value (n : N).

Abbreviation FlagSet := (gmap string Value).

Inductive error : Type :=
| ErrNotDefined (name : string)           (* flag accessed but not defined *)
| ErrWrongType (ftype : string) (name : string).

Definition GetBool (f : FlagSet) (name : string) : error + bool :=
  match f !! name with
  | None => inl (ErrNotDefined name)
  | Some (boolValue b) => inr b
  | Some _ => inl (ErrWrongType "bool" name)
  end.

Definition GetString (f : FlagSet) (name : string) : error + string :=
  match f !! name with
  | None => inl (ErrNotDefined name)
  | Some (stringValue s) => inr s
  | Some _ => inl (ErrWrongType "string" name)
  end.

Definition GetUint32 (f : FlagSet) (name : string) : error + N :=
  match f !! name with
  | None => inl (ErrNotDefined name)
  | Some (uint32Value n) => inr n
  | Some _ => inl (ErrWrongType "uint32" name)
  end.

End pflag.

(** ** [cmd/immuadmin/command/database.go] *)
Module Immuadmin.

(** The fields of [schema.DatabaseSettings] that the command fills in. *)
Record DatabaseSettings : Type := {
  DatabaseName : string;
  Replica : bool;
  MasterDatabase : string;
  MasterAddress : string;
  MasterPort : N;
  ReplicaUsername : string;
  ReplicaPassword : string
}.

(** [if err != nil { return nil, err }] after a call. *)
Definition try {A B} (r : pflag.error + A) (k : A -> pflag.error + B)
    : pflag.error + B :=
  match r with
  | inl err => inl err
  | inr a => k a
  end.

Notation "'let?' x ':=' r 'in' k" := (try r (fun x => k))
  (at level 10, x pattern, r at level 200, k at level 200).

Definition prepareDatabaseSettings (db : string) (flags : pflag.FlagSet)
    : pflag.error + DatabaseSettings :=
  let? isReplica := pflag.GetBool flags "replica" in
  if negb isReplica then
    inr {| DatabaseName := db;
           Replica := false;
           MasterDatabase := "";
           MasterAddress := "";
           MasterPort := 0%N;
           ReplicaUsername := "";
           ReplicaPassword := "" |}
  else
  let? masterDatabase := pflag.GetString flags "master-database" in
  let? masterAddress := pflag.GetString flags "master-address" in
  let? masterPort := pflag.GetUint32 flags "master-port" in
  let? replicaUsername := pflag.GetString flags "replica-username" in
  let? replicaPassword := pflag.GetString flags "replica-username" in
  inr {| DatabaseName := db;
         Replica := isReplica;
         MasterDatabase := masterDatabase;
         MasterAddress := masterAddress;
         MasterPort := masterPort;
         ReplicaUsername := replicaUsername;
         ReplicaPassword := replicaPassword |}.

(** Example: the flags of [database create --replica ...], with a password
    that differs from the user name. *)
Definition exampleFlags : pflag.FlagSet :=
  <["replica" := pflag.boolValue true]>
  (<["master-database" := pflag.stringValue "defaultdb"]>
  (<["master-address" := pflag.stringValue "127.0.0.1"]>
  (<["master-port" := pflag.uint32Value 3322]>
  (<["replica-username" := pflag.stringValue "follower"]>
  (<["replica-password" := pflag.stringValue "secret"]> ∅))))).

(** The flags that [cc.Flags()] and [cu.Flags()] declare for the create and
    the update command, at their default values. *)
Definition databaseFlags : pflag.FlagSet :=
  <["replica" := pflag.boolValue false]>
  (<["master-database" := pflag.stringValue ""]>
  (<["master-address" := pflag.stringValue "127.0.0.1"]>
  (<["master-port" := pflag.uint32Value 3322]>
  (<["replica-username" := pflag.stringValue ""]>
  (<["replica-password" := pflag.stringValue ""]> ∅))))).

(** The flag set still holds, under each name that the command reads, a
    value of the type the flag was declared with (parsing the command line
    changes values, not types). *)
Definition declaredTypes (flags : pflag.FlagSet) : Prop :=
  (exists b, flags !! "replica" = Some (pflag.boolValue b))
  /\ (exists v, flags !! "master-database" = Some (pflag.stringValue v))
  /\ (exists v, flags !! "master-address" = Some (pflag.stringValue v))
  /\ (exists n, flags !! "master-port" = Some (pflag.uint32Value n))
  /\ (exists v, flags !! "replica-username" = Some (pflag.stringValue v)).

(** What a command run leaves behind, oldest first: lines written to
    [cmd.OutOrStdout()] with [fmt.Fprintf], the yellow warning written with
    [c.PrintfColorW], and requests sent through [cl.immuClient]. *)
Inductive action : Type :=
| Fprintf (text : string)
| PrintfColorW_Yellow (text : string)
| CreateDatabase (settings : DatabaseSettings)
| UpdateDatabase (settings : DatabaseSettings).

(** The error a run returns: from reading the flags, or from the server. *)
Inductive runError : Type :=
| FlagError (err : pflag.error)
| ClientError (msg : string).

Inductive runResult : Type :=
| RunOk
| RunErr (err : runError)
| RunPanic (msg : string).

Definition newline : string := String "010"%char "".

(** [%v] of a bool *)
Definition formatBool (b : bool) : string := if b then "true" else "false".

Definition replicationWarning : string :=
  "Replication is a work-in-progress feature. Not ready for production use"
  ++ newline.

(** The [RunE] of the create command; [createDatabase] is what
    [cl.immuClient.CreateDatabase] answers to the request (its error, if
    any). *)
Definition createRunE (createDatabase : DatabaseSettings -> option string)
    (args : list string) (flags : pflag.FlagSet)
    : runResult * list action :=
  match args with
  | [] => (RunPanic "index out of range [0] with length 0", [])
  | name :: _ =>
      match prepareDatabaseSettings name flags with
      | inl err => (RunErr (FlagError err), [])
      | inr settings =>
          let warned :=
            if Replica settings
            then [PrintfColorW_Yellow replicationWarning]
            else [] in
          match createDatabase settings with
          | Some msg =>
              (RunErr (ClientError msg),
               (warned ++ [CreateDatabase settings])%list)
          | None =>
              (RunOk,
               (warned
                ++ [CreateDatabase settings;
                    Fprintf ("database '" ++ name ++ "' (replica = "
                             ++ formatBool (Replica settings)
                             ++ ") successfully created" ++ newline)])%list)
          end
      end
  end.

(** The [RunE] of the update command. *)
Definition updateRunE (updateDatabase : DatabaseSettings -> option string)
    (args : list string) (flags : pflag.FlagSet)
    : runResult * list action :=
  match args with
  | [] => (RunPanic "index out of range [0] with length 0", [])
  | name :: _ =>
      match prepareDatabaseSettings name flags with
      | inl err => (RunErr (FlagError err), [])
      | inr settings =>
          let warned :=
            if Replica settings
            then [PrintfColorW_Yellow replicationWarning]
            else [] in
          match updateDatabase settings with
          | Some msg =>
              (RunErr (ClientError msg),
               (warned ++ [UpdateDatabase settings])%list)
          | None =>
              (RunOk,
               (warned
                ++ [UpdateDatabase settings;
                    Fprintf ("database '" ++ name ++ "' (replica = "
                             ++ formatBool (Replica settings)
                             ++ ") successfully updated" ++ newline)])%list)
          end
      end
  end.

End Immuadmin.

(** ** The hash chain of the commit log *)
Module HashChain.

Section Chain.
Context {Hash Entry : Type}.
(** The hash [H] that links two digests, the digest of the entries of one
    transaction, and the chained hash that precedes transaction 1. *)
Variable H : Hash -> Hash -> Hash.
Variable digest : list Entry -> Hash.
Variable genesis : Hash.

(** Modelled from the spec: the transaction header of the commit log; the
    log and the commit path are not among the sources.  A transaction holds
    its id (from 1, in steps of 1), its entries, and the prior and the
    current chained hash. *)
Record Tx : Type := {
  id : nat;
  entries : list Entry;
  priorChainedHash : Hash;
  chainedHash : Hash
}.

(** Modelled from the spec: the head of the chain, the chained hash of the
    last committed transaction ([genesis] for the empty log). *)
Definition headHash (log : list Tx) : Hash :=
  match last (chainedHash <$> log) with
  | Some h => h
  | None => genesis
  end.

(** Modelled from the spec: the commit of one transaction.  The header is
    chained to the prior head, [chainedHash = H(prior, digest(entries))], and
    appended; the caller receives the id and the chained hash. *)
Definition commit (es : list Entry) (log : list Tx)
    : (nat * Hash) * list Tx :=
  let prior := headHash log in
  let n := S (List.length log) in
  let h := H prior (digest es) in
  ((n, h),
   (log ++ [{| id := n; entries := es;
               priorChainedHash := prior; chainedHash := h |}])%list).

(** A run of commits, oldest first, with what each one returned. *)
Fixpoint commitAll (batches : list (list Entry)) (log : list Tx)
    : list (nat * Hash) * list Tx :=
  match batches with
  | [] => ([], log)
  | es :: batches' =>
      let '(r, log1) := commit es log in
      let '(rs, log2) := commitAll batches' log1 in
      (r :: rs, log2)
  end.

(** Modelled from the spec: the chained hash of transaction [n] recomputed
    from scratch, from the entries of transactions 1..n alone (none of the
    stored hashes is read). *)
Definition recompute (log : list Tx) (n : nat) : Hash :=
  fold_left (fun h tx => H h (digest (entries tx))) (firstn n log) genesis.

(** The invariant of the log: every header carries its position as id and,
    as prior and current chained hash, what recomputation from scratch
    gives. *)
Definition chained (log : list Tx) : Prop :=
  forall k tx, log !! k = Some tx ->
    id tx = S k
    /\ priorChainedHash tx = recompute log k
    /\ chainedHash tx = recompute log (S k).

End Chain.

(** Example: a toy chain on numbers, [H a b = 31 a + b] over the sum of the
    entries. *)
Definition exampleH (a b : nat) : nat := (31 * a + b)%nat.
Definition exampleDigest (es : list nat) : nat := fold_right Nat.add 0%nat es.
Definition exampleBatches : list (list nat) := [[1; 2]; [3]; [4; 5; 6]]%nat.

End HashChain.

(* ===================================================================== *)
(** * Part II: lemmas and theorems                                        *)
(* ===================================================================== *)

(** ** Byte strings: what [HasPrefix], [HasSuffix], [Contains] and the
       trimming functions compute *)
Lemma append_nil_l (b : string) : "" ++ b = b.
Proof. reflexivity. Qed.

Lemma append_cons (c : ascii) (a b : string) :
  String c a ++ b = String c (a ++ b).
Proof. reflexivity. Qed.

(** Unfold [++] on strings at its constructors, then ssimplify. *)
Ltac ssimpl := rewrite ?append_cons, ?append_nil_l; simpl;
               rewrite ?append_cons, ?append_nil_l.

Lemma length_append (a b : string) :
  String.length (a ++ b) = (String.length a + String.length b)%nat.
Proof. induction a as [|c a IH]; ssimpl; [reflexivity | now rewrite IH]. Qed.

Lemma append_assoc (a b c : string) : (a ++ b) ++ c = a ++ (b ++ c).
Proof. induction a as [|x a IH]; ssimpl; [reflexivity | now rewrite IH]. Qed.

Lemma append_nil_r (a : string) : a ++ "" = a.
Proof. induction a as [|x a IH]; ssimpl; [reflexivity | now rewrite IH]. Qed.

Lemma sliceTo_sliceFrom (n : nat) (s : string) :
  strings.sliceTo n s ++ strings.sliceFrom n s = s.
Proof.
  revert s; induction n as [|n IH]; intros [|c s]; ssimpl; try reflexivity.
  now rewrite IH.
Qed.

Lemma sliceTo_append (p r : string) :
  strings.sliceTo (String.length p) (p ++ r) = p.
Proof.
  induction p as [|c p IH]; ssimpl.
  - now destruct r.
  - now rewrite IH.
Qed.

Lemma sliceFrom_append (r p : string) :
  strings.sliceFrom (String.length r) (r ++ p) = p.
Proof. induction r as [|c r IH]; ssimpl; [reflexivity | exact IH]. Qed.

(** [HasPrefix s p] holds exactly when [s] is [p] followed by something. *)
Lemma HasPrefix_spec (s p : string) :
  strings.HasPrefix s p = true <-> exists r, s = p ++ r.
Proof.
  unfold strings.HasPrefix. rewrite andb_true_iff, Nat.leb_le, String.eqb_eq.
  split.
  - intros [_ E]. exists (strings.sliceFrom (String.length p) s).
    pose proof (sliceTo_sliceFrom (String.length p) s) as Hs.
    rewrite E in Hs. now symmetry.
  - intros [r ->]. rewrite length_append, sliceTo_append. split; [lia | easy].
Qed.

(** [HasSuffix s p] holds exactly when [s] is something followed by [p]. *)
Lemma HasSuffix_spec (s p : string) :
  strings.HasSuffix s p = true <-> exists r, s = r ++ p.
Proof.
  unfold strings.HasSuffix. rewrite andb_true_iff, Nat.leb_le, String.eqb_eq.
  split.
  - intros [_ E].
    exists (strings.sliceTo (String.length s - String.length p) s).
    pose proof (sliceTo_sliceFrom (String.length s - String.length p) s) as Hs.
    rewrite E in Hs. now symmetry.
  - intros [r ->]. rewrite length_append.
    replace (String.length r + String.length p - String.length p)%nat
      with (String.length r) by lia.
    rewrite sliceFrom_append. split; [lia | easy].
Qed.

Lemma Contains_nil (sub : string) :
  strings.Contains "" sub = strings.HasPrefix "" sub.
Proof. ssimpl. apply orb_false_r. Qed.

Lemma Contains_cons (c : ascii) (s sub : string) :
  strings.Contains (String c s) sub
  = strings.HasPrefix (String c s) sub || strings.Contains s sub.
Proof. reflexivity. Qed.

(** [Contains s sub] holds exactly when [sub] occurs somewhere in [s]. *)
Lemma Contains_spec (s sub : string) :
  strings.Contains s sub = true <-> exists a b, s = a ++ sub ++ b.
Proof.
  split.
  - induction s as [|c s IH].
    + rewrite Contains_nil, HasPrefix_spec. intros [r E]. now exists "", r.
    + rewrite Contains_cons, orb_true_iff, HasPrefix_spec.
      intros [[r E] | Hs].
      * now exists "", r.
      * destruct (IH Hs) as (a & b & ->). now exists (String c a), b.
  - intros (a & b & ->). induction a as [|c a IH].
    + assert (P : strings.HasPrefix (sub ++ b) sub = true)
        by (apply HasPrefix_spec; now exists b).
      ssimpl. destruct (sub ++ b); [now rewrite Contains_nil |].
      rewrite Contains_cons, P. reflexivity.
    + change (String c a ++ sub ++ b) with (String c (a ++ sub ++ b)).
      rewrite Contains_cons, IH. apply orb_true_r.
Qed.

(** A byte occurs in [s]: [Contains] with a one-byte pattern. *)
Lemma Contains_byte_false (s : string) (c : ascii) :
  strings.Contains s (String c "") = false ->
  forall a b, s <> a ++ String c b.
Proof.
  intros Hc a b E.
  assert (T : strings.Contains s (String c "") = true)
    by (apply Contains_spec; now exists a, b).
  congruence.
Qed.

(** What [TrimLeft] leaves does not start with a byte of the cutset. *)
Lemma TrimLeft_head (s cutset : string) (a : ascii) (r : string) :
  strings.TrimLeft s cutset = String a r ->
  strings.inCutset a cutset = false.
Proof.
  induction s as [|c s IH]; ssimpl; [discriminate |].
  destruct (strings.inCutset c cutset) eqn:E; [exact IH |].
  intros [= <- <-]. exact E.
Qed.

(** [TrimLeft] drops a run of cutset bytes from the front and nothing else. *)
Lemma TrimLeft_split (s cutset : string) :
  exists l, s = l ++ strings.TrimLeft s cutset
            /\ forall i c, String.get i l = Some c ->
                           strings.inCutset c cutset = true.
Proof.
  induction s as [|c s (l & E & Hl)]; ssimpl.
  - exists "". split; [reflexivity | intros i c' [=]].
  - destruct (strings.inCutset c cutset) eqn:Ec.
    + exists (String c l). split; [ssimpl; now rewrite <- E |].
      intros [|i] c'; ssimpl; [now intros [= <-] | apply Hl].
    + exists "". split; [reflexivity | intros i c' [=]].
Qed.

(** What [TrimRight] leaves does not end with a byte of the cutset. *)
Lemma TrimRight_last (s cutset : string) (r : string) (a : ascii) :
  strings.TrimRight s cutset = r ++ String a "" ->
  strings.inCutset a cutset = false.
Proof.
  revert r; induction s as [|c s IH]; intros r; ssimpl.
  - now destruct r.
  - destruct (strings.TrimRight s cutset) as [|d t] eqn:Et.
    + destruct (strings.inCutset c cutset) eqn:Ec.
      * now destruct r.
      * destruct r as [|x r]; ssimpl.
        -- intros [= <-]. exact Ec.
        -- intros [= _ E]. now destruct r.
    + destruct r as [|x r]; ssimpl; [intros [=] |].
      intros [= _ E]. now apply (IH r).
Qed.

(** [TrimRight] drops a run of cutset bytes from the end and nothing else. *)
Lemma TrimRight_split (s cutset : string) :
  exists r, s = strings.TrimRight s cutset ++ r
            /\ forall i c, String.get i r = Some c ->
                           strings.inCutset c cutset = true.
Proof.
  induction s as [|c s (r & E & Hr)]; ssimpl.
  - exists "". split; [reflexivity | intros i c' [=]].
  - destruct (strings.TrimRight s cutset) as [|d t] eqn:Et.
    + rewrite append_nil_l in E. subst r.
      destruct (strings.inCutset c cutset) eqn:Ec.
      * exists (String c s). split; [reflexivity |].
        intros [|i] c'; simpl; [now intros [= <-] | apply Hr].
      * exists s. split; [reflexivity | exact Hr].
    + exists r. split; [ssimpl; f_equal; exact E | exact Hr].
Qed.

Lemma Trim_head (s cutset : string) (a : ascii) (r : string) :
  strings.Trim s cutset = String a r -> strings.inCutset a cutset = false.
Proof. apply TrimLeft_head. Qed.

Lemma Trim_last (s cutset : string) (r : string) (a : ascii) :
  strings.Trim s cutset = r ++ String a "" ->
  strings.inCutset a cutset = false.
Proof.
  unfold strings.Trim. intros E.
  destruct (TrimLeft_split (strings.TrimRight s cutset) cutset) as (l & El & _).
  rewrite E, <- append_assoc in El.
  exact (TrimRight_last _ _ _ _ El).
Qed.

(** [Trim] removes a run of cutset bytes at either end, and what is left
    neither starts nor ends with a byte of the cutset. *)
Lemma Trim_split (s cutset : string) :
  exists l r, s = l ++ strings.Trim s cutset ++ r
    /\ (forall i c, String.get i l = Some c -> strings.inCutset c cutset = true)
    /\ (forall i c, String.get i r = Some c -> strings.inCutset c cutset = true).
Proof.
  destruct (TrimRight_split s cutset) as (r & Er & Hr).
  destruct (TrimLeft_split (strings.TrimRight s cutset) cutset) as (l & El & Hl).
  exists l, r. split; [| split; assumption].
  unfold strings.Trim. rewrite <- append_assoc, <- El. exact Er.
Qed.

(** ** Go's sortedness tests decide lexicographic order *)






(** The test that [ListEntries] runs on the entries, on their names. *)
Lemma SliceIsSorted_names_spec (entries : list Azure.EntryInfo) :
  sort.SliceIsSorted (List.length entries)
    (fun i j =>
       String.ltb
         (Azure.Name (nth i entries {| Azure.Name := ""; Azure.Size := 0 |}))
         (Azure.Name (nth j entries {| Azure.Name := ""; Azure.Size := 0 |})))
  = sort.StringsAreSorted (map Azure.Name entries).
Proof.
  unfold sort.SliceIsSorted, sort.StringsAreSorted.
  rewrite length_map.
  generalize (List.length entries - 1)%nat as i.
  induction i as [|i IH]; simpl; [reflexivity |].
  rewrite IH, <- !(map_nth Azure.Name). reflexivity.
Qed.

(** ** The Azure backend *)
Section AzureFacts.
Context {sdk : Azure.SDK}.
Implicit Types (s : Azure.Storage sdk) (st : Azure.state sdk).

(** The test on names that [Get], [Put] and [Exists] share. *)
Lemma name_guard (name : string) :
  strings.HasPrefix name "/" || strings.HasSuffix name "/" = true
  <-> StringSpec.startsWith name "/" \/ StringSpec.endsWith name "/".
Proof. now rewrite orb_true_iff, HasPrefix_spec, HasSuffix_spec. Qed.

(** The test on the path that [ListEntries] makes. *)
Lemma path_guard (path : string) :
  negb (String.eqb path "")
  && (negb (strings.HasSuffix path "/") || strings.Contains path "//") = false
  <-> Azure.pathAccepted path.
Proof.
  unfold Azure.pathAccepted.
  rewrite andb_false_iff, negb_false_iff, String.eqb_eq, orb_false_iff,
    negb_false_iff, HasSuffix_spec, <- not_true_iff_false, Contains_spec.
  reflexivity.
Qed.

(** The loop over the prefixes of one page: the names are appended when each
    is there, and the first nil panics. *)
Lemma appendPrefixes_run (vs : list Azure.BlobPrefix.t) (ps : list string)
    (st : Azure.state sdk) :
  Azure.appendPrefixes vs ps st
  = if decide (Forall (fun v => is_Some (Azure.BlobPrefix.Name v)) vs)
    then (Azure.Ok (ps ++ omap Azure.BlobPrefix.Name vs)%list, st)
    else (Azure.Panic Azure.nilDereference, st).
Proof.
  revert ps. induction vs as [|v vs IH]; intros ps; cbn [Azure.appendPrefixes].
  - rewrite decide_True by constructor. simpl. now rewrite app_nil_r.
  - unfold Azure.bind, Azure.deref.
    destruct (Azure.BlobPrefix.Name v) as [name|] eqn:Hv.
    + cbn [Azure.ret]. rewrite IH. cbn [omap list_omap]. rewrite Hv.
      destruct (decide (Forall _ vs)) as [Hall | Hnot].
      * rewrite decide_True by (constructor; [rewrite Hv; eauto | exact Hall]).
        now rewrite <- app_assoc.
      * rewrite decide_False; [reflexivity |].
        intros Hc. apply Hnot. now inversion Hc.
    + cbn [Azure.panic]. rewrite decide_False; [reflexivity |].
      intros Hc. inversion Hc as [|? ? Hs _]; subst.
      rewrite Hv in Hs. now apply is_Some_None in Hs.
Qed.

(** The loop over the items of one page. *)
Lemma appendItems_run (vs : list Azure.BlobItem.t)
    (es : list Azure.EntryInfo) (st : Azure.state sdk) :
  Azure.appendItems vs es st
  = if decide (Forall (fun v => is_Some (Azure.entryOf v)) vs)
    then (Azure.Ok (es ++ omap Azure.entryOf vs)%list, st)
    else (Azure.Panic Azure.nilDereference, st).
Proof.
  revert es. induction vs as [|v vs IH]; intros es; cbn [Azure.appendItems].
  - rewrite decide_True by constructor. simpl. now rewrite app_nil_r.
  - assert (Hcons : forall e, Azure.entryOf v = Some e ->
              (if decide (Forall (fun v => is_Some (Azure.entryOf v)) vs)
               then (Azure.Ok (es ++ [e] ++ omap Azure.entryOf vs)%list, st)
               else (Azure.Panic Azure.nilDereference, st)
                 : Azure.result (list Azure.EntryInfo) * Azure.state sdk)
              = if decide (Forall (fun v => is_Some (Azure.entryOf v))
                             (v :: vs))
                then (Azure.Ok (es ++ omap Azure.entryOf (v :: vs))%list, st)
                else (Azure.Panic Azure.nilDereference, st)).
    { intros e He. cbn [omap list_omap]. rewrite He.
      destruct (decide (Forall _ vs)) as [Hall | Hnot].
      - now rewrite decide_True by (constructor; [rewrite He; eauto | exact Hall]).
      - rewrite decide_False; [reflexivity |].
        intros Hc. apply Hnot. now inversion Hc. }
    assert (Hnil : Azure.entryOf v = None ->
              (Azure.Panic Azure.nilDereference, st)
              = (if decide (Forall (fun v => is_Some (Azure.entryOf v))
                              (v :: vs))
                 then (Azure.Ok (es ++ omap Azure.entryOf (v :: vs))%list, st)
                 else (Azure.Panic Azure.nilDereference, st)
                   : Azure.result (list Azure.EntryInfo) * Azure.state sdk)).
    { intros Hn. rewrite decide_False; [reflexivity |].
      intros Hc. inversion Hc as [|? ? Hs _]; subst.
      rewrite Hn in Hs. now apply is_Some_None in Hs. }
    unfold Azure.bind, Azure.deref.
    destruct v as [[name|] [[[size|]]|]]; cbn [Azure.BlobItem.Name
      Azure.BlobItem.Properties Azure.BlobItem.ContentLength Azure.ret
      Azure.panic];
      try (apply Hnil; reflexivity).
    rewrite IH, <- app_assoc. apply Hcons. reflexivity.
Qed.

Lemma complete_cons (seg : Azure.Segment) (pages : list Azure.Segment) :
  Azure.complete (seg :: pages)
  <-> Forall (fun v => is_Some (Azure.BlobPrefix.Name v))
        (Azure.BlobPrefixes seg)
      /\ Forall (fun v => is_Some (Azure.entryOf v)) (Azure.BlobItems seg)
      /\ Azure.complete pages.
Proof.
  unfold Azure.complete, Azure.pagePrefixes, Azure.pageItems.
  cbn [map concat]. rewrite !Forall_app. tauto.
Qed.

(** The loops over all pages: everything the pages held when nothing in
    them is nil, and a panic otherwise. *)
Lemma collectPages_run (pages : list Azure.Segment)
    (es : list Azure.EntryInfo) (ps : list string) (st : Azure.state sdk) :
  Azure.collectPages pages es ps st
  = if decide (Azure.complete pages)
    then (Azure.Ok ((es ++ Azure.yieldedEntries pages)%list,
                    (ps ++ Azure.yieldedPrefixes pages)%list), st)
    else (Azure.Panic Azure.nilDereference, st).
Proof.
  revert es ps. induction pages as [|seg pages IH]; intros es ps;
    cbn [Azure.collectPages].
  - rewrite decide_True by (split; constructor).
    unfold Azure.yieldedEntries, Azure.yieldedPrefixes. simpl.
    now rewrite !app_nil_r.
  - unfold Azure.bind. rewrite appendPrefixes_run.
    destruct (decide (Forall _ (Azure.BlobPrefixes seg))) as [Hp | Hp].
    + rewrite appendItems_run.
      destruct (decide (Forall _ (Azure.BlobItems seg))) as [Hi | Hi].
      * rewrite IH. destruct (decide (Azure.complete pages)) as [Hc | Hc].
        -- rewrite decide_True by (apply complete_cons; auto).
           unfold Azure.yieldedEntries, Azure.yieldedPrefixes,
             Azure.pageItems, Azure.pagePrefixes.
           cbn [map concat]. now rewrite !omap_app, <- !app_assoc.
        -- rewrite decide_False; [reflexivity |].
           intros Hc'. apply complete_cons in Hc'. tauto.
      * rewrite decide_False; [reflexivity |].
        intros Hc'. apply complete_cons in Hc'. tauto.
    + rewrite decide_False; [reflexivity |].
      intros Hc'. apply complete_cons in Hc'. tauto.
Qed.

(** [ListEntries] once the path is let through: one listing request, the
    loops over the pages, then the sortedness test on what they held. *)
Lemma ListEntries_accepted s (path : string) st :
  Azure.pathAccepted path ->
  let '(pages, w) :=
    Azure.ListBlobsHierarchy sdk "/" (Azure.prefix s ++ path) (Azure.world st) in
  let entries := Azure.yieldedEntries pages in
  let subPaths := Azure.yieldedPrefixes pages in
  let st' :=
    {| Azure.world := w;
       Azure.trace :=
         (Azure.trace st
          ++ [Azure.EvListBlobsHierarchy "/" (Azure.prefix s ++ path)])%list |} in
  Azure.ListEntries s path st
  = if decide (Azure.complete pages)
    then if sort.StringsAreSorted (map Azure.Name entries)
            && sort.StringsAreSorted subPaths
         then (Azure.Ok (entries, subPaths), st')
         else (Azure.Err Azure.ErrInvalidResponse, st')
    else (Azure.Panic Azure.nilDereference, st').
Proof.
  intros Hacc. apply path_guard in Hacc.
  unfold Azure.ListEntries. rewrite Hacc.
  unfold Azure.bind at 1. unfold Azure.request.
  destruct (Azure.ListBlobsHierarchy sdk "/" (Azure.prefix s ++ path)
              (Azure.world st)) as [pages w].
  unfold Azure.bind. rewrite collectPages_run.
  destruct (decide (Azure.complete pages)); [| reflexivity].
  cbn [app]. rewrite SliceIsSorted_names_spec.
  destruct (sort.StringsAreSorted _), (sort.StringsAreSorted _); reflexivity.
Qed.

(** [Get] with a well-formed name, a valid offset and a negative size reaches
    [make([]byte, size)], which panics. *)
Lemma Get_negative_size s (name : string) (offs size : Z) st :
  0 <= offs -> size < 0 ->
  ~ StringSpec.startsWith name "/" -> ~ StringSpec.endsWith name "/" ->
  Azure.Get s name offs size st
  = (Azure.Panic "makeslice: len out of range", st).
Proof.
  intros Ho Hs Hp Hq. unfold Azure.Get.
  replace (offs <? 0) with false by (symmetry; apply Z.ltb_ge; lia).
  replace (size =? 0) with false by (symmetry; apply Z.eqb_neq; lia).
  destruct (strings.HasPrefix name "/" || strings.HasSuffix name "/") eqn:G.
  - apply name_guard in G. tauto.
  - simpl. unfold Azure.bind, Azure.makeBytes.
    replace (size <? 0) with true by (symmetry; apply Z.ltb_lt; lia).
    reflexivity.
Qed.

(** C3: a name that starts or ends with '/' makes [Get], [Put] and [Exists]
    return [ErrInvalidArguments] with the state left as it was: no request
    is added to the trace and the outside world is not touched. *)
Theorem names_with_separator_rejected s (name fileName : string)
    (offs size : Z) st :
  StringSpec.startsWith name "/" \/ StringSpec.endsWith name "/" ->
  Azure.Get s name offs size st = (Azure.Err Azure.ErrInvalidArguments, st)
  /\ Azure.Put s name fileName st = (Azure.Err Azure.ErrInvalidArguments, st)
  /\ Azure.Exists s name st = (Azure.Err Azure.ErrInvalidArguments, st).
Proof.
  intros Hname. apply name_guard in Hname.
  unfold Azure.Get, Azure.Put, Azure.Exists. rewrite Hname.
  repeat split; try reflexivity.
  now destruct ((offs <? 0) || (size =? 0)).
Qed.

(** C6, at the failing input: [Get(ctx, "segment", 0, -1)] panics instead of
    returning [ErrInvalidArguments]. *)
Theorem Get_negative_size_panics s st :
  Azure.Get s "segment" 0 (-1) st
  = (Azure.Panic "makeslice: len out of range", st).
Proof. reflexivity. Qed.


(** C10: a non-empty path that does not end with '/' or that holds "//" is
    refused with [ErrInvalidArguments] and the state left as it was; the
    empty path is let through: the listing request is issued (with the
    storage prefix) and the call does not answer [ErrInvalidArguments]. *)
Theorem ListEntries_path_precondition s (path : string) st :
  (path <> "" ->
   ~ StringSpec.endsWith path "/" \/ StringSpec.occursIn "//" path ->
   Azure.ListEntries s path st = (Azure.Err Azure.ErrInvalidArguments, st))
  /\ fst (Azure.ListEntries s "" st) <> Azure.Err Azure.ErrInvalidArguments
  /\ Azure.trace (snd (Azure.ListEntries s "" st))
     = (Azure.trace st
        ++ [Azure.EvListBlobsHierarchy "/" (Azure.prefix s)])%list.
Proof.
  split.
  - intros Hne Hbad.
    destruct (negb (String.eqb path "")
              && (negb (strings.HasSuffix path "/")
                  || strings.Contains path "//")) eqn:G.
    + unfold Azure.ListEntries. now rewrite G.
    + apply path_guard in G. destruct G as [-> | [He Ho]]; tauto.
  - assert (Hacc : Azure.pathAccepted "") by now left.
    pose proof (ListEntries_accepted s "" st Hacc) as L.
    rewrite append_nil_r in L.
    destruct (Azure.ListBlobsHierarchy _ _ _ _) as [pages w].
    cbv zeta in L. rewrite L.
    destruct (decide (Azure.complete pages)); [destruct (_ && _) |];
      simpl; split; (discriminate || reflexivity).
Qed.

(** What [Open] builds when the container passes and the client is made. *)
Lemma Open_Ok_inv (endpoint container prefix : string)
    (cred : Azure.TokenCredential sdk) s :
  Azure.Open sdk endpoint container prefix cred = Azure.Ok s ->
  strings.Contains (strings.Trim container "/") "/" = false
  /\ Azure.endpoint s = strings.TrimRight endpoint "/" ++ "/"
  /\ Azure.container s = strings.Trim container "/"
  /\ Azure.prefix s
     = (if String.eqb (strings.Trim prefix "/") ""
        then strings.Trim prefix "/"
        else strings.Trim prefix "/" ++ "/").
Proof.
  unfold Azure.Open.
  destruct (strings.Contains (strings.Trim container "/") "/"); [discriminate |].
  destruct (Azure.NewContainerClient sdk _ cred); [discriminate |].
  intros [= <-]. simpl. auto.
Qed.

(** C9: the storage that a successful [Open] returns has an endpoint that
    ends with '/', a container in which '/' does not occur, and a prefix
    that is empty or else ends with '/' and does not start with '/'; and
    [Open] answers [ErrInvalidArguments] whenever '/' occurs in the container
    after the '/' at its two ends are trimmed. *)
Theorem Open_normalizes (endpoint container prefix : string)
    (cred : Azure.TokenCredential sdk) :
  (forall s,
      Azure.Open sdk endpoint container prefix cred = Azure.Ok s ->
      StringSpec.endsWith (Azure.endpoint s) "/"
      /\ ~ StringSpec.occursIn "/" (Azure.container s)
      /\ (Azure.prefix s = ""
          \/ (StringSpec.endsWith (Azure.prefix s) "/"
              /\ ~ StringSpec.startsWith (Azure.prefix s) "/")))
  /\ (StringSpec.occursIn "/" (strings.Trim container "/") ->
      Azure.Open sdk endpoint container prefix cred
      = Azure.Err Azure.ErrInvalidArguments).
Proof.
  split.
  - intros s Hok.
    destruct (Open_Ok_inv _ _ _ _ _ Hok) as (Hc & -> & -> & ->).
    split; [now eexists |]. split.
    + intros Hocc. apply Contains_spec in Hocc. congruence.
    + destruct (String.eqb_spec (strings.Trim prefix "/") "") as [E | Hne].
      * now left.
      * right. split; [now eexists |].
        destruct (strings.Trim prefix "/") as [|a t] eqn:Et; [easy |].
        apply Trim_head in Et. intros [r Hr].
        rewrite !append_cons in Hr. injection Hr as -> _.
        discriminate Et.
  - intros Hocc. apply Contains_spec in Hocc.
    unfold Azure.Open. now rewrite Hocc.
Qed.

End AzureFacts.

(** *** The Azure theorems at example inputs *)

Lemma names_with_separator_rejected_witness :
  (StringSpec.startsWith "/tx/00000000.tx" "/"
   \/ StringSpec.endsWith "/tx/00000000.tx" "/")
  /\ Azure.Get Azure.exampleStorage "/tx/00000000.tx" 0 16
       (Azure.startState [])
     = (Azure.Err Azure.ErrInvalidArguments, Azure.startState [])
  /\ Azure.Put Azure.exampleStorage "/tx/00000000.tx" "/tmp/00000000.tx"
       (Azure.startState [])
     = (Azure.Err Azure.ErrInvalidArguments, Azure.startState [])
  /\ Azure.Exists Azure.exampleStorage "/tx/00000000.tx"
       (Azure.startState [])
     = (Azure.Err Azure.ErrInvalidArguments, Azure.startState []).
Proof.
  assert (Hname : StringSpec.startsWith "/tx/00000000.tx" "/"
                  \/ StringSpec.endsWith "/tx/00000000.tx" "/")
    by (left; exists "tx/00000000.tx"; reflexivity).
  split; [exact Hname |].
  exact (names_with_separator_rejected Azure.exampleStorage
           "/tx/00000000.tx" "/tmp/00000000.tx" 0 16
           (Azure.startState []) Hname).
Defined.



Lemma ListEntries_path_precondition_witness :
  ("tx" <> ""
   /\ (~ StringSpec.endsWith "tx" "/" \/ StringSpec.occursIn "//" "tx"))
  /\ Azure.ListEntries Azure.exampleStorage "tx"
       (Azure.startState Azure.sortedPages)
     = (Azure.Err Azure.ErrInvalidArguments,
        Azure.startState Azure.sortedPages).
Proof.
  assert (Hne : "tx" <> "") by discriminate.
  assert (Hbad : ~ StringSpec.endsWith "tx" "/"
                 \/ StringSpec.occursIn "//" "tx").
  { left. intros He. apply HasSuffix_spec in He.
    vm_compute in He. discriminate He. }
  split; [split; assumption |].
  exact (proj1 (ListEntries_path_precondition Azure.exampleStorage "tx"
                  (Azure.startState Azure.sortedPages)) Hne Hbad).
Defined.

Lemma Open_normalizes_witness :
  (Azure.Open Azure.pagesSDK "https://account.blob.core.windows.net/immudb"
     "/decrypted/" "//db0/val//" tt
   = Azure.Ok
       (Azure.Build_Storage Azure.pagesSDK
          "https://account.blob.core.windows.net/immudb/" "decrypted"
          "db0/val/" tt
          (Azure.Build_ContainerClient Azure.pagesSDK
             "https://account.blob.core.windows.net/immudb/" tt)))
  /\ (StringSpec.endsWith "https://account.blob.core.windows.net/immudb/" "/"
      /\ ~ StringSpec.occursIn "/" "decrypted"
      /\ ("db0/val/" = ""
          \/ (StringSpec.endsWith "db0/val/" "/"
              /\ ~ StringSpec.startsWith "db0/val/" "/")))
  /\ (StringSpec.occursIn "/" (strings.Trim "/a/b/" "/")
      /\ Azure.Open Azure.pagesSDK "https://x" "/a/b/" "" tt
         = Azure.Err Azure.ErrInvalidArguments).
Proof.
  split; [reflexivity |]. split.
  - exact (proj1 (Open_normalizes (sdk := Azure.pagesSDK)
                    "https://account.blob.core.windows.net/immudb"
                    "/decrypted/" "//db0/val//" tt) _ eq_refl).
  - assert (Hocc : StringSpec.occursIn "/" (strings.Trim "/a/b/" "/"))
      by (exists "a", "b"; reflexivity).
    split; [exact Hocc |].
    exact (proj2 (Open_normalizes (sdk := Azure.pagesSDK)
                    "https://x" "/a/b/" "" tt) Hocc).
Defined.

(** ** The store options *)
Section StoreFacts.
Import Store.

Lemma MaxFileSize_value : MaxFileSize = 2 ^ 31 - 1.
Proof. reflexivity. Qed.

(** C2: when [validOptions] accepts, the pointer is not nil and the options
    it points to satisfy every bound: concurrency and I/O concurrency
    positive, I/O concurrency at most [MaxParallelIO], linear proof length
    not negative, the three opened-files limits positive, entries per
    transaction positive, key length positive and at most [MaxKeyLen], value
    length positive, and file size positive and below (1<<31)-1. *)
Theorem validOptions_bounds (d : Decls) (h : Heap) (opts : option loc) :
  validOptions d h opts = true ->
  exists o,
    derefOptions h opts = Some o
    /\ 0 < Options.MaxConcurrency o
    /\ 0 < Options.MaxIOConcurrency o <= MaxParallelIO d
    /\ 0 <= Options.MaxLinearProofLen o
    /\ 0 < Options.VLogMaxOpenedFiles o
    /\ 0 < Options.TxLogMaxOpenedFiles o
    /\ 0 < Options.CommitLogMaxOpenedFiles o
    /\ 0 < Options.MaxTxEntries o
    /\ 0 < Options.MaxKeyLen o <= MaxKeyLen d
    /\ 0 < Options.MaxValueLen o
    /\ 0 < Options.FileSize o < 2 ^ 31 - 1.
Proof.
  unfold validOptions.
  destruct (derefOptions h opts) as [o|]; [| discriminate].
  rewrite !andb_true_iff, !Z.ltb_lt, !Z.leb_le, MaxFileSize_value.
  intros Hv. exists o.
  repeat match goal with H : _ /\ _ |- _ => destruct H end.
  repeat split; assumption.
Qed.

(** [validIndexOptions] reads ten of the thirteen fields: the sync
    threshold, the compaction threshold and the delay during compaction do
    not enter its answer. *)
Lemma validIndexOptions_ignores_thresholds (h : Heap) (l : loc)
    (o : IndexOptions.t) (syncThld compactionThld delay : int) :
  indexOptionsAt h !! l = Some o ->
  validIndexOptions
    {| optionsAt := optionsAt h;
       indexOptionsAt :=
         <[l := IndexOptions.set_SyncThld syncThld
                  (IndexOptions.set_CompactionThld compactionThld
                     (IndexOptions.set_DelayDuringCompaction delay o))]>
           (indexOptionsAt h) |}
    (Some l)
  = validIndexOptions h (Some l).
Proof.
  intros Hl. unfold validIndexOptions, derefIndexOptions. simpl.
  rewrite lookup_insert_eq, Hl. now destruct o.
Qed.

(** C5, at the failing input: index options with [SyncThld = 0],
    [CompactionThld = -1] and [DelayDuringCompaction = -1] are accepted by
    [validIndexOptions], and options that carry them by [validOptions]. *)
Theorem validIndexOptions_accepts_bad_thresholds :
  exists opts h o io,
    optionsWithBadThresholds emptyHeap = Some (opts, h)
    /\ derefOptions h opts = Some o
    /\ derefIndexOptions h (Options.IndexOpts o) = Some io
    /\ IndexOptions.SyncThld io = 0
    /\ IndexOptions.CompactionThld io = -1
    /\ IndexOptions.DelayDuringCompaction io = -1
    /\ validIndexOptions h (Options.IndexOpts o) = true
    /\ validOptions exampleDecls h opts = true.
Proof.
  do 4 eexists.
  split; [vm_compute; reflexivity |].
  split; [vm_compute; reflexivity |].
  split; [vm_compute; reflexivity |].
  repeat split; vm_compute; reflexivity.
Qed.

(** *** The setters *)

Create HintDb setters.

#[local] Hint Unfold
  Options_WithReadOnly Options_WithSynced Options_WithFileMode
  Options_WithLog Options_WithAppFactory Options_WithCompactionDisabled
  Options_WithMaxConcurrency Options_WithMaxIOConcurrency
  Options_WithMaxTxEntries Options_WithMaxKeyLen Options_WithMaxValueLen
  Options_WithMaxLinearProofLen Options_WithTxLogCacheSize
  Options_WithFileSize Options_WithVLogMaxOpenedFiles
  Options_WithTxLogMaxOpenedFiles Options_WithCommitLogMaxOpenedFiles
  Options_WithMaxWaitees Options_WithTimeFunc
  Options_WithWriteTxHeaderVersion Options_WithCompressionFormat
  Options_WithCompresionLevel Options_WithIndexOptions
  IndexOptions_WithCacheSize IndexOptions_WithFlushThld
  IndexOptions_WithSyncThld IndexOptions_WithFlushBufferSize
  IndexOptions_WithCleanupPercentage IndexOptions_WithMaxActiveSnapshots
  IndexOptions_WithMaxNodeSize IndexOptions_WithRenewSnapRootAfter
  IndexOptions_WithCompactionThld IndexOptions_WithDelayDuringCompaction
  IndexOptions_WithNodesLogMaxOpenedFiles
  IndexOptions_WithHistoryLogMaxOpenedFiles
  IndexOptions_WithCommitLogMaxOpenedFiles
  : setters.

(** A setter body, [opts.F = v; return opts], on a pointer that is not nil. *)
Lemma assignOptions_run (l : loc) (h : Heap) (o : Options.t)
    (f : Options.t -> Options.t) :
  optionsAt h !! l = Some o ->
  (let* _ := assignOptions (Some l) f in ret (Some l)) h
  = Some (Some l, {| optionsAt := <[l := f o]> (optionsAt h);
                     indexOptionsAt := indexOptionsAt h |}).
Proof. intros Hl. unfold bind, assignOptions, ret. now rewrite Hl. Qed.

Lemma assignIndexOptions_run (l : loc) (h : Heap) (o : IndexOptions.t)
    (f : IndexOptions.t -> IndexOptions.t) :
  indexOptionsAt h !! l = Some o ->
  (let* _ := assignIndexOptions (Some l) f in ret (Some l)) h
  = Some (Some l, {| optionsAt := optionsAt h;
                     indexOptionsAt := <[l := f o]> (indexOptionsAt h) |}).
Proof. intros Hl. unfold bind, assignIndexOptions, ret. now rewrite Hl. Qed.

(** A setter on the nil pointer panics. *)
Lemma OptionsSetter_run_nil (c : OptionsSetter) (h : Heap) :
  OptionsSetter_run c None h = None.
Proof. destruct c; reflexivity. Qed.

(** One setter of [*Options]: the pointer comes back, the object it points
    to has the named field set to the argument and every other field as
    before, and nothing else in the heap changes. *)
Lemma OptionsSetter_frame (c : OptionsSetter) (l : loc) (h : Heap)
    (o : Options.t) :
  optionsAt h !! l = Some o ->
  exists o',
    OptionsSetter_run c (Some l) h
    = Some (Some l, {| optionsAt := <[l := o']> (optionsAt h);
                       indexOptionsAt := indexOptionsAt h |})
    /\ Options.get (OptionsSetter_field c) o' = OptionsSetter_arg c
    /\ forall f, f <> OptionsSetter_field c ->
                 Options.get f o' = Options.get f o.
Proof.
  intros Hl.
  destruct c; (eexists; split;
    [ cbn [OptionsSetter_run]; autounfold with setters;
      apply (assignOptions_run _ _ _ _ Hl)
    | split;
      [ now destruct o
      | intros f Hf; destruct o, f; first [ reflexivity | now contradiction Hf ] ] ]).
Qed.

Lemma IndexOptionsSetter_frame (c : IndexOptionsSetter) (l : loc) (h : Heap)
    (o : IndexOptions.t) :
  indexOptionsAt h !! l = Some o ->
  exists o',
    IndexOptionsSetter_run c (Some l) h
    = Some (Some l, {| optionsAt := optionsAt h;
                       indexOptionsAt := <[l := o']> (indexOptionsAt h) |})
    /\ IndexOptions.get (IndexOptionsSetter_field c) o'
       = IndexOptionsSetter_arg c
    /\ forall f, f <> IndexOptionsSetter_field c ->
                 IndexOptions.get f o' = IndexOptions.get f o.
Proof.
  intros Hl.
  destruct c; (eexists; split;
    [ cbn [IndexOptionsSetter_run]; autounfold with setters;
      apply (assignIndexOptions_run _ _ _ _ Hl)
    | split;
      [ now destruct o
      | intros f Hf; destruct o, f; first [ reflexivity | now contradiction Hf ] ] ]).
Qed.

(** A chain of setters: fields that no setter of the chain is named after
    keep the values they had. *)
Lemma Options_chain_frame (cs : list OptionsSetter) (l : loc) (h : Heap)
    (o : Options.t) :
  optionsAt h !! l = Some o ->
  exists o',
    Options_chain cs (Some l) h
    = Some (Some l, {| optionsAt := <[l := o']> (optionsAt h);
                       indexOptionsAt := indexOptionsAt h |})
    /\ forall f, f ∉ OptionsSetter_field <$> cs ->
                 Options.get f o' = Options.get f o.
Proof.
  revert h o. induction cs as [|c cs IH]; intros h o Hl.
  - exists o. split; [| reflexivity]. simpl. unfold ret.
    rewrite (insert_id _ _ _ Hl). now destruct h.
  - destruct (OptionsSetter_frame c l h o Hl) as (o1 & Hrun & _ & Hframe).
    simpl. unfold bind at 1. rewrite Hrun.
    destruct (IH {| optionsAt := <[l := o1]> (optionsAt h);
                    indexOptionsAt := indexOptionsAt h |} o1
                 (lookup_insert_eq _ _ _)) as (o' & Hchain & Hkeep).
    exists o'. split.
    + rewrite Hchain. simpl. now rewrite insert_insert_eq.
    + intros f Hf. cbn [fmap list_fmap] in Hf.
      apply not_elem_of_cons in Hf as [Hne Hf].
      rewrite (Hkeep f Hf). now apply Hframe.
Qed.

Lemma IndexOptions_chain_frame (cs : list IndexOptionsSetter) (l : loc)
    (h : Heap) (o : IndexOptions.t) :
  indexOptionsAt h !! l = Some o ->
  exists o',
    IndexOptions_chain cs (Some l) h
    = Some (Some l, {| optionsAt := optionsAt h;
                       indexOptionsAt := <[l := o']> (indexOptionsAt h) |})
    /\ forall f, f ∉ IndexOptionsSetter_field <$> cs ->
                 IndexOptions.get f o' = IndexOptions.get f o.
Proof.
  revert h o. induction cs as [|c cs IH]; intros h o Hl.
  - exists o. split; [| reflexivity]. simpl. unfold ret.
    rewrite (insert_id _ _ _ Hl). now destruct h.
  - destruct (IndexOptionsSetter_frame c l h o Hl)
      as (o1 & Hrun & _ & Hframe).
    simpl. unfold bind at 1. rewrite Hrun.
    destruct (IH {| optionsAt := optionsAt h;
                    indexOptionsAt := <[l := o1]> (indexOptionsAt h) |} o1
                 (lookup_insert_eq _ _ _)) as (o' & Hchain & Hkeep).
    exists o'. split.
    + rewrite Hchain. simpl. now rewrite insert_insert_eq.
    + intros f Hf. cbn [fmap list_fmap] in Hf.
      apply not_elem_of_cons in Hf as [Hne Hf].
      rewrite (Hkeep f Hf). now apply Hframe.
Qed.

(** C7: every setter of [*Options] and of [*IndexOptions], called on a
    pointer to an object, returns that pointer with exactly the named field
    of the object set to the argument and every other field (and every other
    object) unchanged; and after any chain of setters the fields that no
    setter of the chain names have the values they had before the chain. *)
Theorem setters_set_one_field (l : loc) (h : Heap) :
  (forall (o : Options.t), optionsAt h !! l = Some o ->
     (forall c : OptionsSetter,
        exists o',
          OptionsSetter_run c (Some l) h
          = Some (Some l, {| optionsAt := <[l := o']> (optionsAt h);
                             indexOptionsAt := indexOptionsAt h |})
          /\ Options.get (OptionsSetter_field c) o' = OptionsSetter_arg c
          /\ forall f, f <> OptionsSetter_field c ->
                       Options.get f o' = Options.get f o)
     /\ (forall cs : list OptionsSetter,
        exists o',
          Options_chain cs (Some l) h
          = Some (Some l, {| optionsAt := <[l := o']> (optionsAt h);
                             indexOptionsAt := indexOptionsAt h |})
          /\ forall f, f ∉ OptionsSetter_field <$> cs ->
                       Options.get f o' = Options.get f o))
  /\ (forall (o : IndexOptions.t), indexOptionsAt h !! l = Some o ->
     (forall c : IndexOptionsSetter,
        exists o',
          IndexOptionsSetter_run c (Some l) h
          = Some (Some l, {| optionsAt := optionsAt h;
                             indexOptionsAt := <[l := o']> (indexOptionsAt h) |})
          /\ IndexOptions.get (IndexOptionsSetter_field c) o'
             = IndexOptionsSetter_arg c
          /\ forall f, f <> IndexOptionsSetter_field c ->
                       IndexOptions.get f o' = IndexOptions.get f o)
     /\ (forall cs : list IndexOptionsSetter,
        exists o',
          IndexOptions_chain cs (Some l) h
          = Some (Some l, {| optionsAt := optionsAt h;
                             indexOptionsAt := <[l := o']> (indexOptionsAt h) |})
          /\ forall f, f ∉ IndexOptionsSetter_field <$> cs ->
                       IndexOptions.get f o' = IndexOptions.get f o)).
Proof.
  split; intros o Hl; split.
  - intros c. now apply OptionsSetter_frame.
  - intros cs. now apply Options_chain_frame.
  - intros c. now apply IndexOptionsSetter_frame.
  - intros cs. now apply IndexOptions_chain_frame.
Qed.

End StoreFacts.

(** *** The store theorems at example inputs *)

Lemma validOptions_bounds_witness :
  Store.validOptions Store.exampleDecls Store.exampleHeap Store.exampleOptions
  = true
  /\ exists o,
       Store.derefOptions Store.exampleHeap Store.exampleOptions = Some o
       /\ 0 < Store.Options.MaxConcurrency o
       /\ 0 < Store.Options.MaxIOConcurrency o
          <= Store.MaxParallelIO Store.exampleDecls
       /\ 0 <= Store.Options.MaxLinearProofLen o
       /\ 0 < Store.Options.VLogMaxOpenedFiles o
       /\ 0 < Store.Options.TxLogMaxOpenedFiles o
       /\ 0 < Store.Options.CommitLogMaxOpenedFiles o
       /\ 0 < Store.Options.MaxTxEntries o
       /\ 0 < Store.Options.MaxKeyLen o <= Store.MaxKeyLen Store.exampleDecls
       /\ 0 < Store.Options.MaxValueLen o
       /\ 0 < Store.Options.FileSize o < 2 ^ 31 - 1.
Proof.
  assert (Hv : Store.validOptions Store.exampleDecls Store.exampleHeap
                 Store.exampleOptions = true) by (vm_compute; reflexivity).
  split; [exact Hv |].
  exact (validOptions_bounds Store.exampleDecls Store.exampleHeap
           Store.exampleOptions Hv).
Defined.

(** [DefaultOptions().WithSynced(false).WithMaxKeyLen(512)] keeps the default
    file size, and [DefaultIndexOptions().WithCacheSize(1)] the default node
    size. *)
Lemma setters_set_one_field_witness :
  exists o io,
    (Store.optionsAt Store.exampleHeap !! 1%positive = Some o
     /\ Store.indexOptionsAt Store.exampleHeap !! 1%positive = Some io)
    /\ (exists o',
          Store.Options_chain
            [Store.Options_call_WithSynced false;
             Store.Options_call_WithMaxKeyLen 512]
            (Some 1%positive) Store.exampleHeap
          = Some (Some 1%positive,
                  {| Store.optionsAt :=
                       <[1%positive := o']> (Store.optionsAt Store.exampleHeap);
                     Store.indexOptionsAt :=
                       Store.indexOptionsAt Store.exampleHeap |})
          /\ Store.Options.FileSize o' = Store.Options.FileSize o)
    /\ (exists io',
          Store.IndexOptionsSetter_run (Store.IndexOptions_call_WithCacheSize 1)
            (Some 1%positive) Store.exampleHeap
          = Some (Some 1%positive,
                  {| Store.optionsAt := Store.optionsAt Store.exampleHeap;
                     Store.indexOptionsAt :=
                       <[1%positive := io']>
                         (Store.indexOptionsAt Store.exampleHeap) |})
          /\ Store.IndexOptions.CacheSize io' = 1
          /\ Store.IndexOptions.MaxNodeSize io'
             = Store.IndexOptions.MaxNodeSize io).
Proof.
  do 2 eexists.
  assert (Ho : Store.optionsAt Store.exampleHeap !! 1%positive = Some _)
    by (vm_compute; reflexivity).
  assert (Hio : Store.indexOptionsAt Store.exampleHeap !! 1%positive = Some _)
    by (vm_compute; reflexivity).
  split; [split; [exact Ho | exact Hio] |].
  destruct (setters_set_one_field 1%positive Store.exampleHeap) as [HO HI].
  split.
  - destruct (proj2 (HO _ Ho)
                [Store.Options_call_WithSynced false;
                 Store.Options_call_WithMaxKeyLen 512])
      as (o' & Hrun & Hkeep).
    exists o'. split; [exact Hrun |].
    apply (Hkeep Store.Options.F_FileSize).
    intros Hin. repeat (apply elem_of_cons in Hin as [Hin | Hin];
                        [discriminate Hin |]).
    now apply elem_of_nil in Hin.
  - destruct (proj1 (HI _ Hio) (Store.IndexOptions_call_WithCacheSize 1))
      as (io' & Hrun & Hset & Hkeep).
    exists io'. split; [exact Hrun |]. split; [exact Hset |].
    apply (Hkeep Store.IndexOptions.F_MaxNodeSize). discriminate.
Defined.

(** ** immuadmin: the database settings built from the flags *)
Section ImmuadminFacts.
Import Immuadmin.

(** The "replica-password" flag is never read: setting it to anything leaves
    what each getter that the command calls returns as it was. *)
Lemma prepareDatabaseSettings_ignores_password (db : string)
    (flags : pflag.FlagSet) (v : pflag.Value) :
  prepareDatabaseSettings db (<["replica-password" := v]> flags)
  = prepareDatabaseSettings db flags.
Proof.
  unfold prepareDatabaseSettings, pflag.GetBool, pflag.GetString,
    pflag.GetUint32.
  now rewrite !lookup_insert_ne by discriminate.
Qed.

(** C8: for a replica, when every flag that the command reads is read
    without error, the settings come back with [ReplicaPassword] equal to the
    value of the "replica-username" flag, hence equal to [ReplicaUsername];
    and the value of the "replica-password" flag does not enter the result. *)
Theorem replica_password_is_replica_username (db : string)
    (flags : pflag.FlagSet) (masterDatabase masterAddress : string)
    (masterPort : N) (replicaUsername : string) :
  pflag.GetBool flags "replica" = inr true ->
  pflag.GetString flags "master-database" = inr masterDatabase ->
  pflag.GetString flags "master-address" = inr masterAddress ->
  pflag.GetUint32 flags "master-port" = inr masterPort ->
  pflag.GetString flags "replica-username" = inr replicaUsername ->
  (exists settings,
      prepareDatabaseSettings db flags = inr settings
      /\ ReplicaPassword settings = replicaUsername
      /\ ReplicaPassword settings = ReplicaUsername settings)
  /\ forall v : pflag.Value,
      prepareDatabaseSettings db (<["replica-password" := v]> flags)
      = prepareDatabaseSettings db flags.
Proof.
  intros Hr Hd Ha Hp Hu. split.
  - unfold prepareDatabaseSettings.
    rewrite Hr. cbn [try negb]. rewrite Hd, Ha, Hp, Hu. cbn [try].
    eexists. split; [reflexivity |]. split; reflexivity.
  - intros v. apply prepareDatabaseSettings_ignores_password.
Qed.

End ImmuadminFacts.

Lemma replica_password_is_replica_username_witness :
  (pflag.GetBool Immuadmin.exampleFlags "replica" = inr true
   /\ pflag.GetString Immuadmin.exampleFlags "master-database" = inr "defaultdb"
   /\ pflag.GetString Immuadmin.exampleFlags "master-address" = inr "127.0.0.1"
   /\ pflag.GetUint32 Immuadmin.exampleFlags "master-port" = inr 3322%N
   /\ pflag.GetString Immuadmin.exampleFlags "replica-username"
      = inr "follower")
  /\ (exists settings,
        Immuadmin.prepareDatabaseSettings "db1" Immuadmin.exampleFlags
        = inr settings
        /\ Immuadmin.ReplicaPassword settings = "follower"
        /\ Immuadmin.ReplicaPassword settings
           = Immuadmin.ReplicaUsername settings).
Proof.
  assert (Hr : pflag.GetBool Immuadmin.exampleFlags "replica" = inr true)
    by (vm_compute; reflexivity).
  assert (Hd : pflag.GetString Immuadmin.exampleFlags "master-database"
               = inr "defaultdb") by (vm_compute; reflexivity).
  assert (Ha : pflag.GetString Immuadmin.exampleFlags "master-address"
               = inr "127.0.0.1") by (vm_compute; reflexivity).
  assert (Hp : pflag.GetUint32 Immuadmin.exampleFlags "master-port"
               = inr 3322%N) by (vm_compute; reflexivity).
  assert (Hu : pflag.GetString Immuadmin.exampleFlags "replica-username"
               = inr "follower") by (vm_compute; reflexivity).
  split; [repeat split; assumption |].
  exact (proj1 (replica_password_is_replica_username "db1"
                  Immuadmin.exampleFlags _ _ _ _ Hr Hd Ha Hp Hu)).
Defined.

(** ** The hash chain *)
Section HashChainFacts.
Import HashChain.
Context {Hash Entry : Type}.
Variable H : Hash -> Hash -> Hash.
Variable digest : list Entry -> Hash.
Variable genesis : Hash.

Local Abbreviation Tx := (@HashChain.Tx Hash Entry).
Local Abbreviation recompute := (HashChain.recompute H digest genesis).
Local Abbreviation commit := (HashChain.commit H digest genesis).
Local Abbreviation commitAll := (HashChain.commitAll H digest genesis).
Local Abbreviation headHash := (HashChain.headHash genesis).
Local Abbreviation chained := (HashChain.chained H digest genesis).

Lemma recompute_S (log : list Tx) (n : nat) (tx : Tx) :
  log !! n = Some tx ->
  recompute log (S n) = H (recompute log n) (digest (entries tx)).
Proof.
  intros Hn. unfold HashChain.recompute.
  rewrite (take_S_r _ _ _ Hn), fold_left_app. reflexivity.
Qed.

Lemma recompute_app (log new : list Tx) (n : nat) :
  (n <= List.length log)%nat ->
  recompute (log ++ new)%list n = recompute log n.
Proof.
  intros Hn. unfold HashChain.recompute. now rewrite take_app_le.
Qed.

Lemma headHash_chained (log : list Tx) :
  chained log -> headHash log = recompute log (List.length log).
Proof.
  intros Hc. unfold HashChain.headHash.
  destruct log as [|tx0 log0 _] using rev_ind; [reflexivity |].
  rewrite fmap_app. cbn [fmap list_fmap]. rewrite last_snoc, length_app.
  cbn [List.length].
  replace (List.length log0 + 1)%nat with (S (List.length log0)) by lia.
  apply (Hc (List.length log0)).
  now rewrite lookup_app_r, Nat.sub_diag by lia.
Qed.

Lemma chained_nil : chained [].
Proof. intros k tx Hk. now rewrite lookup_nil in Hk. Qed.

(** [commit] appends one header, keeps the log chained, and returns the id
    and the chained hash that recomputation gives for the new log. *)
Lemma commit_chained (es : list Entry) (log : list Tx) :
  chained log ->
  exists tx,
    commit es log
    = ((S (List.length log), H (recompute log (List.length log)) (digest es)),
       (log ++ [tx])%list)
    /\ entries tx = es
    /\ chained (log ++ [tx])%list.
Proof.
  intros Hc. unfold HashChain.commit. rewrite (headHash_chained log Hc).
  eexists. split; [reflexivity |]. split; [reflexivity |].
  intros k tx Hk.
  destruct (decide (k < List.length log)%nat) as [Hlt | Hge].
  - rewrite lookup_app_l in Hk by exact Hlt.
    rewrite !recompute_app by lia. now apply Hc.
  - assert (k = List.length log) as ->.
    { apply lookup_lt_Some in Hk. rewrite length_app in Hk. simpl in Hk. lia. }
    pose proof Hk as Hk'.
    rewrite lookup_app_r, Nat.sub_diag in Hk by lia.
    injection Hk as Etx. rewrite (recompute_S _ _ _ Hk'), <- Etx.
    cbn [id priorChainedHash chainedHash entries].
    rewrite recompute_app by lia. auto.
Qed.

(** A run of commits from a chained log: the log stays chained and grows by
    one header per batch, and the [n]-th commit returned the id and the
    chained hash that recomputation over the final log gives. *)
Lemma commitAll_chained (batches : list (list Entry)) (log : list Tx) :
  chained log ->
  exists new,
    snd (commitAll batches log) = (log ++ new)%list
    /\ chained (log ++ new)%list
    /\ forall n es, batches !! n = Some es ->
         fst (commitAll batches log) !! n
         = Some (S (List.length log + n),
                 recompute (log ++ new)%list (S (List.length log + n)))
         /\ exists tx, (log ++ new)%list !! (List.length log + n)%nat = Some tx
                       /\ entries tx = es.
Proof.
  revert log. induction batches as [|es0 batches IH]; intros log Hc.
  - exists []. rewrite app_nil_r. split; [reflexivity |]. split; [exact Hc |].
    intros n es Hn. now rewrite lookup_nil in Hn.
  - destruct (commit_chained es0 log Hc) as (tx0 & Hcommit & Hes0 & Hc1).
    destruct (IH _ Hc1) as (new & Hlog & Hc2 & Hrets).
    cbn [HashChain.commitAll]. rewrite Hcommit.
    destruct (commitAll batches (log ++ [tx0])%list) as [rs log2] eqn:Hall.
    cbn [fst snd] in *. subst log2.
    exists (tx0 :: new). rewrite <- app_assoc in *. cbn [app] in *.
    split; [reflexivity |]. split; [exact Hc2 |].
    intros [|n] es Hn.
    + injection Hn as ->. rewrite Nat.add_0_r. cbn [lookup list_lookup].
      assert (Htx : (log ++ tx0 :: new)%list !! List.length log = Some tx0)
        by (now rewrite lookup_app_r, Nat.sub_diag by lia).
      split.
      * f_equal. f_equal. rewrite (recompute_S _ _ _ Htx), Hes0.
        now rewrite recompute_app by lia.
      * now exists tx0.
    + cbn [lookup list_lookup] in Hn |- *.
      destruct (Hrets n es Hn) as (Hr & tx & Htx & Hes).
      rewrite length_app in Hr, Htx. cbn [List.length] in Hr, Htx.
      replace (List.length log + S n)%nat
        with (List.length log + 1 + n)%nat by lia.
      split; [exact Hr | now exists tx].
Qed.

(** C1: in the log that any sequence of commits builds from the empty log,
    transaction [n + 1] was acknowledged with the id [n + 1] and with the
    chained hash that recomputation from scratch over the full log gives;
    that hash is [H] of the recomputed hash of the transaction before and the
    digest of its entries; and the stored header holds the same values,
    chained to the header before it. *)
Theorem chained_hash_recomputed (batches : list (list Entry)) (n : nat)
    (es : list Entry) :
  batches !! n = Some es ->
  let rets := fst (commitAll batches []) in
  let log := snd (commitAll batches []) in
  rets !! n = Some (S n, recompute log (S n))
  /\ recompute log (S n) = H (recompute log n) (digest es)
  /\ exists tx,
       log !! n = Some tx
       /\ id tx = S n
       /\ entries tx = es
       /\ chainedHash tx = recompute log (S n)
       /\ chainedHash tx = H (priorChainedHash tx) (digest (entries tx))
       /\ (n = 0%nat -> priorChainedHash tx = genesis)
       /\ (forall m tx', n = S m -> log !! m = Some tx' ->
             priorChainedHash tx = chainedHash tx').
Proof.
  intros Hn. cbv zeta.
  destruct (commitAll_chained batches [] chained_nil) as (new & Hlog & Hc & Hrets).
  rewrite Hlog. cbn [app List.length] in *.
  destruct (Hrets n es Hn) as (Hr & tx & Htx & Hes).
  cbn [Nat.add] in Hr, Htx.
  destruct (Hc n tx Htx) as (Hid & Hprior & Hcur).
  pose proof (recompute_S new n tx Htx) as HS. rewrite Hes in HS.
  split; [exact Hr |]. split; [exact HS |].
  exists tx. repeat split; try assumption.
  - now rewrite Hcur, HS, Hprior, Hes.
  - intros ->. now rewrite Hprior.
  - intros m tx' -> Hm. rewrite Hprior.
    symmetry. now apply (Hc m tx' Hm).
Qed.

End HashChainFacts.

Lemma chained_hash_recomputed_witness :
  HashChain.exampleBatches !! 1%nat = Some [3%nat]
  /\ fst (HashChain.commitAll HashChain.exampleH HashChain.exampleDigest 0%nat
            HashChain.exampleBatches []) !! 1%nat
     = Some (2%nat,
             HashChain.recompute HashChain.exampleH HashChain.exampleDigest
               0%nat
               (snd (HashChain.commitAll HashChain.exampleH
                       HashChain.exampleDigest 0%nat
                       HashChain.exampleBatches []))
               2%nat).
Proof.
  assert (Hn : HashChain.exampleBatches !! 1%nat = Some [3%nat])
    by reflexivity.
  split; [exact Hn |].
  exact (proj1 (chained_hash_recomputed HashChain.exampleH
                  HashChain.exampleDigest 0%nat HashChain.exampleBatches
                  1%nat [3%nat] Hn)).
Defined.

(* ===================================================================== *)
(** * Further properties of the same code                                 *)
(* ===================================================================== *)

(** ** Trimming: fixed points and bytes at the ends *)

Lemma TrimRight_snoc_cut (s cutset : string) (c : ascii) :
  strings.inCutset c cutset = true ->
  strings.TrimRight (s ++ String c "") cutset = strings.TrimRight s cutset.
Proof.
  intros Hc. induction s as [|a s IH].
  - rewrite append_nil_l. simpl. now rewrite Hc.
  - rewrite append_cons. simpl. now rewrite IH.
Qed.

Lemma TrimLeft_cons_cut (s cutset : string) (c : ascii) :
  strings.inCutset c cutset = true ->
  strings.TrimLeft (String c s) cutset = strings.TrimLeft s cutset.
Proof. intros Hc. simpl. now rewrite Hc. Qed.

(** A string that does not end with a byte of the cutset is left alone. *)
Lemma TrimRight_fixed (x cutset : string) :
  (forall r a, x = r ++ String a "" -> strings.inCutset a cutset = false) ->
  strings.TrimRight x cutset = x.
Proof.
  induction x as [|c x IH]; intros Hlast; [reflexivity |].
  simpl. rewrite IH.
  - destruct x as [|d x]; [| reflexivity].
    now rewrite (Hlast "" c eq_refl).
  - intros r a ->. apply (Hlast (String c r) a). now rewrite append_cons.
Qed.

Lemma TrimLeft_fixed (x cutset : string) :
  (forall a r, x = String a r -> strings.inCutset a cutset = false) ->
  strings.TrimLeft x cutset = x.
Proof.
  destruct x as [|c x]; intros Hhead; [reflexivity |].
  simpl. now rewrite (Hhead c x eq_refl).
Qed.

Lemma TrimRight_idempotent (s cutset : string) :
  strings.TrimRight (strings.TrimRight s cutset) cutset
  = strings.TrimRight s cutset.
Proof. apply TrimRight_fixed. intros r a. apply TrimRight_last. Qed.

Lemma Trim_idempotent (s cutset : string) :
  strings.Trim (strings.Trim s cutset) cutset = strings.Trim s cutset.
Proof.
  unfold strings.Trim at 1.
  rewrite (TrimRight_fixed (strings.Trim s cutset)).
  - apply TrimLeft_fixed. intros a r. apply Trim_head.
  - intros r a. apply Trim_last.
Qed.

Lemma Trim_cons_cut (s cutset : string) (c : ascii) :
  strings.inCutset c cutset = true ->
  strings.Trim (String c s) cutset = strings.Trim s cutset.
Proof.
  intros Hc. unfold strings.Trim. simpl.
  destruct (strings.TrimRight s cutset) as [|d t].
  - now rewrite Hc.
  - now rewrite TrimLeft_cons_cut.
Qed.

Lemma Trim_snoc_cut (s cutset : string) (c : ascii) :
  strings.inCutset c cutset = true ->
  strings.Trim (s ++ String c "") cutset = strings.Trim s cutset.
Proof. intros Hc. unfold strings.Trim. now rewrite TrimRight_snoc_cut. Qed.

(** A string made of cutset bytes only is trimmed to nothing. *)
Lemma Trim_all_cut (s cutset : string) :
  (forall i c, String.get i s = Some c -> strings.inCutset c cutset = true) ->
  strings.Trim s cutset = "".
Proof.
  induction s as [|a s IH]; intros Hall; [reflexivity |].
  rewrite Trim_cons_cut by exact (Hall 0%nat a eq_refl).
  apply IH. intros i c Hi. exact (Hall (S i) c Hi).
Qed.

(** When [f] gives something at every element, mapping [f] gives what
    [omap f] keeps, each under [Some]. *)
Lemma all_there_omap {A B : Type} (f : A -> option B) (l : list A) :
  Forall (fun x => is_Some (f x)) l -> map f l = map Some (omap f l).
Proof.
  induction 1 as [|x l [y Hy] _ IH]; [reflexivity |].
  cbn [map omap list_omap]. rewrite Hy. cbn [map]. now rewrite IH.
Qed.

(** ** The Azure backend: what the calls do when the arguments pass *)
Section AzureMore.
Context {sdk : Azure.SDK}.
Implicit Types (s : Azure.Storage sdk) (st : Azure.state sdk).

Lemma inCutset_slash (c : ascii) :
  strings.inCutset c "/" = true <-> c = "/"%char.
Proof.
  simpl. rewrite orb_false_r. apply Ascii.eqb_eq.
Qed.

Lemma name_guard_false (name : string) :
  ~ StringSpec.startsWith name "/" -> ~ StringSpec.endsWith name "/" ->
  strings.HasPrefix name "/" || strings.HasSuffix name "/" = false.
Proof.
  intros Hp Hs.
  destruct (strings.HasPrefix name "/" || strings.HasSuffix name "/") eqn:G;
    [| reflexivity].
  apply name_guard in G. tauto.
Qed.

(** X1: [Open] succeeds exactly when '/' does not occur in the trimmed
    container and the SDK makes a client for the normalized endpoint; the
    endpoint and the prefix are never a reason to refuse. *)
Theorem Open_succeeds_iff (endpoint container prefix : string)
    (cred : Azure.TokenCredential sdk) :
  (exists s, Azure.Open sdk endpoint container prefix cred = Azure.Ok s)
  <-> (~ StringSpec.occursIn "/" (strings.Trim container "/")
       /\ Azure.NewContainerClient sdk
            (strings.TrimRight endpoint "/" ++ "/") cred = None).
Proof.
  unfold Azure.Open. split.
  - intros [s Hok].
    destruct (strings.Contains (strings.Trim container "/") "/") eqn:Hc;
      [discriminate |].
    destruct (Azure.NewContainerClient sdk _ cred) eqn:Hn; [discriminate |].
    split; [| reflexivity].
    intros Hocc. apply Contains_spec in Hocc. congruence.
  - intros [Hocc Hn].
    destruct (strings.Contains (strings.Trim container "/") "/") eqn:Hc.
    + apply Contains_spec in Hc. contradiction.
    + rewrite Hn. eexists. reflexivity.
Qed.

(** X2: [Open] is idempotent on what it stores: opening again with the
    endpoint, container and prefix of an opened storage gives that storage. *)
Theorem Open_idempotent (endpoint container prefix : string)
    (cred : Azure.TokenCredential sdk) s :
  Azure.Open sdk endpoint container prefix cred = Azure.Ok s ->
  Azure.Open sdk (Azure.endpoint s) (Azure.container s) (Azure.prefix s) cred
  = Azure.Ok s.
Proof.
  unfold Azure.Open.
  destruct (strings.Contains (strings.Trim container "/") "/") eqn:Hc;
    [discriminate |].
  destruct (Azure.NewContainerClient sdk _ cred) eqn:Hn; [discriminate |].
  intros [= <-]. cbn [Azure.endpoint Azure.container Azure.prefix].
  rewrite TrimRight_snoc_cut by reflexivity.
  rewrite TrimRight_idempotent, Trim_idempotent, Hc, Hn.
  destruct (String.eqb_spec (strings.Trim prefix "/") "") as [E | Hne].
  - rewrite E. reflexivity.
  - rewrite Trim_snoc_cut by reflexivity. rewrite Trim_idempotent.
    destruct (String.eqb_spec (strings.Trim prefix "/") "");
      [contradiction | reflexivity].
Qed.

(** X3: slashes at the ends do not matter to [Open]: one more '/' after the
    endpoint, or before or after the container or the prefix, gives the same
    result. *)
Theorem Open_ignores_outer_slashes (endpoint container prefix : string)
    (cred : Azure.TokenCredential sdk) :
  Azure.Open sdk (endpoint ++ "/") container prefix cred
  = Azure.Open sdk endpoint container prefix cred
  /\ Azure.Open sdk endpoint ("/" ++ container) prefix cred
     = Azure.Open sdk endpoint container prefix cred
  /\ Azure.Open sdk endpoint (container ++ "/") prefix cred
     = Azure.Open sdk endpoint container prefix cred
  /\ Azure.Open sdk endpoint container ("/" ++ prefix) cred
     = Azure.Open sdk endpoint container prefix cred
  /\ Azure.Open sdk endpoint container (prefix ++ "/") cred
     = Azure.Open sdk endpoint container prefix cred.
Proof.
  unfold Azure.Open.
  rewrite !append_cons, !append_nil_l.
  rewrite !TrimRight_snoc_cut, !Trim_snoc_cut, !Trim_cons_cut by reflexivity.
  repeat split; reflexivity.
Qed.

(** X4: a container name made of '/' only (the empty name among them) is
    not refused: the storage is opened with the empty container. *)
Theorem Open_accepts_empty_container (endpoint container prefix : string)
    (cred : Azure.TokenCredential sdk) :
  (forall i c, String.get i container = Some c -> c = "/"%char) ->
  Azure.NewContainerClient sdk (strings.TrimRight endpoint "/" ++ "/") cred
  = None ->
  exists s,
    Azure.Open sdk endpoint container prefix cred = Azure.Ok s
    /\ Azure.container s = "".
Proof.
  intros Hall Hn. unfold Azure.Open.
  rewrite (Trim_all_cut container "/")
    by (intros i c Hi; apply inCutset_slash; eauto).
  cbn [strings.Contains strings.HasPrefix String.length Nat.leb andb orb].
  rewrite Hn. eexists. split; reflexivity.
Qed.

(** X5: with a valid offset, a positive size that the runtime accepts and
    for which the operating system gives the memory, and a well-formed name,
    [Get] issues exactly one download request, for that name, offset and
    size, and hands back the bytes or the error of the SDK as they are. *)
Theorem Get_downloads_once s (name : string) (offs size : Z) st :
  0 <= offs -> 0 < size <= Azure.maxAlloc ->
  Azure.canAllocate sdk size (Azure.world st) = true ->
  ~ StringSpec.startsWith name "/" -> ~ StringSpec.endsWith name "/" ->
  Azure.Get s name offs size st
  = (match fst (Azure.DownloadBlobToBuffer sdk name offs size (Azure.world st))
     with
     | inl err => Azure.Err err
     | inr _bytes => Azure.Ok _bytes
     end,
     {| Azure.world :=
          snd (Azure.DownloadBlobToBuffer sdk name offs size (Azure.world st));
        Azure.trace :=
          (Azure.trace st
           ++ [Azure.EvDownloadBlobToBuffer name offs size])%list |}).
Proof.
  intros Ho [Hs1 Hs2] Hmem Hp Hq. unfold Azure.Get.
  replace (offs <? 0) with false by (symmetry; apply Z.ltb_ge; lia).
  replace (size =? 0) with false by (symmetry; apply Z.eqb_neq; lia).
  rewrite (name_guard_false name Hp Hq). cbn [orb].
  unfold Azure.bind, Azure.makeBytes, Azure.request.
  replace (size <? 0) with false by (symmetry; apply Z.ltb_ge; lia).
  replace (Azure.maxAlloc <? size) with false
    by (symmetry; apply Z.ltb_ge; lia).
  cbn [orb]. rewrite Hmem. cbn [Azure.ret].
  destruct (Azure.DownloadBlobToBuffer sdk name offs size (Azure.world st))
    as [[err | b] w]; reflexivity.
Qed.

(** X6: [Put] with a well-formed name.  When the file cannot be opened
    nothing is uploaded and the error of [os.Open] comes back; once the file
    is open it is closed exactly once, as the last step, whether the upload
    fails or not; and [Put] succeeds only when both steps did. *)
Theorem Put_outcomes s (name fileName : string) st :
  ~ StringSpec.startsWith name "/" -> ~ StringSpec.endsWith name "/" ->
  let opened := Azure.osOpen sdk fileName (Azure.world st) in
  let uploaded := Azure.UploadFileToBlockBlob sdk name fileName (snd opened) in
  Azure.Put s name fileName st
  = match fst opened with
    | Some err =>
        (Azure.Err err,
         {| Azure.world := snd opened;
            Azure.trace :=
              (Azure.trace st ++ [Azure.EvOpenFile fileName])%list |})
    | None =>
        match fst uploaded with
        | Some err =>
            (Azure.Err err,
             {| Azure.world := snd uploaded;
                Azure.trace :=
                  (Azure.trace st
                   ++ [Azure.EvOpenFile fileName;
                       Azure.EvUploadFileToBlockBlob name fileName;
                       Azure.EvCloseFile fileName])%list |})
        | None =>
            (Azure.Ok tt,
             {| Azure.world := snd uploaded;
                Azure.trace :=
                  (Azure.trace st
                   ++ [Azure.EvOpenFile fileName;
                       Azure.EvUploadFileToBlockBlob name fileName;
                       Azure.EvCloseBody name;
                       Azure.EvCloseFile fileName])%list |})
        end
    end.
Proof.
  intros Hp Hq. cbv zeta. unfold Azure.Put.
  rewrite (name_guard_false name Hp Hq).
  unfold Azure.bind, Azure.request, Azure.fail, Azure.ret.
  destruct (Azure.osOpen sdk fileName (Azure.world st)) as [[err |] w1];
    cbn [fst snd Azure.world Azure.trace]; [reflexivity |].
  destruct (Azure.UploadFileToBlockBlob sdk name fileName w1) as [[err |] w2];
    cbn [fst snd Azure.world Azure.trace];
    rewrite <- ?app_assoc; reflexivity.
Qed.

(** X7: [Exists] with a well-formed name issues one properties request.
    It answers true exactly when the request succeeds, false (without an
    error) exactly when the request fails with the storage error code
    [BlobNotFound], and in every other case returns the error of the SDK. *)
Theorem Exists_answers s (name : string) st :
  ~ StringSpec.startsWith name "/" -> ~ StringSpec.endsWith name "/" ->
  let answer := fst (Azure.GetProperties sdk name (Azure.world st)) in
  snd (Azure.Exists s name st)
  = {| Azure.world := snd (Azure.GetProperties sdk name (Azure.world st));
       Azure.trace := (Azure.trace st ++ [Azure.EvGetProperties name])%list |}
  /\ (fst (Azure.Exists s name st) = Azure.Ok true <-> answer = None)
  /\ (fst (Azure.Exists s name st) = Azure.Ok false
      <-> answer
          = Some (Azure.StorageError Azure.StorageErrorCodeBlobNotFound))
  /\ (forall err,
        fst (Azure.Exists s name st) = Azure.Err err
        <-> answer = Some err
            /\ err <> Azure.StorageError Azure.StorageErrorCodeBlobNotFound).
Proof.
  intros Hp Hq. cbv zeta. unfold Azure.Exists.
  rewrite (name_guard_false name Hp Hq).
  unfold Azure.bind, Azure.request, Azure.fail, Azure.ret.
  destruct (Azure.GetProperties sdk name (Azure.world st)) as [[e |] w];
    cbn [fst snd].
  - destruct e as [| | | code | msg]; cbn [fst snd];
      try (split; [reflexivity |];
           split; [split; discriminate |];
           split; [split; discriminate |];
           intros err; split;
           [ intros [= <-]; split; [reflexivity | discriminate]
           | intros [[= <-] _]; reflexivity ]).
    destruct (String.eqb_spec code Azure.StorageErrorCodeBlobNotFound)
      as [-> | Hne]; cbn [fst snd].
    + split; [reflexivity |].
      split; [split; discriminate |].
      split; [split; reflexivity |].
      intros err; split; [discriminate |].
      intros [[= <-] Hn]. now contradiction Hn.
    + split; [reflexivity |].
      split; [split; discriminate |].
      split; [split; [discriminate | intros [= E]; contradiction] |].
      intros err; split.
      * intros [= <-]. split; [reflexivity |]. intros [= E]. contradiction.
      * intros [[= <-] _]. reflexivity.
  - split; [reflexivity |].
    split; [split; reflexivity |].
    split; [split; discriminate |].
    intros err; split; [discriminate | intros [[=] _]].
Qed.

(** X8: when [ListEntries] succeeds it returns everything the pages held
    and nothing else: every item of every page, in page order, gave the
    entry at its place, with its name and its size, and every prefix of
    every page, in page order, the sub-path at its place; the one request it
    issued asked for the storage prefix followed by the path. *)
Theorem ListEntries_returns_all_pages s (path : string) st
    (entries : list Azure.EntryInfo) (subPaths : list string)
    (st' : Azure.state sdk) :
  Azure.ListEntries s path st = (Azure.Ok (entries, subPaths), st') ->
  let listing :=
    Azure.ListBlobsHierarchy sdk "/" (Azure.prefix s ++ path) (Azure.world st)
  in
  map Azure.entryOf (concat (map Azure.BlobItems (fst listing)))
  = map Some entries
  /\ map Azure.BlobPrefix.Name (concat (map Azure.BlobPrefixes (fst listing)))
     = map Some subPaths
  /\ st' = {| Azure.world := snd listing;
              Azure.trace :=
                (Azure.trace st
                 ++ [Azure.EvListBlobsHierarchy "/"
                       (Azure.prefix s ++ path)])%list |}.
Proof.
  intros Hok. cbv zeta.
  destruct (negb (String.eqb path "")
            && (negb (strings.HasSuffix path "/")
                || strings.Contains path "//")) eqn:G.
  - unfold Azure.ListEntries in Hok. rewrite G in Hok. discriminate.
  - apply path_guard in G. pose proof (ListEntries_accepted s path st G) as L.
    destruct (Azure.ListBlobsHierarchy _ _ _ _) as [pages w].
    cbv zeta in L. rewrite L in Hok. cbn [fst snd].
    destruct (decide (Azure.complete pages)) as [[Hp Hi] |]; [| discriminate].
    destruct (_ && _); [| discriminate].
    injection Hok as <- <- <-.
    split; [| split; [| reflexivity]].
    + apply all_there_omap. exact Hi.
    + apply all_there_omap. exact Hp.
Qed.

End AzureMore.

(** *** At example inputs *)

Ltac no_prefix :=
  let H := fresh in
  intros H; apply HasPrefix_spec in H; vm_compute in H; discriminate H.
Ltac no_suffix :=
  let H := fresh in
  intros H; apply HasSuffix_spec in H; vm_compute in H; discriminate H.

Lemma Open_idempotent_witness :
  Azure.Open Azure.pagesSDK "https://account.blob.core.windows.net/immudb"
    "/decrypted/" "//db0/val//" tt
  = Azure.Ok
      (Azure.Build_Storage Azure.pagesSDK
         "https://account.blob.core.windows.net/immudb/" "decrypted"
         "db0/val/" tt
         (Azure.Build_ContainerClient Azure.pagesSDK
            "https://account.blob.core.windows.net/immudb/" tt))
  /\ Azure.Open Azure.pagesSDK
       "https://account.blob.core.windows.net/immudb/" "decrypted"
       "db0/val/" tt
     = Azure.Ok
         (Azure.Build_Storage Azure.pagesSDK
            "https://account.blob.core.windows.net/immudb/" "decrypted"
            "db0/val/" tt
            (Azure.Build_ContainerClient Azure.pagesSDK
               "https://account.blob.core.windows.net/immudb/" tt)).
Proof.
  split; [reflexivity |].
  exact (Open_idempotent (sdk := Azure.pagesSDK)
           "https://account.blob.core.windows.net/immudb"
           "/decrypted/" "//db0/val//" tt _ eq_refl).
Defined.

Lemma Open_accepts_empty_container_witness :
  (forall i c, String.get i "//" = Some c -> c = "/"%char)
  /\ exists s,
       Azure.Open Azure.pagesSDK "https://account.blob.core.windows.net"
         "//" "" tt = Azure.Ok s
       /\ Azure.container s = "".
Proof.
  assert (Hall : forall i c, String.get i "//" = Some c -> c = "/"%char).
  { intros [|[|i]] c; simpl; intros [= <-]; reflexivity. }
  split; [exact Hall |].
  exact (Open_accepts_empty_container (sdk := Azure.pagesSDK)
           "https://account.blob.core.windows.net" "//" "" tt Hall eq_refl).
Defined.

Lemma Get_downloads_once_witness :
  Azure.Get Azure.oneBlobStorage "tx/00000000.tx" 0 2
    (Azure.Build_state Azure.oneBlobSDK "tx/00000000.tx" [])
  = (Azure.Ok [zero; zero],
     Azure.Build_state Azure.oneBlobSDK "tx/00000000.tx"
       [Azure.EvDownloadBlobToBuffer "tx/00000000.tx" 0 2]).
Proof.
  refine (Get_downloads_once Azure.oneBlobStorage "tx/00000000.tx" 0 2
            (Azure.Build_state Azure.oneBlobSDK "tx/00000000.tx" [])
            _ _ _ _ _).
  - lia.
  - unfold Azure.maxAlloc. lia.
  - reflexivity.
  - no_prefix.
  - no_suffix.
Defined.

Lemma Put_outcomes_witness :
  Azure.Put Azure.oneBlobStorage "test1" "/tmp/upload"
    (Azure.Build_state Azure.oneBlobSDK "" [])
  = (Azure.Ok tt,
     Azure.Build_state Azure.oneBlobSDK "test1"
       [Azure.EvOpenFile "/tmp/upload";
        Azure.EvUploadFileToBlockBlob "test1" "/tmp/upload";
        Azure.EvCloseBody "test1";
        Azure.EvCloseFile "/tmp/upload"])
  /\ Azure.Put Azure.oneBlobStorage "test1" ""
       (Azure.Build_state Azure.oneBlobSDK "" [])
     = (Azure.Err (Azure.OtherError "no such file"),
        Azure.Build_state Azure.oneBlobSDK "" [Azure.EvOpenFile ""]).
Proof.
  split.
  - refine (Put_outcomes Azure.oneBlobStorage "test1" "/tmp/upload"
              (Azure.Build_state Azure.oneBlobSDK "" []) _ _);
      [no_prefix | no_suffix].
  - refine (Put_outcomes Azure.oneBlobStorage "test1" ""
              (Azure.Build_state Azure.oneBlobSDK "" []) _ _);
      [no_prefix | no_suffix].
Defined.

Lemma Exists_answers_witness :
  fst (Azure.Exists Azure.oneBlobStorage "test1"
         (Azure.Build_state Azure.oneBlobSDK "test1" []))
  = Azure.Ok true
  /\ fst (Azure.Exists Azure.oneBlobStorage "test2"
            (Azure.Build_state Azure.oneBlobSDK "test1" []))
     = Azure.Ok false.
Proof.
  split.
  - apply (proj1 (proj2 (Exists_answers Azure.oneBlobStorage "test1"
                           (Azure.Build_state Azure.oneBlobSDK "test1" [])
                           ltac:(no_prefix) ltac:(no_suffix)))).
    reflexivity.
  - apply (proj1 (proj2 (proj2
             (Exists_answers Azure.oneBlobStorage "test2"
                (Azure.Build_state Azure.oneBlobSDK "test1" [])
                ltac:(no_prefix) ltac:(no_suffix))))).
    reflexivity.
Defined.

Lemma ListEntries_returns_all_pages_witness :
  map Azure.entryOf (concat (map Azure.BlobItems Azure.sortedPages))
  = map Some
      [ {| Azure.Name := "00000000.val"; Azure.Size := 512 |};
        {| Azure.Name := "00000001.val"; Azure.Size := 64 |} ]
  /\ map Azure.BlobPrefix.Name
       (concat (map Azure.BlobPrefixes Azure.sortedPages))
     = map Some ["commit/"; "tx/"; "val/"].
Proof.
  destruct (ListEntries_returns_all_pages Azure.exampleStorage ""
              (Azure.startState Azure.sortedPages)
              [ {| Azure.Name := "00000000.val"; Azure.Size := 512 |};
                {| Azure.Name := "00000001.val"; Azure.Size := 64 |} ]
              ["commit/"; "tx/"; "val/"]
              (Azure.Build_state Azure.pagesSDK Azure.sortedPages
                 [Azure.EvListBlobsHierarchy "/" ""])
              eq_refl) as (He & Hp & _).
  split; [exact He | exact Hp].
Defined.

(** ** The store options: validation and setters together *)
Section StoreMore.
Import Store.

Lemma Options_get_ext (o1 o2 : Options.t) :
  (forall f, Options.get f o1 = Options.get f o2) -> o1 = o2.
Proof.
  intros Hall. destruct o1, o2.
  f_equal;
    [ exact (Hall Options.F_ReadOnly) | exact (Hall Options.F_Synced)
    | exact (Hall Options.F_FileMode) | exact (Hall Options.F_log)
    | exact (Hall Options.F_appFactory)
    | exact (Hall Options.F_CompactionDisabled)
    | exact (Hall Options.F_MaxConcurrency)
    | exact (Hall Options.F_MaxIOConcurrency)
    | exact (Hall Options.F_MaxLinearProofLen)
    | exact (Hall Options.F_TxLogCacheSize)
    | exact (Hall Options.F_VLogMaxOpenedFiles)
    | exact (Hall Options.F_TxLogMaxOpenedFiles)
    | exact (Hall Options.F_CommitLogMaxOpenedFiles)
    | exact (Hall Options.F_WriteTxHeaderVersion)
    | exact (Hall Options.F_MaxWaitees) | exact (Hall Options.F_TimeFunc)
    | exact (Hall Options.F_MaxTxEntries) | exact (Hall Options.F_MaxKeyLen)
    | exact (Hall Options.F_MaxValueLen) | exact (Hall Options.F_FileSize)
    | exact (Hall Options.F_CompressionFormat)
    | exact (Hall Options.F_CompressionLevel)
    | exact (Hall Options.F_IndexOpts) ].
Qed.

Lemma Options_field_eq_dec (f g : Options.field) : {f = g} + {f <> g}.
Proof. decide equality. Defined.

(** Two setter calls in a row, on a pointer to an object. *)
Lemma OptionsSetter_run_twice (c1 c2 : OptionsSetter) (l : loc) (h : Heap)
    (o : Options.t) :
  optionsAt h !! l = Some o ->
  exists o1 o2,
    (let* opts := OptionsSetter_run c1 (Some l) in
     OptionsSetter_run c2 opts) h
    = Some (Some l, {| optionsAt := <[l := o2]> (optionsAt h);
                       indexOptionsAt := indexOptionsAt h |})
    /\ Options.get (OptionsSetter_field c1) o1 = OptionsSetter_arg c1
    /\ (forall f, f <> OptionsSetter_field c1 ->
                  Options.get f o1 = Options.get f o)
    /\ Options.get (OptionsSetter_field c2) o2 = OptionsSetter_arg c2
    /\ (forall f, f <> OptionsSetter_field c2 ->
                  Options.get f o2 = Options.get f o1).
Proof.
  intros Hl.
  destruct (OptionsSetter_frame c1 l h o Hl) as (o1 & Hrun1 & Hset1 & Hkeep1).
  destruct (OptionsSetter_frame c2 l
              {| optionsAt := <[l := o1]> (optionsAt h);
                 indexOptionsAt := indexOptionsAt h |} o1
              (lookup_insert_eq _ _ _)) as (o2 & Hrun2 & Hset2 & Hkeep2).
  exists o1, o2. unfold bind. rewrite Hrun1, Hrun2. cbn [optionsAt indexOptionsAt].
  rewrite insert_insert_eq. auto.
Qed.

(** X9: setters of different fields commute: the two orders of calling them
    leave the same heap and return the same pointer. *)
Theorem setters_commute (c1 c2 : OptionsSetter) (l : loc) (h : Heap)
    (o : Options.t) :
  optionsAt h !! l = Some o ->
  OptionsSetter_field c1 <> OptionsSetter_field c2 ->
  (let* opts := OptionsSetter_run c1 (Some l) in OptionsSetter_run c2 opts) h
  = (let* opts := OptionsSetter_run c2 (Some l) in OptionsSetter_run c1 opts) h.
Proof.
  intros Hl Hne.
  destruct (OptionsSetter_run_twice c1 c2 l h o Hl)
    as (a1 & a2 & -> & Ha1 & Hk1 & Ha2 & Hk2).
  destruct (OptionsSetter_run_twice c2 c1 l h o Hl)
    as (b1 & b2 & -> & Hb1 & Hj1 & Hb2 & Hj2).
  do 3 f_equal. f_equal. apply Options_get_ext. intros f.
  destruct (Options_field_eq_dec f (OptionsSetter_field c2)) as [-> | Hf2].
  - rewrite Ha2, (Hj2 _ (not_eq_sym Hne)). now symmetry.
  - rewrite (Hk2 f Hf2).
    destruct (Options_field_eq_dec f (OptionsSetter_field c1)) as [-> | Hf1].
    + now rewrite Ha1, Hb2.
    + now rewrite (Hk1 f Hf1), (Hj2 f Hf1), (Hj1 f Hf2).
Qed.

(** X10: the last call wins: two setters of one field in a row leave the
    heap that the second one alone leaves. *)
Theorem setter_overrides_same_field (c1 c2 : OptionsSetter) (l : loc)
    (h : Heap) (o : Options.t) :
  optionsAt h !! l = Some o ->
  OptionsSetter_field c1 = OptionsSetter_field c2 ->
  (let* opts := OptionsSetter_run c1 (Some l) in OptionsSetter_run c2 opts) h
  = OptionsSetter_run c2 (Some l) h.
Proof.
  intros Hl Heq.
  destruct (OptionsSetter_run_twice c1 c2 l h o Hl)
    as (a1 & a2 & -> & Ha1 & Hk1 & Ha2 & Hk2).
  destruct (OptionsSetter_frame c2 l h o Hl) as (b & -> & Hb & Hj).
  do 3 f_equal. f_equal. apply Options_get_ext. intros f.
  destruct (Options_field_eq_dec f (OptionsSetter_field c2)) as [-> | Hf2].
  - now rewrite Ha2, Hb.
  - rewrite (Hk2 f Hf2), (Hj f Hf2). apply Hk1. now rewrite Heq.
Qed.

Ltac destruct_ands :=
  repeat match goal with H : _ /\ _ |- _ => destruct H end.

(** X11: what [validOptions] asks beyond the size bounds: a pointer that is
    not nil, a logger and a time function that are not nil (the appendable
    factory may be nil), a cache size and a wait-list bound that are not
    negative, a header version between 0 and [MaxTxHeaderVersion], and index
    options that are not nil and pass [validIndexOptions]. *)
Theorem validOptions_requires (d : Decls) (h : Heap) (opts : option loc) :
  validOptions d h opts = true ->
  exists o,
    derefOptions h opts = Some o
    /\ opts <> None
    /\ Options.log o <> None
    /\ Options.TimeFunc o <> None
    /\ 0 <= Options.TxLogCacheSize o
    /\ 0 <= Options.MaxWaitees o
    /\ 0 <= Options.WriteTxHeaderVersion o <= MaxTxHeaderVersion d
    /\ Options.IndexOpts o <> None
    /\ validIndexOptions h (Options.IndexOpts o) = true.
Proof.
  unfold validOptions.
  destruct (derefOptions h opts) as [o|] eqn:Ho; [| discriminate].
  rewrite !andb_true_iff, !Z.leb_le, !bool_decide_eq_true.
  intros Hv. destruct_ands. exists o.
  repeat split; try assumption.
  - intros ->. discriminate Ho.
  - intros E. rewrite E in *.
    match goal with H : is_Some None |- _ => now apply is_Some_None in H end.
  - intros E. rewrite E in *.
    match goal with H : is_Some None |- _ => now apply is_Some_None in H end.
  - intros E. rewrite E in *.
    match goal with
    | H : validIndexOptions _ None = true |- _ => discriminate H
    end.
Qed.

(** X12: what [validIndexOptions] asks: a pointer that is not nil; cache
    size, flush threshold, flush buffer size, active snapshots, node size and
    the three opened-files limits positive; a renewal interval that is not
    negative; and a cleanup percentage that is a number from 0 to 100, so
    neither NaN, nor infinite, nor below zero. *)
Theorem validIndexOptions_bounds (h : Heap) (opts : option loc) :
  validIndexOptions h opts = true ->
  exists io,
    derefIndexOptions h opts = Some io
    /\ 0 < IndexOptions.CacheSize io
    /\ 0 < IndexOptions.FlushThld io
    /\ 0 < IndexOptions.FlushBufferSize io
    /\ 0 < IndexOptions.MaxActiveSnapshots io
    /\ 0 < IndexOptions.MaxNodeSize io
    /\ 0 <= IndexOptions.RenewSnapRootAfter io
    /\ 0 < IndexOptions.NodesLogMaxOpenedFiles io
    /\ 0 < IndexOptions.HistoryLogMaxOpenedFiles io
    /\ 0 < IndexOptions.CommitLogMaxOpenedFiles io
    /\ float32_le float32_0 (IndexOptions.CleanupPercentage io) = true
    /\ float32_le (IndexOptions.CleanupPercentage io) float32_100 = true
    /\ match IndexOptions.CleanupPercentage io with
       | S754_zero _ | S754_finite false _ _ => True
       | S754_nan | S754_infinity _ | S754_finite true _ _ => False
       end.
Proof.
  unfold validIndexOptions.
  destruct (derefIndexOptions h opts) as [io|]; [| discriminate].
  rewrite !andb_true_iff, !Z.ltb_lt, !Z.leb_le.
  intros Hv. destruct_ands. exists io.
  repeat split; try assumption.
  destruct (IndexOptions.CleanupPercentage io) as [sg | [|] | | [|] m e];
    try exact I; discriminate.
Qed.

(** X13: on any heap [DefaultOptions] returns a pointer to a new object:
    the address, and the address of the index options that the object points
    to, held no object before, and the heap afterwards is the heap before
    with these two objects added.  The new options pass [validOptions]
    exactly when the constants taken from outside are sound:
    [MaxParallelIO >= 1], [MaxTxHeaderVersion >= 0], [MaxKeyLen >= 1024], a
    default file size between 0 and (1<<31)-1, and index defaults within the
    bounds of [validIndexOptions]. *)
Theorem DefaultOptions_valid_iff (d : Decls) (h : Heap) :
  exists l li o io h',
    DefaultOptions d h = Some (Some l, h')
    /\ optionsAt h !! l = None
    /\ indexOptionsAt h !! li = None
    /\ optionsAt h' = <[l := o]> (optionsAt h)
    /\ indexOptionsAt h' = <[li := io]> (indexOptionsAt h)
    /\ Options.IndexOpts o = Some li
    /\ (validOptions d h' (Some l) = true <-> defaultsAcceptable d).
Proof.
  unfold DefaultOptions, DefaultIndexOptions, bind, newIndexOptions,
    newOptions.
  do 5 eexists. split; [reflexivity |].
  cbn [optionsAt indexOptionsAt].
  split; [apply not_elem_of_dom, is_fresh |].
  split; [apply not_elem_of_dom, is_fresh |].
  split; [reflexivity |]. split; [reflexivity |]. split; [reflexivity |].
  unfold validOptions, validIndexOptions, derefOptions, derefIndexOptions.
  cbn [optionsAt indexOptionsAt]. rewrite lookup_insert_eq.
  cbn [Options.MaxConcurrency Options.MaxIOConcurrency
       Options.MaxLinearProofLen Options.VLogMaxOpenedFiles
       Options.TxLogMaxOpenedFiles Options.CommitLogMaxOpenedFiles
       Options.TxLogCacheSize Options.MaxWaitees Options.TimeFunc
       Options.WriteTxHeaderVersion Options.MaxTxEntries Options.MaxKeyLen
       Options.MaxValueLen Options.FileSize Options.log Options.IndexOpts].
  rewrite lookup_insert_eq.
  cbn [IndexOptions.CacheSize IndexOptions.FlushThld
       IndexOptions.FlushBufferSize IndexOptions.CleanupPercentage
       IndexOptions.MaxActiveSnapshots IndexOptions.MaxNodeSize
       IndexOptions.RenewSnapRootAfter IndexOptions.NodesLogMaxOpenedFiles
       IndexOptions.HistoryLogMaxOpenedFiles
       IndexOptions.CommitLogMaxOpenedFiles].
  unfold defaultsAcceptable, DefaultWriteTxHeaderVersion, DefaultFileSize.
  rewrite !andb_true_iff, !Z.ltb_lt, !Z.leb_le, !bool_decide_eq_true.
  change DefaultMaxConcurrency with 30.
  change DefaultMaxIOConcurrency with 1.
  change DefaultMaxLinearProofLen with 1024.
  change DefaultVLogMaxOpenedFiles with 10.
  change DefaultTxLogMaxOpenedFiles with 10.
  change DefaultCommitLogMaxOpenedFiles with 10.
  change DefaultTxLogCacheSize with 1000.
  change DefaultMaxWaitees with 1000.
  change DefaultMaxTxEntries with 1024.
  change DefaultMaxKeyLen with 1024.
  change DefaultMaxValueLen with 4096.
  split; intros Hv; destruct_ands; repeat split;
    first [ assumption | lia | (eexists; reflexivity) ].
Qed.

Lemma unchecked_chain_fields (cs : list OptionsSetter) :
  forallb OptionsSetter_unchecked cs = true ->
  forall f, f ∈ OptionsSetter_field <$> cs ->
    f = Options.F_ReadOnly \/ f = Options.F_Synced \/ f = Options.F_FileMode
    \/ f = Options.F_appFactory \/ f = Options.F_CompactionDisabled
    \/ f = Options.F_CompressionFormat \/ f = Options.F_CompressionLevel.
Proof.
  induction cs as [|c cs IH]; cbn [forallb fmap list_fmap]; intros Hu f Hin.
  - now apply elem_of_nil in Hin.
  - apply andb_true_iff in Hu as [Hc Hcs].
    apply elem_of_cons in Hin as [-> | Hin]; [| now apply IH].
    destruct c; try discriminate Hc; cbn [OptionsSetter_field]; tauto.
Qed.

(** X14: the fields that [validOptions] never reads.  After any chain of
    [WithReadOnly], [WithSynced], [WithFileMode], [WithAppFactory],
    [WithCompactionDisabled], [WithCompressionFormat] and
    [WithCompresionLevel], with any arguments, [validOptions] answers what it
    answered before: no compression format or level is refused. *)
Theorem validOptions_ignores_unchecked (d : Decls) (cs : list OptionsSetter)
    (l : loc) (h h' : Heap) (o : Options.t) (opts : option loc) :
  optionsAt h !! l = Some o ->
  forallb OptionsSetter_unchecked cs = true ->
  Options_chain cs (Some l) h = Some (opts, h') ->
  validOptions d h' opts = validOptions d h (Some l).
Proof.
  intros Hl Hu Hrun.
  destruct (Options_chain_frame cs l h o Hl) as (o' & Hchain & Hkeep).
  rewrite Hchain in Hrun. injection Hrun as <- <-.
  assert (K : forall f,
             (f = Options.F_ReadOnly \/ f = Options.F_Synced
              \/ f = Options.F_FileMode \/ f = Options.F_appFactory
              \/ f = Options.F_CompactionDisabled
              \/ f = Options.F_CompressionFormat
              \/ f = Options.F_CompressionLevel -> False) ->
             Options.get f o' = Options.get f o).
  { intros f Hf. apply Hkeep. intros Hin.
    exact (Hf (unchecked_chain_fields cs Hu f Hin)). }
  unfold validOptions, validIndexOptions, derefOptions, derefIndexOptions.
  cbn [optionsAt indexOptionsAt]. rewrite lookup_insert_eq, Hl.
  pose proof (K Options.F_MaxConcurrency) as K1.
  pose proof (K Options.F_MaxIOConcurrency) as K2.
  pose proof (K Options.F_MaxLinearProofLen) as K3.
  pose proof (K Options.F_VLogMaxOpenedFiles) as K4.
  pose proof (K Options.F_TxLogMaxOpenedFiles) as K5.
  pose proof (K Options.F_CommitLogMaxOpenedFiles) as K6.
  pose proof (K Options.F_TxLogCacheSize) as K7.
  pose proof (K Options.F_MaxWaitees) as K8.
  pose proof (K Options.F_TimeFunc) as K9.
  pose proof (K Options.F_WriteTxHeaderVersion) as K10.
  pose proof (K Options.F_MaxTxEntries) as K11.
  pose proof (K Options.F_MaxKeyLen) as K12.
  pose proof (K Options.F_MaxValueLen) as K13.
  pose proof (K Options.F_FileSize) as K14.
  pose proof (K Options.F_log) as K15.
  pose proof (K Options.F_IndexOpts) as K16.
  cbn [Options.get] in K1, K2, K3, K4, K5, K6, K7, K8, K9, K10, K11, K12,
    K13, K14, K15, K16.
  rewrite K1, K2, K3, K4, K5, K6, K7, K8, K9, K10, K11, K12, K13, K14, K15,
    K16; try reflexivity;
    intros Hf; repeat (destruct Hf as [Hf | Hf]; [discriminate Hf |]);
    discriminate Hf.
Qed.

(** X15: [WithIndexOptions] stores the pointer, not a copy, and validation
    reads through it: after options have passed [validOptions], a call of
    [WithCacheSize(v)] on the index options they point to changes the answer
    of [validOptions] on the same options to [v > 0]. *)
Theorem validOptions_sees_index_mutation (d : Decls) (h : Heap)
    (opts : option loc) (o : Options.t) (li : loc) (v : int) :
  validOptions d h opts = true ->
  derefOptions h opts = Some o ->
  Options.IndexOpts o = Some li ->
  exists h',
    IndexOptions_WithCacheSize (Some li) v h = Some (Some li, h')
    /\ derefOptions h' opts = Some o
    /\ validOptions d h' opts = (0 <? v).
Proof.
  intros Hv Ho Hli.
  unfold validOptions in Hv. rewrite Ho, Hli in Hv.
  rewrite !andb_true_iff in Hv. destruct_ands.
  match goal with
  | Hi : validIndexOptions h (Some li) = true |- _ =>
      unfold validIndexOptions, derefIndexOptions in Hi;
      destruct (indexOptionsAt h !! li) as [io|] eqn:Hio; [| discriminate Hi];
      rewrite !andb_true_iff in Hi
  end.
  destruct_ands.
  eexists. split; [| split].
  - unfold IndexOptions_WithCacheSize.
    apply (assignIndexOptions_run _ _ _ _ Hio).
  - destruct opts; exact Ho.
  - unfold validOptions.
    replace (derefOptions _ opts) with (Some o) by (destruct opts; now rewrite <- Ho).
    rewrite Hli.
    unfold validIndexOptions, derefIndexOptions.
    cbn [indexOptionsAt]. rewrite lookup_insert_eq.
    destruct io. cbn in *.
    repeat match goal with H : _ = true |- _ => rewrite H; clear H end.
    now rewrite !andb_true_r.
Qed.

End StoreMore.

(** *** At example inputs *)

Lemma setters_commute_witness :
  Store.OptionsSetter_field (Store.Options_call_WithSynced false)
  <> Store.OptionsSetter_field (Store.Options_call_WithMaxKeyLen 512)
  /\ Store.bind
       (Store.OptionsSetter_run (Store.Options_call_WithSynced false)
          (Some 1%positive))
       (fun opts =>
          Store.OptionsSetter_run (Store.Options_call_WithMaxKeyLen 512) opts)
       Store.exampleHeap
     = Store.bind
         (Store.OptionsSetter_run (Store.Options_call_WithMaxKeyLen 512)
            (Some 1%positive))
         (fun opts =>
            Store.OptionsSetter_run (Store.Options_call_WithSynced false) opts)
         Store.exampleHeap.
Proof.
  assert (Hne : Store.OptionsSetter_field (Store.Options_call_WithSynced false)
                <> Store.OptionsSetter_field
                     (Store.Options_call_WithMaxKeyLen 512))
    by discriminate.
  split; [exact Hne |].
  destruct (Store.optionsAt Store.exampleHeap !! 1%positive) as [o|] eqn:Hl;
    [| vm_compute in Hl; discriminate Hl].
  exact (setters_commute (Store.Options_call_WithSynced false)
           (Store.Options_call_WithMaxKeyLen 512) 1%positive
           Store.exampleHeap o Hl Hne).
Defined.

Lemma setter_overrides_same_field_witness :
  Store.OptionsSetter_field (Store.Options_call_WithFileSize 4096)
  = Store.OptionsSetter_field (Store.Options_call_WithFileSize 8192)
  /\ Store.bind
       (Store.OptionsSetter_run (Store.Options_call_WithFileSize 4096)
          (Some 1%positive))
       (fun opts =>
          Store.OptionsSetter_run (Store.Options_call_WithFileSize 8192) opts)
       Store.exampleHeap
     = Store.OptionsSetter_run (Store.Options_call_WithFileSize 8192)
         (Some 1%positive) Store.exampleHeap.
Proof.
  split; [reflexivity |].
  destruct (Store.optionsAt Store.exampleHeap !! 1%positive) as [o|] eqn:Hl;
    [| vm_compute in Hl; discriminate Hl].
  exact (setter_overrides_same_field (Store.Options_call_WithFileSize 4096)
           (Store.Options_call_WithFileSize 8192) 1%positive
           Store.exampleHeap o Hl eq_refl).
Defined.

Lemma validOptions_requires_witness :
  Store.validOptions Store.exampleDecls Store.exampleHeap Store.exampleOptions
  = true
  /\ exists o,
       Store.derefOptions Store.exampleHeap Store.exampleOptions = Some o
       /\ Store.Options.log o <> None
       /\ Store.Options.TimeFunc o <> None
       /\ Store.Options.IndexOpts o <> None.
Proof.
  assert (Hv : Store.validOptions Store.exampleDecls Store.exampleHeap
                 Store.exampleOptions = true) by (vm_compute; reflexivity).
  split; [exact Hv |].
  destruct (validOptions_requires Store.exampleDecls Store.exampleHeap
              Store.exampleOptions Hv)
    as (o & Ho & _ & Hlog & Htf & _ & _ & _ & Hio & _).
  exists o. auto.
Defined.

Lemma validIndexOptions_bounds_witness :
  Store.validIndexOptions Store.exampleHeap (Some 1%positive) = true
  /\ exists io,
       Store.derefIndexOptions Store.exampleHeap (Some 1%positive) = Some io
       /\ 0 < Store.IndexOptions.CacheSize io
       /\ Store.float32_le (Store.IndexOptions.CleanupPercentage io)
            Store.float32_100 = true.
Proof.
  assert (Hv : Store.validIndexOptions Store.exampleHeap (Some 1%positive)
               = true) by (vm_compute; reflexivity).
  split; [exact Hv |].
  destruct (validIndexOptions_bounds Store.exampleHeap (Some 1%positive) Hv)
    as (io & Hio & Hc & _ & _ & _ & _ & _ & _ & _ & _ & _ & Hle & _).
  exists io. auto.
Defined.

Lemma validOptions_ignores_unchecked_witness :
  exists opts h',
    Store.Options_chain
      [Store.Options_call_WithCompressionFormat 99;
       Store.Options_call_WithCompresionLevel (-7)]
      (Some 1%positive) Store.exampleHeap = Some (opts, h')
    /\ Store.validOptions Store.exampleDecls h' opts
       = Store.validOptions Store.exampleDecls Store.exampleHeap
           (Some 1%positive).
Proof.
  destruct (Store.optionsAt Store.exampleHeap !! 1%positive) as [o|] eqn:Hl;
    [| vm_compute in Hl; discriminate Hl].
  destruct (Store.Options_chain
              [Store.Options_call_WithCompressionFormat 99;
               Store.Options_call_WithCompresionLevel (-7)]
              (Some 1%positive) Store.exampleHeap) as [[opts h']|] eqn:E.
  - exists opts, h'. split; [reflexivity |].
    exact (validOptions_ignores_unchecked Store.exampleDecls
             [Store.Options_call_WithCompressionFormat 99;
              Store.Options_call_WithCompresionLevel (-7)]
             1%positive Store.exampleHeap h' o opts Hl eq_refl E).
  - vm_compute in E. discriminate E.
Defined.

Lemma validOptions_sees_index_mutation_witness :
  Store.validOptions Store.exampleDecls Store.exampleHeap (Some 1%positive)
  = true
  /\ exists h',
       Store.IndexOptions_WithCacheSize (Some 1%positive) 0 Store.exampleHeap
       = Some (Some 1%positive, h')
       /\ Store.validOptions Store.exampleDecls h' (Some 1%positive) = false.
Proof.
  assert (Hv : Store.validOptions Store.exampleDecls Store.exampleHeap
                 (Some 1%positive) = true) by (vm_compute; reflexivity).
  split; [exact Hv |].
  destruct (Store.derefOptions Store.exampleHeap (Some 1%positive))
    as [o|] eqn:Ho; [| vm_compute in Ho; discriminate Ho].
  assert (Hli : Store.Options.IndexOpts o = Some 1%positive).
  { vm_compute in Ho. injection Ho as <-. reflexivity. }
  destruct (validOptions_sees_index_mutation Store.exampleDecls
              Store.exampleHeap (Some 1%positive) o 1%positive 0 Hv Ho Hli)
    as (h' & Hrun & _ & Hval).
  exists h'. split; [exact Hrun | exact Hval].
Defined.

(** ** immuadmin: errors of the settings, and the create and update runs *)
Section ImmuadminMore.
Import Immuadmin.
#[local] Set Warnings "-clear-no-such-hyp".

(** X16: without the replica flag set, the settings hold the database name
    and nothing else: the master and replica flags are not read, so they
    neither enter the result nor can make the command fail. *)
Theorem prepareDatabaseSettings_without_replica (db : string)
    (flags : pflag.FlagSet) :
  pflag.GetBool flags "replica" = inr false ->
  prepareDatabaseSettings db flags
  = inr {| DatabaseName := db; Replica := false; MasterDatabase := "";
           MasterAddress := ""; MasterPort := 0%N; ReplicaUsername := "";
           ReplicaPassword := "" |}.
Proof. intros Hr. unfold prepareDatabaseSettings. now rewrite Hr. Qed.

(** X17: [prepareDatabaseSettings] fails with the error of the first read
    that fails, in the order replica, master-database, master-address,
    master-port, replica-username, the last four being read only for a
    replica; it fails in no other case. *)
Theorem prepareDatabaseSettings_first_error (db : string)
    (flags : pflag.FlagSet) (err : pflag.error) :
  prepareDatabaseSettings db flags = inl err
  <-> pflag.GetBool flags "replica" = inl err
      \/ (pflag.GetBool flags "replica" = inr true
          /\ (pflag.GetString flags "master-database" = inl err
              \/ ((exists v, pflag.GetString flags "master-database" = inr v)
                  /\ (pflag.GetString flags "master-address" = inl err
                      \/ ((exists v,
                             pflag.GetString flags "master-address" = inr v)
                          /\ (pflag.GetUint32 flags "master-port" = inl err
                              \/ ((exists n,
                                     pflag.GetUint32 flags "master-port"
                                     = inr n)
                                  /\ pflag.GetString flags "replica-username"
                                     = inl err))))))).
Proof.
  unfold prepareDatabaseSettings.
  destruct (pflag.GetBool flags "replica") as [e0 | [|]]; cbn [try negb];
    [naive_solver | | naive_solver].
  destruct (pflag.GetString flags "master-database") as [e1 | md];
    cbn [try]; [naive_solver |].
  destruct (pflag.GetString flags "master-address") as [e2 | ma];
    cbn [try]; [naive_solver |].
  destruct (pflag.GetUint32 flags "master-port") as [e3 | mp];
    cbn [try]; [naive_solver |].
  destruct (pflag.GetString flags "replica-username") as [e4 | ru];
    cbn [try]; naive_solver.
Qed.

(** X18: on a flag set that holds the declared types, as the create and the
    update command build it, [prepareDatabaseSettings] cannot fail; the
    settings carry the database name and the value of the replica flag. *)
Theorem prepareDatabaseSettings_declared_flags (db : string)
    (flags : pflag.FlagSet) :
  declaredTypes flags ->
  exists settings,
    prepareDatabaseSettings db flags = inr settings
    /\ DatabaseName settings = db
    /\ flags !! "replica" = Some (pflag.boolValue (Replica settings)).
Proof.
  intros ([b Hb] & [md Hmd] & [ma Hma] & [mp Hmp] & [ru Hru]).
  unfold prepareDatabaseSettings, pflag.GetBool, pflag.GetString,
    pflag.GetUint32.
  rewrite Hb, Hmd, Hma, Hmp, Hru. cbn [try].
  destruct b; cbn [negb]; eexists; (split; [reflexivity |]); split;
    reflexivity.
Qed.

(** Whatever the flags, settings that come back carry the user name as
    password. *)
Lemma prepareDatabaseSettings_password (db : string) (flags : pflag.FlagSet)
    (settings : DatabaseSettings) :
  prepareDatabaseSettings db flags = inr settings ->
  ReplicaPassword settings = ReplicaUsername settings.
Proof.
  unfold prepareDatabaseSettings.
  destruct (pflag.GetBool flags "replica") as [e0 | [|]]; cbn [try negb];
    [discriminate | | now intros [= <-]].
  destruct (pflag.GetString flags "master-database"); cbn [try];
    [discriminate |].
  destruct (pflag.GetString flags "master-address"); cbn [try];
    [discriminate |].
  destruct (pflag.GetUint32 flags "master-port"); cbn [try];
    [discriminate |].
  destruct (pflag.GetString flags "replica-username"); cbn [try];
    [discriminate |].
  now intros [= <-].
Qed.

(** X19: a run of the create command with a database name.  The run
    succeeds exactly when the settings could be prepared and the server
    accepted them; the server is asked exactly when the settings could be
    prepared, and then with those settings; the success line is written
    exactly when the run succeeds; and when the flags cannot be read nothing
    is written or sent. *)
Theorem createRunE_outcomes
    (createDatabase : DatabaseSettings -> option string)
    (name : string) (rest : list string) (flags : pflag.FlagSet) :
  let run := createRunE createDatabase (name :: rest) flags in
  (fst run = RunOk
   <-> exists settings,
         prepareDatabaseSettings name flags = inr settings
         /\ createDatabase settings = None)
  /\ (forall settings,
        CreateDatabase settings ∈ snd run
        <-> prepareDatabaseSettings name flags = inr settings)
  /\ (fst run = RunOk <-> exists text, Fprintf text ∈ snd run)
  /\ (forall err,
        prepareDatabaseSettings name flags = inl err ->
        run = (RunErr (FlagError err), [])).
Proof.
  cbv zeta. unfold createRunE.
  destruct (prepareDatabaseSettings name flags) as [err | settings].
  - cbn [fst snd]. repeat split; try discriminate.
    + intros (st & [=] & _).
    + intros Hin. now apply elem_of_nil in Hin.
    + intros [text Hin]. now apply elem_of_nil in Hin.
    + now intros e [= <-].
  - destruct (createDatabase settings) as [msg |] eqn:Hcd; cbn [fst snd].
    + repeat split; try discriminate.
      * intros (st & [= <-] & Hn). congruence.
      * intros Hin. f_equal.
        destruct (Replica settings); set_solver.
      * intros [= <-]. set_solver.
      * intros [text Hin]. destruct (Replica settings); set_solver.
    + repeat split; try discriminate; try reflexivity.
      * intros _. now exists settings.
      * intros Hin. f_equal.
        destruct (Replica settings); set_solver.
      * intros [= <-]. set_solver.
      * intros _. eexists. apply elem_of_app. right. do 2 constructor.
Qed.

(** X20: the value of the "replica-password" flag reaches neither the
    server nor the output: a run of the create or of the update command is
    the same whatever that flag holds, and every settings value sent to the
    server carries the user name in its password field. *)
Theorem password_flag_never_sent
    (answer : DatabaseSettings -> option string)
    (args : list string) (flags : pflag.FlagSet) :
  (forall v : pflag.Value,
      createRunE answer args (<["replica-password" := v]> flags)
      = createRunE answer args flags
      /\ updateRunE answer args (<["replica-password" := v]> flags)
         = updateRunE answer args flags)
  /\ (forall settings,
        CreateDatabase settings ∈ snd (createRunE answer args flags)
        \/ UpdateDatabase settings ∈ snd (updateRunE answer args flags) ->
        ReplicaPassword settings = ReplicaUsername settings).
Proof.
  split.
  - intros v. unfold createRunE, updateRunE. destruct args as [|name rest];
      [split; reflexivity |].
    now rewrite prepareDatabaseSettings_ignores_password.
  - intros settings. unfold createRunE, updateRunE.
    destruct args as [|name rest]; cbn [snd]; [set_solver |].
    destruct (prepareDatabaseSettings name flags) as [err | st] eqn:Hp;
      cbn [snd]; [set_solver |].
    pose proof (prepareDatabaseSettings_password name flags st Hp) as Hpw.
    destruct (answer st), (Replica st); cbn [snd];
      intros [Hin | Hin]; set_solver.
Qed.

End ImmuadminMore.

(** *** At example inputs *)

Lemma prepareDatabaseSettings_without_replica_witness :
  pflag.GetBool Immuadmin.databaseFlags "replica" = inr false
  /\ Immuadmin.prepareDatabaseSettings "db1" Immuadmin.databaseFlags
     = inr {| Immuadmin.DatabaseName := "db1";
              Immuadmin.Replica := false;
              Immuadmin.MasterDatabase := "";
              Immuadmin.MasterAddress := "";
              Immuadmin.MasterPort := 0%N;
              Immuadmin.ReplicaUsername := "";
              Immuadmin.ReplicaPassword := "" |}.
Proof.
  assert (Hr : pflag.GetBool Immuadmin.databaseFlags "replica" = inr false)
    by (vm_compute; reflexivity).
  split; [exact Hr |].
  exact (prepareDatabaseSettings_without_replica "db1"
           Immuadmin.databaseFlags Hr).
Defined.

Lemma prepareDatabaseSettings_declared_flags_witness :
  Immuadmin.declaredTypes Immuadmin.exampleFlags
  /\ exists settings,
       Immuadmin.prepareDatabaseSettings "db1" Immuadmin.exampleFlags
       = inr settings
       /\ Immuadmin.DatabaseName settings = "db1".
Proof.
  assert (Hd : Immuadmin.declaredTypes Immuadmin.exampleFlags).
  { repeat split; eexists; vm_compute; reflexivity. }
  split; [exact Hd |].
  destruct (prepareDatabaseSettings_declared_flags "db1"
              Immuadmin.exampleFlags Hd) as (settings & Hp & Hn & _).
  exists settings. split; [exact Hp | exact Hn].
Defined.

(** ** The Azure backend: the printed name and the listing prefix *)
Section AzureCompose.
Context {sdk : Azure.SDK}.

(** X21: [String] names the endpoint only: two storages opened on one
    endpoint print the same, whatever their containers and prefixes, and
    what is printed is "blob:" followed by the endpoint with one '/' at its
    end. *)
Theorem String_names_endpoint_only (endpoint c1 p1 c2 p2 : string)
    (cred1 cred2 : Azure.TokenCredential sdk) (s1 s2 : Azure.Storage sdk) :
  Azure.Open sdk endpoint c1 p1 cred1 = Azure.Ok s1 ->
  Azure.Open sdk endpoint c2 p2 cred2 = Azure.Ok s2 ->
  Azure.String s1 = Azure.String s2
  /\ Azure.String s1 = "blob:" ++ strings.TrimRight endpoint "/" ++ "/".
Proof.
  intros H1 H2.
  destruct (Open_Ok_inv _ _ _ _ _ H1) as (_ & E1 & _).
  destruct (Open_Ok_inv _ _ _ _ _ H2) as (_ & E2 & _).
  unfold Azure.String. rewrite E1, E2. split; reflexivity.
Qed.

(** X22: the prefix that [ListEntries] asks the container for, on a storage
    that [Open] returned and with a path that passes, is empty or ends with
    '/': a listing never asks for a partial name. *)
Theorem ListEntries_asks_for_directory (endpoint container prefix : string)
    (cred : Azure.TokenCredential sdk) (s : Azure.Storage sdk)
    (path : string) (st : Azure.state sdk) :
  Azure.Open sdk endpoint container prefix cred = Azure.Ok s ->
  Azure.pathAccepted path ->
  exists asked,
    Azure.trace (snd (Azure.ListEntries s path st))
    = (Azure.trace st ++ [Azure.EvListBlobsHierarchy "/" asked])%list
    /\ (asked = "" \/ StringSpec.endsWith asked "/").
Proof.
  intros Hopen Hacc.
  exists (Azure.prefix s ++ path). split.
  - pose proof (ListEntries_accepted s path st Hacc) as L.
    destruct (Azure.ListBlobsHierarchy _ _ _ _) as [pages w].
    cbv zeta in L. rewrite L.
    destruct (decide (Azure.complete pages)); [destruct (_ && _) |];
      reflexivity.
  - destruct (Open_Ok_inv _ _ _ _ _ Hopen) as (_ & _ & _ & Hp).
    destruct Hacc as [-> | [[r ->] _]].
    + rewrite append_nil_r, Hp.
      destruct (String.eqb_spec (strings.Trim prefix "/") "") as [-> | _];
        [now left | right; now eexists].
    + right. exists (Azure.prefix s ++ r). now rewrite append_assoc.
Qed.

End AzureCompose.

Lemma String_names_endpoint_only_witness :
  Azure.String
    (Azure.Build_Storage Azure.pagesSDK "https://host/immudb/" "a" "" tt
       (Azure.Build_ContainerClient Azure.pagesSDK "https://host/immudb/" tt))
  = Azure.String
      (Azure.Build_Storage Azure.pagesSDK "https://host/immudb/" "b" "p/" tt
         (Azure.Build_ContainerClient Azure.pagesSDK "https://host/immudb/"
            tt)).
Proof.
  exact (proj1 (String_names_endpoint_only (sdk := Azure.pagesSDK)
                  "https://host/immudb" "a" "" "/b" "p" tt tt _ _
                  eq_refl eq_refl)).
Defined.

Lemma ListEntries_asks_for_directory_witness :
  Azure.pathAccepted "tx/"
  /\ exists asked,
       Azure.trace
         (snd (Azure.ListEntries
                 (Azure.Build_Storage Azure.pagesSDK "https://host/immudb/"
                    "b" "p/" tt
                    (Azure.Build_ContainerClient Azure.pagesSDK
                       "https://host/immudb/" tt))
                 "tx/" (Azure.startState Azure.sortedPages)))
       = [Azure.EvListBlobsHierarchy "/" asked]
       /\ (asked = "" \/ StringSpec.endsWith asked "/").
Proof.
  assert (Hacc : Azure.pathAccepted "tx/").
  { right. split; [exists "tx"; reflexivity |].
    intros Ho. apply Contains_spec in Ho. vm_compute in Ho. discriminate Ho. }
  split; [exact Hacc |].
  exact (ListEntries_asks_for_directory (sdk := Azure.pagesSDK)
           "https://host/immudb" "/b" "p" tt _ "tx/"
           (Azure.startState Azure.sortedPages) eq_refl Hacc).
Defined.

(** ** The setters of the index options, two in a row *)
Section IndexSetters.
Import Store.

Lemma IndexOptions_get_ext (o1 o2 : IndexOptions.t) :
  (forall f, IndexOptions.get f o1 = IndexOptions.get f o2) -> o1 = o2.
Proof.
  intros Hall. destruct o1, o2.
  f_equal;
    [ exact (Hall IndexOptions.F_CacheSize)
    | exact (Hall IndexOptions.F_FlushThld)
    | exact (Hall IndexOptions.F_SyncThld)
    | exact (Hall IndexOptions.F_FlushBufferSize)
    | exact (Hall IndexOptions.F_CleanupPercentage)
    | exact (Hall IndexOptions.F_MaxActiveSnapshots)
    | exact (Hall IndexOptions.F_MaxNodeSize)
    | exact (Hall IndexOptions.F_RenewSnapRootAfter)
    | exact (Hall IndexOptions.F_CompactionThld)
    | exact (Hall IndexOptions.F_DelayDuringCompaction)
    | exact (Hall IndexOptions.F_NodesLogMaxOpenedFiles)
    | exact (Hall IndexOptions.F_HistoryLogMaxOpenedFiles)
    | exact (Hall IndexOptions.F_CommitLogMaxOpenedFiles) ].
Qed.

Lemma IndexOptions_field_eq_dec (f g : IndexOptions.field) :
  {f = g} + {f <> g}.
Proof. decide equality. Defined.

Lemma IndexOptionsSetter_run_twice (c1 c2 : IndexOptionsSetter) (l : loc)
    (h : Heap) (o : IndexOptions.t) :
  indexOptionsAt h !! l = Some o ->
  exists o1 o2,
    (let* opts := IndexOptionsSetter_run c1 (Some l) in
     IndexOptionsSetter_run c2 opts) h
    = Some (Some l, {| optionsAt := optionsAt h;
                       indexOptionsAt := <[l := o2]> (indexOptionsAt h) |})
    /\ IndexOptions.get (IndexOptionsSetter_field c1) o1
       = IndexOptionsSetter_arg c1
    /\ (forall f, f <> IndexOptionsSetter_field c1 ->
                  IndexOptions.get f o1 = IndexOptions.get f o)
    /\ IndexOptions.get (IndexOptionsSetter_field c2) o2
       = IndexOptionsSetter_arg c2
    /\ (forall f, f <> IndexOptionsSetter_field c2 ->
                  IndexOptions.get f o2 = IndexOptions.get f o1).
Proof.
  intros Hl.
  destruct (IndexOptionsSetter_frame c1 l h o Hl)
    as (o1 & Hrun1 & Hset1 & Hkeep1).
  destruct (IndexOptionsSetter_frame c2 l
              {| optionsAt := optionsAt h;
                 indexOptionsAt := <[l := o1]> (indexOptionsAt h) |} o1
              (lookup_insert_eq _ _ _)) as (o2 & Hrun2 & Hset2 & Hkeep2).
  exists o1, o2. unfold bind. rewrite Hrun1, Hrun2.
  cbn [optionsAt indexOptionsAt]. rewrite insert_insert_eq. auto.
Qed.

(** X23: two setters of [*IndexOptions] in a row.  Setters of different
    fields commute, and of two setters of one field the second wins: the
    heap is the one that the second call alone leaves. *)
Theorem index_setters_compose (c1 c2 : IndexOptionsSetter) (l : loc)
    (h : Heap) (o : IndexOptions.t) :
  indexOptionsAt h !! l = Some o ->
  (IndexOptionsSetter_field c1 <> IndexOptionsSetter_field c2 ->
   (let* opts := IndexOptionsSetter_run c1 (Some l) in
    IndexOptionsSetter_run c2 opts) h
   = (let* opts := IndexOptionsSetter_run c2 (Some l) in
      IndexOptionsSetter_run c1 opts) h)
  /\ (IndexOptionsSetter_field c1 = IndexOptionsSetter_field c2 ->
      (let* opts := IndexOptionsSetter_run c1 (Some l) in
       IndexOptionsSetter_run c2 opts) h
      = IndexOptionsSetter_run c2 (Some l) h).
Proof.
  intros Hl.
  destruct (IndexOptionsSetter_run_twice c1 c2 l h o Hl)
    as (a1 & a2 & -> & Ha1 & Hk1 & Ha2 & Hk2).
  split.
  - intros Hne.
    destruct (IndexOptionsSetter_run_twice c2 c1 l h o Hl)
      as (b1 & b2 & -> & Hb1 & Hj1 & Hb2 & Hj2).
    do 3 f_equal. f_equal. apply IndexOptions_get_ext. intros f.
    destruct (IndexOptions_field_eq_dec f (IndexOptionsSetter_field c2))
      as [-> | Hf2].
    + rewrite Ha2, (Hj2 _ (not_eq_sym Hne)). now symmetry.
    + rewrite (Hk2 f Hf2).
      destruct (IndexOptions_field_eq_dec f (IndexOptionsSetter_field c1))
        as [-> | Hf1].
      * now rewrite Ha1, Hb2.
      * now rewrite (Hk1 f Hf1), (Hj2 f Hf1), (Hj1 f Hf2).
  - intros Heq.
    destruct (IndexOptionsSetter_frame c2 l h o Hl) as (b & -> & Hb & Hj).
    do 3 f_equal. f_equal. apply IndexOptions_get_ext. intros f.
    destruct (IndexOptions_field_eq_dec f (IndexOptionsSetter_field c2))
      as [-> | Hf2].
    + now rewrite Ha2, Hb.
    + rewrite (Hk2 f Hf2), (Hj f Hf2). apply Hk1. now rewrite Heq.
Qed.

End IndexSetters.

Lemma index_setters_compose_witness :
  Store.bind
    (Store.IndexOptionsSetter_run (Store.IndexOptions_call_WithCacheSize 10)
       (Some 1%positive))
    (fun opts =>
       Store.IndexOptionsSetter_run (Store.IndexOptions_call_WithSyncThld 20)
         opts)
    Store.exampleHeap
  = Store.bind
      (Store.IndexOptionsSetter_run (Store.IndexOptions_call_WithSyncThld 20)
         (Some 1%positive))
      (fun opts =>
         Store.IndexOptionsSetter_run
           (Store.IndexOptions_call_WithCacheSize 10) opts)
      Store.exampleHeap.
Proof.
  destruct (Store.indexOptionsAt Store.exampleHeap !! 1%positive)
    as [o|] eqn:Hl; [| vm_compute in Hl; discriminate Hl].
  apply (proj1 (index_setters_compose
                  (Store.IndexOptions_call_WithCacheSize 10)
                  (Store.IndexOptions_call_WithSyncThld 20) 1%positive
                  Store.exampleHeap o Hl)).
  discriminate.
Defined.
